(** * SmartBrain (dual-brain router): a shallow embedding and its properties

  The development follows [src/brain/claude.js] (class [SmartBrain]):
  JavaScript strings and regular expressions first, then the values and
  effects of the program (HTTP requests, skills, the clock), then the
  methods of the class, and finally the properties.

  Modelling conventions.
  - A JavaScript string is a [string] of one-byte characters; case
    mapping, [\s], [\w] and [\b] are the ASCII ones.
  - A number is an integer ([Z]) or [NaN]; the fractional literals of
    the request bodies (temperatures) are kept as written.
  - Every thrown value is an [Error] object (it has a [message]), and
    the logger never throws. *)

From Stdlib Require Import String Ascii List ZArith Lia Bool Arith.
Import ListNotations.
Set Warnings "-register-all".
Local Open Scope list_scope.
Local Open Scope string_scope.

(** ** Characters *)

Module Chr.

Definition code (c : ascii) : nat := nat_of_ascii c.

Definition between (lo hi : nat) (c : ascii) : bool :=
  (lo <=? code c)%nat && (code c <=? hi)%nat.

Definition is_upper : ascii -> bool := between 65 90.
Definition is_lower : ascii -> bool := between 97 122.
Definition is_digit : ascii -> bool := between 48 57.

(** [\w] is [[A-Za-z0-9_]]. *)
Definition is_word (c : ascii) : bool :=
  is_upper c || is_lower c || is_digit c || (code c =? 95)%nat.

(** [\s] and [trim]: tab, line feed, vertical tab, form feed, carriage
    return and space. *)
Definition is_space (c : ascii) : bool :=
  between 9 13 c || (code c =? 32)%nat.

(** [.] excludes the line terminators. *)
Definition is_line_terminator (c : ascii) : bool :=
  (code c =? 10)%nat || (code c =? 13)%nat.

Definition to_lower (c : ascii) : ascii :=
  if is_upper c then ascii_of_nat (code c + 32) else c.

Definition to_upper (c : ascii) : ascii :=
  if is_lower c then ascii_of_nat (code c - 32) else c.

Definition eqb (a b : ascii) : bool := (code a =? code b)%nat.

Definition nl : ascii := ascii_of_nat 10.
Definition dquote : ascii := ascii_of_nat 34.

End Chr.

(** ** Strings: the methods of [String.prototype] the class uses *)

Module Str.

Definition chars (s : string) : list ascii := list_ascii_of_string s.
Definition of_chars (l : list ascii) : string := string_of_list_ascii l.

Definition toLowerCase (s : string) : string :=
  of_chars (map Chr.to_lower (chars s)).

Definition toUpperCase (s : string) : string :=
  of_chars (map Chr.to_upper (chars s)).

Fixpoint drop_space (l : list ascii) : list ascii :=
  match l with
  | c :: l' => if Chr.is_space c then drop_space l' else l
  | [] => []
  end.

Definition trim_chars (l : list ascii) : list ascii :=
  rev (drop_space (rev (drop_space l))).

Definition trim (s : string) : string := of_chars (trim_chars (chars s)).

Fixpoint prefix_chars (p l : list ascii) : bool :=
  match p, l with
  | [], _ => true
  | a :: p', b :: l' => Chr.eqb a b && prefix_chars p' l'
  | _ :: _, [] => false
  end.

Definition startsWith (s p : string) : bool :=
  prefix_chars (chars p) (chars s).

(** [s.slice(n)] for [0 <= n]. *)
Definition slice_from (n : nat) (s : string) : string :=
  of_chars (skipn n (chars s)).

Fixpoint includes_chars (p l : list ascii) : bool :=
  prefix_chars p l ||
  match l with
  | [] => false
  | _ :: l' => includes_chars p l'
  end.

Definition includes (s p : string) : bool :=
  includes_chars (chars p) (chars s).

Definition eqb (a b : string) : bool := String.eqb a b.

Definition is_empty (s : string) : bool :=
  match s with EmptyString => true | _ => false end.

Definition nl : string := String Chr.nl EmptyString.
Definition dq : string := String Chr.dquote EmptyString.

(** [arr.join(sep)] on an array of strings. *)
Fixpoint join (sep : string) (l : list string) : string :=
  match l with
  | [] => EmptyString
  | [s] => s
  | s :: l' => s ++ sep ++ join sep l'
  end.

(** Decimal digits of a natural number, as [String(n)] prints them. *)
Fixpoint digits_fuel (fuel : nat) (n : N) (acc : list ascii) : list ascii :=
  match fuel with
  | O => acc
  | S fuel' =>
      let d := ascii_of_N (48 + N.modulo n 10) in
      let q := N.div n 10 in
      if (q =? 0)%N then d :: acc else digits_fuel fuel' q (d :: acc)
  end.

Definition of_N (n : N) : string :=
  of_chars (digits_fuel (S (N.to_nat (N.log2 n))) n []).

Definition of_Z (z : Z) : string :=
  match z with
  | Z0 => "0"
  | Zpos p => of_N (Npos p)
  | Zneg p => "-" ++ of_N (Npos p)
  end.

End Str.

(** ** Regular expressions

  The backtracking semantics of ECMAScript patterns, for the constructs
  the class uses: a matcher takes the current position and a
  continuation, alternatives are tried left to right, a quantifier is
  greedy unless marked lazy, and an iteration of a quantifier that
  consumes nothing is rejected. *)

Module Regex.

Inductive item : Type :=
| IChar (c : ascii)            (* a character of a class *)
| IRange (lo hi : ascii)       (* a-z *)
| ISpace                       (* \s *)
| INotSpace                    (* \S *)
| IDigit                       (* \d *)
| IWord.                       (* \w *)

Inductive re : Type :=
| Empty                        (* the empty pattern *)
| Lit (c : ascii)              (* a literal character *)
| Dot                          (* . *)
| Class (neg : bool) (items : list item)   (* [...] and [^...] *)
| Seq (r1 r2 : re)             (* r1r2 *)
| Alt (r1 r2 : re)             (* r1|r2 *)
| Star (greedy : bool) (r : re)            (* r* and r*? *)
| Group (i : nat) (r : re)     (* the i-th capturing group *)
| Bol                          (* ^ *)
| Eol                          (* $ *)
| WordB.                       (* \b *)

(** Derived forms. *)
Definition Plus (r : re) : re := Seq r (Star true r).         (* r+ *)
Definition PlusLazy (r : re) : re := Seq r (Star false r).    (* r+? *)
Definition Opt (r : re) : re := Alt r Empty.                  (* r? *)
Definition space : re := Class false [ISpace].                (* \s *)
Definition digit : re := Class false [IDigit].                (* \d *)
Definition word : re := Class false [IWord].                  (* \w *)
Definition spaces : re := Star true space.                    (* \s* *)
Definition spaces1 : re := Plus space.                        (* \s+ *)
Definition any_star : re := Star true Dot.                    (* .* *)

Fixpoint seqs (l : list re) : re :=
  match l with
  | [] => Empty
  | [r] => r
  | r :: l' => Seq r (seqs l')
  end.

Fixpoint alts (l : list re) : re :=
  match l with
  | [] => Empty
  | [r] => r
  | r :: l' => Alt r (alts l')
  end.

(** The literal text [s]. *)
Definition str (s : string) : re := seqs (map Lit (Str.chars s)).

(** [w1|w2|...] for literal words. *)
Definition words (l : list string) : re := alts (map str l).

(** Matching state: the index of the next character, the character
    before it, the remaining input and the captures closed so far
    (latest first). *)
Record mstate : Type := MState {
  pos : nat;
  prev : option ascii;
  rest : list ascii;
  caps : list (nat * (nat * nat))
}.

Definition advance (x : ascii) (xs : list ascii) (st : mstate) : mstate :=
  {| pos := S (pos st); prev := Some x; rest := xs; caps := caps st |}.

Definition capture (i start : nat) (st : mstate) : mstate :=
  {| pos := pos st; prev := prev st; rest := rest st;
     caps := (i, (start, pos st)) :: caps st |}.

Definition item_has (it : item) (x : ascii) : bool :=
  match it with
  | IChar c => Chr.eqb c x
  | IRange lo hi => Chr.between (Chr.code lo) (Chr.code hi) x
  | ISpace => Chr.is_space x
  | INotSpace => negb (Chr.is_space x)
  | IDigit => Chr.is_digit x
  | IWord => Chr.is_word x
  end.

(** With the [i] flag two characters agree when their upper-case forms
    do; a class contains [x] when it contains a character agreeing
    with [x]. *)
Definition lit_ok (ci : bool) (c x : ascii) : bool :=
  if ci then Chr.eqb (Chr.to_upper c) (Chr.to_upper x) else Chr.eqb c x.

Definition items_have (ci : bool) (items : list item) (x : ascii) : bool :=
  existsb (fun it =>
    item_has it x ||
    (ci && (item_has it (Chr.to_lower x) || item_has it (Chr.to_upper x))))
    items.

Definition is_word_opt (o : option ascii) : bool :=
  match o with Some c => Chr.is_word c | None => false end.

Definition one (ok : ascii -> bool) (st : mstate)
    (k : mstate -> option mstate) : option mstate :=
  match rest st with
  | x :: xs => if ok x then k (advance x xs st) else None
  | [] => None
  end.

(** The iterations of a quantifier over [body]: at most one for each
    remaining character, since an iteration that consumes nothing is
    rejected.  A greedy quantifier tries one more iteration before the
    continuation, a lazy one the continuation first. *)
Fixpoint iterate (body : mstate -> (mstate -> option mstate) -> option mstate)
    (greedy : bool) (k : mstate -> option mstate) (fuel : nat) (st : mstate)
    {struct fuel} : option mstate :=
  match fuel with
  | O => k st
  | S fuel' =>
      let again st' :=
        if (pos st' =? pos st)%nat then None
        else iterate body greedy k fuel' st' in
      if greedy then
        match body st again with
        | Some res => Some res
        | None => k st
        end
      else
        match k st with
        | Some res => Some res
        | None => body st again
        end
  end.

Fixpoint run (ci : bool) (r : re) (st : mstate)
    (k : mstate -> option mstate) {struct r} : option mstate :=
  match r with
  | Empty => k st
  | Lit c => one (lit_ok ci c) st k
  | Dot => one (fun x => negb (Chr.is_line_terminator x)) st k
  | Class neg items => one (fun x => xorb neg (items_have ci items x)) st k
  | Seq r1 r2 => run ci r1 st (fun st1 => run ci r2 st1 k)
  | Alt r1 r2 =>
      match run ci r1 st k with
      | Some res => Some res
      | None => run ci r2 st k
      end
  | Star greedy r1 =>
      iterate (run ci r1) greedy k (S (length (rest st))) st
  | Group i r1 => run ci r1 st (fun st' => k (capture i (pos st) st'))
  | Bol => if (pos st =? 0)%nat then k st else None
  | Eol => match rest st with [] => k st | _ :: _ => None end
  | WordB =>
      if xorb (is_word_opt (prev st)) (is_word_opt (hd_error (rest st)))
      then k st else None
  end.

(** A compiled pattern: the expression and its [i] flag. *)
Record regex : Type := Regex { expr : re; icase : bool }.

(** A match: where it starts and the state where it ends. *)
Record found : Type := Found { start : nat; final : mstate }.

Definition stop (f : found) : nat := pos (final f).

(** The leftmost match at or after the position of the given state. *)
Fixpoint search_from (rx : regex) (p : nat) (pv : option ascii)
    (l : list ascii) {struct l} : option found :=
  match run (icase rx) (expr rx)
            {| pos := p; prev := pv; rest := l; caps := [] |} Some with
  | Some st => Some {| start := p; final := st |}
  | None =>
      match l with
      | [] => None
      | x :: xs => search_from rx (S p) (Some x) xs
      end
  end.

(** [rx.exec(s)] for a pattern without the [g] flag. *)
Definition exec (rx : regex) (s : string) : option found :=
  search_from rx 0 None (Str.chars s).

(** [rx.test(s)], and the truth value of [s.match(rx)]. *)
Definition test (rx : regex) (s : string) : bool :=
  match exec rx s with Some _ => true | None => false end.

Fixpoint lookup_cap (i : nat) (l : list (nat * (nat * nat)))
    : option (nat * nat) :=
  match l with
  | [] => None
  | (j, span) :: l' => if (i =? j)%nat then Some span else lookup_cap i l'
  end.

Definition substring_chars (a b : nat) (l : list ascii) : list ascii :=
  firstn (b - a) (skipn a l).

(** [m[0]]: the matched text. *)
Definition matched (s : string) (f : found) : string :=
  Str.of_chars (substring_chars (start f) (stop f) (Str.chars s)).

(** [m[i]] for a group that took part in the match. *)
Definition group (s : string) (f : found) (i : nat) : option string :=
  match lookup_cap i (caps (final f)) with
  | Some (a, b) => Some (Str.of_chars (substring_chars a b (Str.chars s)))
  | None => None
  end.

(** [s.replace(rx, repl)] without the [g] flag: the first match only.
    The replacement texts of the class contain no [$]. *)
Definition replace_first (rx : regex) (repl s : string) : string :=
  match exec rx s with
  | None => s
  | Some f =>
      Str.of_chars (firstn (start f) (Str.chars s) ++ Str.chars repl
                    ++ rest (final f))%list
  end.

(** [s.replace(rx, repl)] with the [g] flag: every match, left to
    right; after an empty match the search resumes one character
    further. *)
Fixpoint replace_from (fuel : nat) (rx : regex) (repl : list ascii)
    (p : nat) (pv : option ascii) (l : list ascii) : list ascii :=
  match fuel with
  | O => l
  | S fuel' =>
      match search_from rx p pv l with
      | None => l
      | Some f =>
          let kept := firstn (start f - p) l in
          if (stop f =? start f)%nat then
            match skipn (start f - p) l with
            | [] => (kept ++ repl)%list
            | x :: xs =>
                (kept ++ repl ++
                 x :: replace_from fuel' rx repl (S (start f)) (Some x) xs)%list
            end
          else
            (kept ++ repl ++
             replace_from fuel' rx repl (stop f) (prev (final f))
                          (rest (final f)))%list
      end
  end.

Definition replace_all (rx : regex) (repl s : string) : string :=
  Str.of_chars
    (replace_from (S (String.length s)) rx (Str.chars repl) 0 None
                  (Str.chars s)).

End Regex.

(** ** Values, errors and the operators applied to them *)

Module JS.

(** A value: what a configuration entry, a JSON response or the result
    of a skill can be. *)
Inductive value : Type :=
| VUndefined
| VNull
| VBool (b : bool)
| VNum (n : Z)
| VStr (s : string)
| VArr (items : list value)
| VObj (fields : list (string * value)).

(** The truth value of [v] in a condition, [!v], [||] and [&&]. *)
Definition truthy (v : value) : bool :=
  match v with
  | VUndefined | VNull => false
  | VBool b => b
  | VNum n => negb (n =? 0)%Z
  | VStr s => negb (Str.is_empty s)
  | VArr _ | VObj _ => true
  end.

Definition nullish (v : value) : bool :=
  match v with VUndefined | VNull => true | _ => false end.

(** [a || b] and [a && b]. *)
Definition or_else (a b : value) : value := if truthy a then a else b.
Definition and_then (a b : value) : value := if truthy a then b else a.

(** The text of [v] in a template literal or a concatenation. *)
Fixpoint to_string (v : value) : string :=
  match v with
  | VUndefined => "undefined"
  | VNull => "null"
  | VBool true => "true"
  | VBool false => "false"
  | VNum n => Str.of_Z n
  | VStr s => s
  | VArr items =>
      Str.join ","
        (map (fun x => if nullish x then EmptyString else to_string x) items)
  | VObj _ => "[object Object]"
  end.

Fixpoint lookup (key : string) (fields : list (string * value)) : value :=
  match fields with
  | [] => VUndefined
  | (k, v) :: fields' => if Str.eqb k key then v else lookup key fields'
  end.

(** An [Error] object as the class reads it: [message], [code] and
    [response] (with [status] and [data] for a failed HTTP request). *)
Record error : Type := Error {
  message : string;
  code : value;
  response : value
}.

Definition new_Error (msg : string) : error :=
  {| message := msg; code := VUndefined; response := VUndefined |}.

(** The [TypeError] of reading a property of [undefined] or [null], or
    of calling what is not a function. *)
Definition type_error (what : string) : error :=
  new_Error ("TypeError: " ++ what).

(** The result of an expression that can throw. *)
Inductive outcome (A : Type) : Type :=
| Val (a : A)
| Exn (e : error).
Arguments Val {A} a.
Arguments Exn {A} e.

(** [v.key] *)
Definition get (v : value) (key : string) : outcome value :=
  match v with
  | VUndefined | VNull =>
      Exn (type_error ("Cannot read properties of " ++ to_string v
                       ++ " (reading '" ++ key ++ "')"))
  | VObj fields => Val (lookup key fields)
  | VStr s =>
      Val (if Str.eqb key "length" then VNum (Z.of_nat (String.length s))
           else VUndefined)
  | VArr items =>
      Val (if Str.eqb key "length" then VNum (Z.of_nat (length items))
           else VUndefined)
  | VBool _ | VNum _ => Val VUndefined
  end.

(** [v?.key] *)
Definition opt_get (v : value) (key : string) : value :=
  match get v key with
  | Val x => x
  | Exn _ => VUndefined
  end.

(** [v?.[0]] *)
Definition opt_first (v : value) : value :=
  match v with
  | VArr (x :: _) => x
  | VStr (String c _) => VStr (String c EmptyString)
  | VObj fields => lookup "0" fields
  | _ => VUndefined
  end.

(** [a === b] when [b] is a string or a number. *)
Definition is_str (v : value) (s : string) : bool :=
  match v with VStr t => Str.eqb t s | _ => false end.

Definition is_num (v : value) (n : Z) : bool :=
  match v with VNum m => (m =? n)%Z | _ => false end.

(** A signed decimal integer, as [parseInt] and the conversion of a
    string to a number read it; [None] when there is no digit. *)
Fixpoint digits_value (l : list ascii) (acc : N) (seen : bool)
    : option N :=
  match l with
  | c :: l' =>
      if Chr.is_digit c
      then digits_value l' (10 * acc + (N_of_ascii c - 48))%N true
      else if seen then Some acc else None
  | [] => if seen then Some acc else None
  end.

(** [parseInt(s)] for a text that does not start with [0x]: leading
    white space, a sign, then the longest run of decimal digits;
    [None] is [NaN]. *)
Definition parseInt (s : string) : option Z :=
  match Str.drop_space (Str.chars s) with
  | "-"%char :: l =>
      option_map (fun n => (- Z.of_N n)%Z) (digits_value l 0 false)
  | "+"%char :: l => option_map Z.of_N (digits_value l 0 false)
  | l => option_map Z.of_N (digits_value l 0 false)
  end.

Fixpoint all_digits (l : list ascii) : bool :=
  match l with
  | [] => true
  | c :: l' => Chr.is_digit c && all_digits l'
  end.

(** The number a value converts to in an arithmetic expression;
    [None] is [NaN].  Of the numeric texts only the signed decimal
    integers are read. *)
Definition to_number (v : value) : option Z :=
  match v with
  | VUndefined => None
  | VNull => Some 0%Z
  | VBool b => Some (if b then 1 else 0)%Z
  | VNum n => Some n
  | VStr s =>
      match Str.trim_chars (Str.chars s) with
      | [] => Some 0%Z
      | "-"%char :: l =>
          if all_digits l
          then option_map (fun n => (- Z.of_N n)%Z) (digits_value l 0 false)
          else None
      | "+"%char :: l =>
          if all_digits l
          then option_map Z.of_N (digits_value l 0 false) else None
      | l =>
          if all_digits l
          then option_map Z.of_N (digits_value l 0 false) else None
      end
  | VArr _ | VObj _ => None
  end.

(** [typeof v === 'string' ? v : ''] *)
Definition string_or_empty (v : value) : string :=
  match v with VStr s => s | _ => EmptyString end.

End JS.

(** ** Effects

  What the class does to the outside world: HTTP requests through
  [axios.post], calls of the skills and collaborators it was given, and
  readings of the clock.  A computation is a tree of such calls; the
  world answers each call with a value or an exception. *)

Module Eff.
Import JS.

(** One turn of a conversation, [{ role, content }]. *)
Record turn : Type := Turn { role : string; content : string }.

(** The body of a request to the fast backend ([generateContent]). *)
Record gemini_body : Type := GeminiBody {
  contents : list turn;
  systemInstruction : option string;
  temperature : string;            (* the literal of the source *)
  maxOutputTokens : Z
}.

Inductive call : Type :=
(* axios.post(`...gemini-3.0-flash-preview:generateContent?key=${key}`, body, { timeout }) *)
| GeminiPost (key : string) (body : gemini_body) (timeout : Z)
(* apiRateLimiter.callWithRetry(() => makeRequest(key), { maxRetries: 3, ... }) *)
| GeminiWithRetry (key : value) (body : gemini_body) (timeout : Z)
(* axios.post('https://api.openai.com/v1/chat/completions', ...) *)
| OpenAIPost (authorization : string) (model : value)
             (system user : string) (timeout : Z)
(* axios.post('https://auth.openai.com/oauth/token', ...) *)
| OAuthPost (refresh_token : value)
(* skill.method(args) on a skill or collaborator *)
| Invoke (target method : string) (args : list value).

Inductive reply : Type :=
| Returns (v : value)
| Throws (e : error).

Inductive prog (A : Type) : Type :=
| Ret (a : A)
| Call (c : call) (k : reply -> prog A)
| Now (k : Z -> prog A).          (* Date.now() *)
Arguments Ret {A} a.
Arguments Call {A} c k.
Arguments Now {A} k.

Fixpoint pbind {A B : Type} (p : prog A) (f : A -> prog B) : prog B :=
  match p with
  | Ret a => f a
  | Call c k => Call c (fun r => pbind (k r) f)
  | Now k => Now (fun t => pbind (k t) f)
  end.

(** What a run leaves behind. *)
Inductive event : Type :=
| Called (c : call) (r : reply)
| Clock (t : Z).

(** The world: its answer to the [n]-th effect of a run. *)
Record world : Type := World {
  answer : nat -> call -> reply;
  time : nat -> Z
}.

Fixpoint interp {A : Type} (w : world) (n : nat) (p : prog A)
    : A * list event :=
  match p with
  | Ret a => (a, [])
  | Call c k =>
      let r := answer w n c in
      let (a, tr) := interp w (S n) (k r) in
      (a, Called c r :: tr)
  | Now k =>
      let t := time w n in
      let (a, tr) := interp w (S n) (k t) in
      (a, Clock t :: tr)
  end.

End Eff.

(** ** The configuration ([src/config.js]) *)

Module Config.
Import JS.

(** [process.env]: a variable is a text or is not set. *)
Definition env : Type := string -> option string.

Definition env_value (e : env) (name : string) : value :=
  match e name with Some s => VStr s | None => VUndefined end.

(** The entries of [config] the class reads. *)
Record config : Type := Conf {
  geminiApiKey : value;
  openaiCodexToken : value;
  openaiCodexRefresh : value;
  openaiCodexModel : value;
  claudeTimeout : option Z         (* [None] is [NaN] *)
}.

Definition load (e : env) : config :=
  {| geminiApiKey := env_value e "GEMINI_API_KEY";
     openaiCodexToken := env_value e "OPENAI_CODEX_TOKEN";
     openaiCodexRefresh := env_value e "OPENAI_CODEX_REFRESH";
     openaiCodexModel :=
       or_else (env_value e "OPENAI_CODEX_MODEL") (VStr "gpt-5.3-codex");
     claudeTimeout :=
       parseInt (to_string (or_else (env_value e "CLAUDE_TIMEOUT")
                                    (VStr "60000"))) |}.

End Config.

(** ** The patterns of the class

  Each pattern is written out next to the regular expression of the
  source.  Parentheses whose capture is never read are plain grouping;
  the groups that are read keep their number. *)

Module Patterns.
Import Regex.

Definition cs (e : re) : regex := {| expr := e; icase := false |}.
Definition ci (e : re) : regex := {| expr := e; icase := true |}.

(** [an?\s+] inside an optional group, [(an?\s+)?]. *)
Definition opt_article : re := Opt (seqs [Lit "a"; Opt (Lit "n"); spaces1]).
(** [(a\s+)?] *)
Definition opt_a : re := Opt (Seq (Lit "a") spaces1).
(** [(please\s+)?] and [(me\s+)?] *)
Definition opt_please : re := Opt (Seq (str "please") spaces1).
Definition opt_me : re := Opt (Seq (str "me") spaces1).
(** [x.?y] *)
Definition near (x y : string) : re := seqs [str x; Opt Dot; str y].
(** [xs?] *)
Definition plural (x : string) : re := Seq (str x) (Opt (Lit "s")).
(** the class of the two quotation marks *)
Definition quote : list item := [IChar "'"; IChar Chr.dquote].

(** *** [_isMultiStepRequest] *)

(* /\b(and then|then|after that|also|next|finally|first.*then)\b/ *)
Definition multi_sequence : regex :=
  cs (seqs [WordB;
            alts [str "and then"; str "then"; str "after that"; str "also";
                  str "next"; str "finally";
                  seqs [str "first"; any_star; str "then"]];
            WordB]).

(* /\b(research|find|look up)\b.*\b(and|then)\b.*\b(send|email|create|write|draft|summarize)\b/ *)
Definition multi_research : regex :=
  cs (seqs [WordB; words ["research"; "find"; "look up"]; WordB; any_star;
            WordB; words ["and"; "then"]; WordB; any_star;
            WordB;
            words ["send"; "email"; "create"; "write"; "draft"; "summarize"];
            WordB]).

(* /\b(check|get|read)\b.*\b(and|then)\b.*\b(tell|send|update|create)\b/ *)
Definition multi_check : regex :=
  cs (seqs [WordB; words ["check"; "get"; "read"]; WordB; any_star;
            WordB; words ["and"; "then"]; WordB; any_star;
            WordB; words ["tell"; "send"; "update"; "create"]; WordB]).

(** *** [think] *)

(* /upscale|enhance|make.*(it|this|that).*(bigger|larger|4k|hd|high.?res)|improve.*(quality|resolution)/i *)
Definition upscale : regex :=
  ci (alts [str "upscale"; str "enhance";
            seqs [str "make"; any_star; words ["it"; "this"; "that"];
                  any_star;
                  alts [str "bigger"; str "larger"; str "4k"; str "hd";
                        near "high" "res"]];
            seqs [str "improve"; any_star;
                  words ["quality"; "resolution"]]]).

(* ultra|premium|high.?quality|best.?quality *)
Definition ultra_words : re :=
  alts [str "ultra"; str "premium"; near "high" "quality";
        near "best" "quality"].

(* image|picture|photo|illustration|logo|icon|art|poster *)
Definition image_words : re :=
  words ["image"; "picture"; "photo"; "illustration"; "logo"; "icon";
         "art"; "poster"].

(* generate|create|draw|make|design|paint *)
Definition image_verbs : re :=
  words ["generate"; "create"; "draw"; "make"; "design"; "paint"].

(* /ultra|premium|high.?quality|best.?quality/i *)
Definition ultra : regex := ci ultra_words.

(* /image|picture|photo|illustration|logo|icon|art|poster/i *)
Definition image_noun : regex := ci image_words.

(* /^(please\s+)?(generate|create|draw|make|design|paint)\s+(me\s+)?(an?\s+)?(ultra|premium|high.?quality|best.?quality)\s*(image|picture|photo|illustration|logo|icon|art|poster)\s*(of|about|for|with|depicting)?\s*/i *)
Definition ultra_lead : regex :=
  ci (seqs [Bol; opt_please; image_verbs; spaces1; opt_me; opt_article;
            ultra_words; spaces; image_words; spaces;
            Opt (words ["of"; "about"; "for"; "with"; "depicting"]);
            spaces]).

(* /generate|create|draw|make|design|paint/i *)
Definition image_verb : regex := ci image_verbs.

(* /^(please\s+)?(generate|create|draw|make|design|paint)\s+(me\s+)?(an?\s+)?(image|picture|photo|illustration|logo|icon|art|poster)\s*(of|about|for|with|depicting)?\s*/i *)
Definition image_lead : regex :=
  ci (seqs [Bol; opt_please; image_verbs; spaces1; opt_me; opt_article;
            image_words; spaces;
            Opt (words ["of"; "about"; "for"; "with"; "depicting"]);
            spaces]).

(* generate|create|make|produce *)
Definition video_verbs : re :=
  words ["generate"; "create"; "make"; "produce"].

(* video|clip|animation|movie|footage *)
Definition video_words : re :=
  words ["video"; "clip"; "animation"; "movie"; "footage"].

(* /generate|create|make|produce/i *)
Definition video_verb : regex := ci video_verbs.

(* /video|clip|animation|movie|footage/i *)
Definition video_noun : regex := ci video_words.

(* /^(please\s+)?(generate|create|make|produce)\s+(me\s+)?(a\s+)?(4k\s+|hd\s+|portrait\s+|silent\s+|high.?quality\s+)*(video|clip|animation|movie|footage)\s*(of|about|for|with|depicting|showing)?\s*/i *)
Definition video_lead : regex :=
  ci (seqs [Bol; opt_please; video_verbs; spaces1; opt_me; opt_a;
            Star true
              (alts [Seq (str "4k") spaces1; Seq (str "hd") spaces1;
                     Seq (str "portrait") spaces1;
                     Seq (str "silent") spaces1;
                     Seq (near "high" "quality") spaces1]);
            video_words; spaces;
            Opt (words ["of"; "about"; "for"; "with"; "depicting";
                        "showing"]);
            spaces]).

(* /no\s*audio|silent|mute|without\s*sound|no\s*sound/i *)
Definition no_audio : regex :=
  ci (alts [seqs [str "no"; spaces; str "audio"]; str "silent"; str "mute";
            seqs [str "without"; spaces; str "sound"];
            seqs [str "no"; spaces; str "sound"]]).

(* /4k|ultra.?hd|uhd/i *)
Definition res_4k : regex :=
  ci (alts [str "4k"; near "ultra" "hd"; str "uhd"]).

(* /1080p|full.?hd/i *)
Definition res_1080p : regex := ci (alts [str "1080p"; near "full" "hd"]).

(* /portrait|vertical|9.?16|tiktok|reel/i *)
Definition portrait : regex :=
  ci (alts [str "portrait"; str "vertical"; near "9" "16"; str "tiktok";
            str "reel"]).

(* /high.?quality|standard.?quality|best.?quality|premium/i *)
Definition quality : regex :=
  ci (alts [near "high" "quality"; near "standard" "quality";
            near "best" "quality"; str "premium"]).

(* /(\d+)\s*sec/ *)
Definition seconds : regex :=
  cs (seqs [Group 1 (Plus digit); spaces; str "sec"]).

(* /weather|temperature|forecast|rain|snow|humidity|feels like|degrees|hot|cold outside/ *)
Definition weather : regex :=
  cs (words ["weather"; "temperature"; "forecast"; "rain"; "snow";
             "humidity"; "feels like"; "degrees"; "hot"; "cold outside"]).

(* /(?:in|for|at)\s+([A-Z][a-zA-Z\s]+)/ *)
Definition location : regex :=
  cs (seqs [words ["in"; "for"; "at"]; spaces1;
            Group 1 (Seq (Class false [IRange "A" "Z"])
                         (Plus (Class false [IRange "a" "z"; IRange "A" "Z";
                                             ISpace])))]).

(* /forecast|week|tomorrow|next/ *)
Definition forecast : regex :=
  cs (words ["forecast"; "week"; "tomorrow"; "next"]).

(* /send\s+(an?\s+)?email|compose\s+(an?\s+)?email|email\s+\w+@|write\s+to\s+\w+@|draft\s+(an?\s+)?email/ *)
Definition send_email : regex :=
  cs (alts [seqs [str "send"; spaces1; opt_article; str "email"];
            seqs [str "compose"; spaces1; opt_article; str "email"];
            seqs [str "email"; spaces1; Plus word; Lit "@"];
            seqs [str "write"; spaces1; str "to"; spaces1; Plus word;
                  Lit "@"];
            seqs [str "draft"; spaces1; opt_article; str "email"]]).

(* /remind\s+me|set\s+a?\s*reminder|don'?t\s+let\s+me\s+forget/ *)
Definition reminder : regex :=
  cs (alts [seqs [str "remind"; spaces1; str "me"];
            seqs [str "set"; spaces1; Opt (Lit "a"); spaces;
                  str "reminder"];
            seqs [str "don"; Opt (Lit "'"); Lit "t"; spaces1; str "let";
                  spaces1; str "me"; spaces1; str "forget"]]).

(* /create\s+(a\s+)?(document|doc|google\s*doc|spreadsheet|sheet|presentation|slide)/ *)
Definition create_document : regex :=
  cs (seqs [str "create"; spaces1; opt_a;
            alts [str "document"; str "doc";
                  seqs [str "google"; spaces; str "doc"];
                  str "spreadsheet"; str "sheet"; str "presentation";
                  str "slide"]]).

(* /draft\s+(a\s+)?(reply|response|email\s+body|message)|write\s+(a\s+)?(summary|report|brief|memo|proposal|document|plan)/ *)
Definition draft_write : regex :=
  cs (alts [seqs [str "draft"; spaces1; opt_a;
                  alts [str "reply"; str "response";
                        seqs [str "email"; spaces1; str "body"];
                        str "message"]];
            seqs [str "write"; spaces1; opt_a;
                  words ["summary"; "report"; "brief"; "memo"; "proposal";
                         "document"; "plan"]]]).

(* /summarize|take\s+notes|document\s+(this|that|the)|put\s+(this|that|it)\s+(in|into|on)\s+(a\s+)?(doc|document|sheet|spreadsheet|drive)/ *)
Definition summarize : regex :=
  cs (alts [str "summarize";
            seqs [str "take"; spaces1; str "notes"];
            seqs [str "document"; spaces1; words ["this"; "that"; "the"]];
            seqs [str "put"; spaces1; words ["this"; "that"; "it"];
                  spaces1; words ["in"; "into"; "on"]; spaces1; opt_a;
                  words ["doc"; "document"; "sheet"; "spreadsheet";
                         "drive"]]]).

(* /calendar|schedule|event|meeting|today|appointment|tomorrow|this week|agenda|busy|free|available/ *)
Definition calendar : regex :=
  cs (words ["calendar"; "schedule"; "event"; "meeting"; "today";
             "appointment"; "tomorrow"; "this week"; "agenda"; "busy";
             "free"; "available"]).

(* /email|inbox|mail|gmail|message from|sent me|unread/ *)
Definition email : regex :=
  cs (words ["email"; "inbox"; "mail"; "gmail"; "message from"; "sent me";
             "unread"]).

(* /drive|file|document|folder|find.*file|search.*drive|look.*drive/ *)
Definition drive : regex :=
  cs (alts [str "drive"; str "file"; str "document"; str "folder";
            seqs [str "find"; any_star; str "file"];
            seqs [str "search"; any_star; str "drive"];
            seqs [str "look"; any_star; str "drive"]]).

(* /search|look\s+up|find out|what is|who is|latest|news|how to|google|browse|research/ *)
Definition web_search : regex :=
  cs (alts [str "search"; seqs [str "look"; spaces1; str "up"];
            str "find out"; str "what is"; str "who is"; str "latest";
            str "news"; str "how to"; str "google"; str "browse";
            str "research"]).

(** *** [_handleSendEmail] and [_handleReminder] *)

(* /\{[\s\S]*\}/ *)
Definition json_region : regex :=
  cs (seqs [Lit "{"; Star true (Class false [ISpace; INotSpace]);
            Lit "}"]).

(** *** [_composeWithClaude] *)

(* /email|inbox|mail|thread|conversation|reply/ *)
Definition compose_email : regex :=
  cs (words ["email"; "inbox"; "mail"; "thread"; "conversation"; "reply"]).

(* /calendar|schedule|meeting|event|appointment/ *)
Definition compose_calendar : regex :=
  cs (words ["calendar"; "schedule"; "meeting"; "event"; "appointment"]).

(* /file|document|drive|spreadsheet|sheet/ *)
Definition compose_drive : regex :=
  cs (words ["file"; "document"; "drive"; "spreadsheet"; "sheet"]).

(** *** [_analyzeGoogleData], the drive branch *)

(* /^(can you |please |hey |could you |i want to |i need to )/gi *)
Definition drive_lead : regex :=
  ci (Seq Bol
          (words ["can you "; "please "; "hey "; "could you ";
                  "i want to "; "i need to "])).

(* /(search|find|look|check|show|get|list|see|view|open|my|on|in|the|me|through|for|at|all|up|what'?s?|is|are|do|does)\s*/gi *)
Definition drive_stop : regex :=
  ci (Seq (alts [str "search"; str "find"; str "look"; str "check";
                 str "show"; str "get"; str "list"; str "see"; str "view";
                 str "open"; str "my"; str "on"; str "in"; str "the";
                 str "me"; str "through"; str "for"; str "at"; str "all";
                 str "up";
                 seqs [str "what"; Opt (Lit "'"); Opt (Lit "s")];
                 str "is"; str "are"; str "do"; str "does"])
          spaces).

(* /\b(drive|files?|documents?|folders?|google|recent|stuff|things?|content)\b/gi *)
Definition drive_noun : regex :=
  ci (seqs [WordB;
            alts [str "drive"; plural "file"; plural "document";
                  plural "folder"; str "google"; str "recent"; str "stuff";
                  plural "thing"; str "content"];
            WordB]).

(* /[?!.,]/g *)
Definition punctuation : regex :=
  cs (Class false [IChar "?"; IChar "!"; IChar "."; IChar ","]).

(* /^(or|not|to|it|a|an|i|and|but|so|how|can|has|have|had)$/i *)
Definition stop_token : regex :=
  ci (seqs [Bol;
            words ["or"; "not"; "to"; "it"; "a"; "an"; "i"; "and"; "but";
                   "so"; "how"; "can"; "has"; "have"; "had"];
            Eol]).

(** *** [prefetchData] *)

(* /email|inbox|mail|gmail|message from|sent me/ *)
Definition prefetch_email : regex :=
  cs (words ["email"; "inbox"; "mail"; "gmail"; "message from";
             "sent me"]).

(* /calendar|schedule|event|meeting|today|appointment/ *)
Definition prefetch_calendar : regex :=
  cs (words ["calendar"; "schedule"; "event"; "meeting"; "today";
             "appointment"]).

(* /drive|file|document|folder|find.*file|search.*drive|look.*drive|check.*drive|what.*drive|find.*document/ *)
Definition prefetch_drive : regex :=
  cs (alts [str "drive"; str "file"; str "document"; str "folder";
            seqs [str "find"; any_star; str "file"];
            seqs [str "search"; any_star; str "drive"];
            seqs [str "look"; any_star; str "drive"];
            seqs [str "check"; any_star; str "drive"];
            seqs [str "what"; any_star; str "drive"];
            seqs [str "find"; any_star; str "document"]]).

(* /(?:for|about|named|called|related to|regarding)\s+[q]?(.+?)[q]?\s*$/i
   where [q] is the class of the single and the double quotation mark *)
Definition prefetch_for : regex :=
  ci (seqs [words ["for"; "about"; "named"; "called"; "related to";
                   "regarding"];
            spaces1; Opt (Class false quote); Group 1 (PlusLazy Dot);
            Opt (Class false quote); spaces; Eol]).

(* /[q]([^q]+)[q]/ with [q] as above *)
Definition prefetch_quoted : regex :=
  cs (seqs [Class false quote; Group 1 (Plus (Class true quote));
            Class false quote]).

(* /^(can you |please |hey |could you |i need |i want )/gi *)
Definition prefetch_lead : regex :=
  ci (Seq Bol
          (words ["can you "; "please "; "hey "; "could you "; "i need ";
                  "i want "])).

(* /(search|find|look|check|show|get|what'?s?|are there|is there|any|my|on|in|the|me|through)\s*/gi *)
Definition prefetch_stop : regex :=
  ci (Seq (alts [str "search"; str "find"; str "look"; str "check";
                 str "show"; str "get";
                 seqs [str "what"; Opt (Lit "'"); Opt (Lit "s")];
                 str "are there"; str "is there"; str "any"; str "my";
                 str "on"; str "in"; str "the"; str "me"; str "through"])
          spaces).

(* /\b(drive|files?|documents?|folders?|google)\b/gi *)
Definition prefetch_noun : regex :=
  ci (seqs [WordB;
            alts [str "drive"; plural "file"; plural "document";
                  plural "folder"; str "google"];
            WordB]).

(* /search|look up|find out|what is|who is|latest|news|how to/ *)
Definition prefetch_web : regex :=
  cs (words ["search"; "look up"; "find out"; "what is"; "who is";
             "latest"; "news"; "how to"]).

(* /^(search|look up|find)\s*(for)?\s*/i *)
Definition query_lead : regex :=
  ci (seqs [Bol; words ["search"; "look up"; "find"]; spaces;
            Opt (str "for"); spaces]).

End Patterns.

(** ** The class [SmartBrain] *)

Module Brain.
Import JS Eff Regex.

(** *** State *)

(** The skills object handed to the class: which skills it holds, and
    the plain properties read from it. *)
Record skillset : Type := Skills {
  geminiImage : bool;
  geminiVideo : bool;
  weather : bool;
  googleWorkspace : bool;
  scheduler : bool;
  scheduler_bot : value;           (* scheduler.bot *)
  braveSearch : bool;
  skills_memoryContext : value;    (* skills._memoryContext *)
  skills_learnedContext : value;   (* skills._learnedContext *)
  skills_userId : value            (* skills._userId *)
}.

(** [{}] *)
Definition no_skills : skillset :=
  {| geminiImage := false; geminiVideo := false; weather := false;
     googleWorkspace := false; scheduler := false;
     scheduler_bot := VUndefined; braveSearch := false;
     skills_memoryContext := VUndefined;
     skills_learnedContext := VUndefined;
     skills_userId := VUndefined |}.

(** The fields of an instance. *)
Record brain : Type := Brain {
  skills : skillset;
  geminiApiKey : value;
  openaiTimeout : Z;
  openaiModel : value;
  _openaiAccessToken : value;       (* _openaiAccessToken *)
  _openaiRefreshToken : value;      (* _openaiRefreshToken *)
  _tokenExpiresAt : option Z;       (* _tokenExpiresAt; [None] is [NaN] *)
  mcpBridge : bool;
  agentLoop : bool;
  planner : bool;
  orchestrator : bool;
  _memoryContext : value;           (* _memoryContext *)
  _learnedContext : value;          (* _learnedContext *)
  claudeSystemPrompt : string
}.

Definition set_skills (x : skillset) (b : brain) : brain :=
  {| skills := x; geminiApiKey := geminiApiKey b;
     openaiTimeout := openaiTimeout b; openaiModel := openaiModel b;
     _openaiAccessToken := _openaiAccessToken b;
     _openaiRefreshToken := _openaiRefreshToken b;
     _tokenExpiresAt := _tokenExpiresAt b; mcpBridge := mcpBridge b;
     agentLoop := agentLoop b; planner := planner b;
     orchestrator := orchestrator b; _memoryContext := _memoryContext b;
     _learnedContext := _learnedContext b;
     claudeSystemPrompt := claudeSystemPrompt b |}.

Definition set_contexts (m l : value) (b : brain) : brain :=
  {| skills := skills b; geminiApiKey := geminiApiKey b;
     openaiTimeout := openaiTimeout b; openaiModel := openaiModel b;
     _openaiAccessToken := _openaiAccessToken b;
     _openaiRefreshToken := _openaiRefreshToken b;
     _tokenExpiresAt := _tokenExpiresAt b; mcpBridge := mcpBridge b;
     agentLoop := agentLoop b; planner := planner b;
     orchestrator := orchestrator b; _memoryContext := m;
     _learnedContext := l;
     claudeSystemPrompt := claudeSystemPrompt b |}.

Definition set_accessToken (x : value) (b : brain) : brain :=
  {| skills := skills b; geminiApiKey := geminiApiKey b;
     openaiTimeout := openaiTimeout b; openaiModel := openaiModel b;
     _openaiAccessToken := x;
     _openaiRefreshToken := _openaiRefreshToken b;
     _tokenExpiresAt := _tokenExpiresAt b; mcpBridge := mcpBridge b;
     agentLoop := agentLoop b; planner := planner b;
     orchestrator := orchestrator b; _memoryContext := _memoryContext b;
     _learnedContext := _learnedContext b;
     claudeSystemPrompt := claudeSystemPrompt b |}.

Definition set_refreshToken (x : value) (b : brain) : brain :=
  {| skills := skills b; geminiApiKey := geminiApiKey b;
     openaiTimeout := openaiTimeout b; openaiModel := openaiModel b;
     _openaiAccessToken := _openaiAccessToken b;
     _openaiRefreshToken := x;
     _tokenExpiresAt := _tokenExpiresAt b; mcpBridge := mcpBridge b;
     agentLoop := agentLoop b; planner := planner b;
     orchestrator := orchestrator b; _memoryContext := _memoryContext b;
     _learnedContext := _learnedContext b;
     claudeSystemPrompt := claudeSystemPrompt b |}.

Definition set_tokenExpiresAt (x : option Z) (b : brain) : brain :=
  {| skills := skills b; geminiApiKey := geminiApiKey b;
     openaiTimeout := openaiTimeout b; openaiModel := openaiModel b;
     _openaiAccessToken := _openaiAccessToken b;
     _openaiRefreshToken := _openaiRefreshToken b;
     _tokenExpiresAt := x; mcpBridge := mcpBridge b;
     agentLoop := agentLoop b; planner := planner b;
     orchestrator := orchestrator b; _memoryContext := _memoryContext b;
     _learnedContext := _learnedContext b;
     claudeSystemPrompt := claudeSystemPrompt b |}.

Definition set_mcpBridge (x : bool) (b : brain) : brain :=
  {| skills := skills b; geminiApiKey := geminiApiKey b;
     openaiTimeout := openaiTimeout b; openaiModel := openaiModel b;
     _openaiAccessToken := _openaiAccessToken b;
     _openaiRefreshToken := _openaiRefreshToken b;
     _tokenExpiresAt := _tokenExpiresAt b; mcpBridge := x;
     agentLoop := agentLoop b; planner := planner b;
     orchestrator := orchestrator b; _memoryContext := _memoryContext b;
     _learnedContext := _learnedContext b;
     claudeSystemPrompt := claudeSystemPrompt b |}.

Definition set_agents (a p o : bool) (b : brain) : brain :=
  {| skills := skills b; geminiApiKey := geminiApiKey b;
     openaiTimeout := openaiTimeout b; openaiModel := openaiModel b;
     _openaiAccessToken := _openaiAccessToken b;
     _openaiRefreshToken := _openaiRefreshToken b;
     _tokenExpiresAt := _tokenExpiresAt b; mcpBridge := mcpBridge b;
     agentLoop := a; planner := p; orchestrator := o;
     _memoryContext := _memoryContext b;
     _learnedContext := _learnedContext b;
     claudeSystemPrompt := claudeSystemPrompt b |}.

(** *** Methods as computations

    A method takes the instance and yields a tree of effects ending in
    a returned value or a thrown error, together with the instance as
    the method left it. *)

Definition M (A : Type) : Type := brain -> prog (outcome A * brain).

Definition ret {A : Type} (a : A) : M A := fun b => Ret (Val a, b).

Definition throw {A : Type} (e : error) : M A := fun b => Ret (Exn e, b).

Definition bind {A B : Type} (m : M A) (f : A -> M B) : M B :=
  fun b =>
    pbind (m b) (fun ob =>
      match ob with
      | (Val a, b') => f a b'
      | (Exn e, b') => Ret (Exn e, b')
      end).

(** [try { m } catch (error) { h error }] *)
Definition try_catch {A : Type} (m : M A) (h : error -> M A) : M A :=
  fun b =>
    pbind (m b) (fun ob =>
      match ob with
      | (Val a, b') => Ret (Val a, b')
      | (Exn e, b') => h e b'
      end).

(** [await] of a call to the outside. *)
Definition perform (c : call) : M value :=
  fun b =>
    Call c (fun r =>
      match r with
      | Returns v => Ret (Val v, b)
      | Throws e => Ret (Exn e, b)
      end).

(** [Date.now()] *)
Definition date_now : M Z := fun b => Now (fun t => Ret (Val t, b)).

Definition this : M brain := fun b => Ret (Val b, b).

Definition update (f : brain -> brain) : M unit :=
  fun b => Ret (Val tt, f b).

(** An expression that can throw. *)
Definition eval {A : Type} (o : outcome A) : M A :=
  match o with Val a => ret a | Exn e => throw e end.

Declare Scope brain_scope.
Delimit Scope brain_scope with brain.
Notation "x <- m ;; k" := (bind m (fun x => k))
  (at level 61, m at next level, right associativity) : brain_scope.
Notation "m ;; k" := (bind m (fun _ => k))
  (at level 61, right associativity) : brain_scope.
Local Open Scope brain_scope.

(** A block of [think] that either returns a value or falls through
    to the statements after it. *)
Definition block : Type := M (option value).

Definition returns (m : M value) : block := v <- m ;; ret (Some v).
Definition falls_through : block := ret None.

(** [blk; rest]: [rest] runs only when [blk] did not return. *)
Definition or_next (blk : block) (rest : M value) : M value :=
  r <- blk ;;
  match r with
  | Some v => ret v
  | None => rest
  end.

Notation "blk ;;; rest" := (or_next blk rest)
  (at level 62, right associativity) : brain_scope.

(** Running a method in a world: the outcome, the instance afterwards
    and the effects in the order they happened; [run_at w n] is a run
    whose first effect is the [n]-th of the world. *)
Definition run_at {A : Type} (w : world) (n : nat) (m : M A) (b : brain)
    : (outcome A * brain) * list event :=
  interp w n (m b).

Definition run_in {A : Type} (w : world) (m : M A) (b : brain)
    : (outcome A * brain) * list event :=
  run_at w 0 m b.


(** *** Texts and small helpers *)

Definition nl : string := Str.nl.
Definition quoted (s : string) : string := Str.dq ++ s ++ Str.dq.
Definition lines (l : list string) : string := Str.join nl l.
Definition str_truthy (s : string) : bool := negb (Str.is_empty s).

(** [a || b] on texts. *)
Definition str_or (a b : string) : string :=
  if str_truthy a then a else b.

Definition classifierPrompt : string :=
  lines [
    "You are a task classifier. Given a user message, respond with ONLY one word:";
    EmptyString;
    "CHAT - if it's casual conversation, greetings, simple questions, explanations, or general knowledge.";
    "ACTION - if it needs: coding, file operations, searching Google Drive, reading Gmail, research, calculations, scheduling, or automation.";
    EmptyString;
    "Examples:";
    quoted "Hey how are you?" ++ " -> CHAT";
    quoted "What was my last email?" ++ " -> ACTION";
    quoted "Search my drive for invoices" ++ " -> ACTION";
    quoted "Create a script that..." ++ " -> ACTION";
    quoted "Tell me about React" ++ " -> CHAT";
    quoted "Debug this code..." ++ " -> ACTION";
    quoted "Send an email to..." ++ " -> ACTION";
    quoted "What's on my calendar?" ++ " -> ACTION";
    EmptyString;
    "Respond with only: CHAT or ACTION (No punctuation)" ].

Definition geminiPrompt : string :=
  lines [
    "You are Mary Jane (MJ), Omar's helpful AI assistant.";
    "Be friendly, concise, and helpful. You can chat naturally." ].

(** [date] is the text of
    [new Date().toLocaleString('en-US', { timeZone: 'America/New_York' })]
    when the instance is built. *)
Definition make_claudeSystemPrompt (date : string) : string :=
  lines [
    "You are Mary Jane (MJ), Omar's personal AI assistant.";
    "You have been given real data from Omar's Gmail, Google Calendar, Google Drive, or web search results.";
    "Analyze the data and answer Omar's question naturally and concisely.";
    "Don't say " ++ quoted "based on the data provided"
      ++ " - just answer as if you looked it up yourself.";
    "If asked to send an email, draft it and confirm the details.";
    "Be concise " ++ "—" ++ " avoid overly long responses. Get to the point.";
    "Current date/time: " ++ date ].

(** [constructor(skills = {})] *)
Definition constructor (config : Config.config) (date : string)
    (skills_arg : option skillset) : brain :=
  {| skills := match skills_arg with Some s => s | None => no_skills end;
     geminiApiKey := Config.geminiApiKey config;
     openaiTimeout :=
       match Config.claudeTimeout config with
       | Some t => if (t =? 0)%Z then 60000%Z else t
       | None => 60000%Z
       end;
     openaiModel :=
       or_else (Config.openaiCodexModel config) (VStr "gpt-5.3-codex");
     _openaiAccessToken := Config.openaiCodexToken config;
     _openaiRefreshToken := Config.openaiCodexRefresh config;
     _tokenExpiresAt := Some 0%Z;
     mcpBridge := false;
     agentLoop := false;
     planner := false;
     orchestrator := false;
     _memoryContext := VUndefined;
     _learnedContext := VUndefined;
     claudeSystemPrompt := make_claudeSystemPrompt date |}.

(** [isReady()] *)
Definition isReady (b : brain) : bool := truthy (geminiApiKey b).

(** [setMCPBridge(bridge)] for a bridge object. *)
Definition setMCPBridge : M unit := update (set_mcpBridge true).

(** [l.slice(-n)] *)
Definition last_n {A : Type} (n : nat) (l : list A) : list A :=
  skipn (length l - n) l.

(** [context.slice(-n).map(m => `${m.role}: ${m.content}`).join('\n')] *)
Definition context_text (n : nat) (context : list turn) : string :=
  Str.join nl
    (map (fun m => role m ++ ": " ++ content m) (last_n n context)).

(** The conversation as an argument of a call. *)
Definition context_value (context : list turn) : value :=
  VArr (map (fun m => VObj [("role", VStr (role m));
                            ("content", VStr (content m))]) context).

(** [response.data.candidates?.[0]?.content?.parts?.[0]?.text] *)
Definition gemini_text (response : value) : outcome value :=
  match get response "data" with
  | Exn e => Exn e
  | Val data =>
      match get data "candidates" with
      | Exn e => Exn e
      | Val candidates =>
          Val (opt_get
                 (opt_first
                    (opt_get (opt_get (opt_first candidates) "content")
                             "parts"))
                 "text")
      end
  end.

(** [response.data.choices?.[0]?.message?.content] *)
Definition openai_text (response : value) : outcome value :=
  match get response "data" with
  | Exn e => Exn e
  | Val data =>
      match get data "choices" with
      | Exn e => Exn e
      | Val choices =>
          Val (opt_get (opt_get (opt_first choices) "message") "content")
      end
  end.

(** [text.match(rx)] on a value: only a text has the method. *)
Definition value_match (rx : regex) (v : value)
    : outcome (option (string * found)) :=
  match v with
  | VStr s =>
      Val (match Regex.exec rx s with
           | Some f => Some (s, f)
           | None => None
           end)
  | _ => Exn (type_error "rawText.match is not a function")
  end.

(** [data.includes('not configured')] *)
Definition value_includes (v : value) (needle : string) : outcome bool :=
  match v with
  | VStr s => Val (Str.includes s needle)
  | VArr items => Val (existsb (fun x => is_str x needle) items)
  | _ => Exn (type_error "data.includes is not a function")
  end.

(** The one-message body of a request to the fast backend. *)
Definition user_body (text : string) (system : option string)
    (temperature : string) (tokens : Z) : gemini_body :=
  {| contents := [ {| role := "user"; content := text |} ];
     systemInstruction := system;
     temperature := temperature;
     maxOutputTokens := tokens |}.


(** *** Classification *)

Definition gemini_key (b : brain) : string := to_string (geminiApiKey b).

(** [text?.trim().toUpperCase()] *)
Definition trim_upper (text : value) : outcome value :=
  match text with
  | VUndefined | VNull => Val VUndefined
  | VStr s => Val (VStr (Str.toUpperCase (Str.trim s)))
  | _ => Exn (type_error "text.trim is not a function")
  end.

(** [classifyMessage(message)] *)
Definition classifyMessage (message : string) : M string :=
  try_catch
    (b <- this ;;
     response <- perform
       (GeminiPost (gemini_key b)
                   (user_body message (Some classifierPrompt) "0" 10)
                   5000) ;;
     text <- eval (gemini_text response) ;;
     result <- eval (trim_upper text) ;;
     ret (if is_str result "ACTION" then "claude" else "gemini"))
    (fun _ => ret "gemini").

(** [_isMultiStepRequest(message)] *)
Definition _isMultiStepRequest (message : string) : bool :=
  let lower := Str.toLowerCase message in
  existsb (fun rx => Regex.test rx lower)
    [Patterns.multi_sequence; Patterns.multi_research;
     Patterns.multi_check].

(** [initAgentLoop()]: the registry and the three agents come from
    modules outside the class; each construction can throw, and what
    was assigned before a throw stays assigned. *)
Definition initAgentLoop : M unit :=
  b <- this ;;
  if agentLoop b then ret tt
  else
    try_catch
      (registry <- perform (Invoke "tools" "registerAllTools" []) ;;
       perform (Invoke "AgentLoop" "new" [registry]) ;;
       update (fun b => set_agents true (planner b) (orchestrator b) b) ;;
       perform (Invoke "TaskPlanner" "new" [registry]) ;;
       update (fun b => set_agents (agentLoop b) true (orchestrator b) b) ;;
       perform (Invoke "Orchestrator" "new" [registry]) ;;
       update (fun b => set_agents (agentLoop b) (planner b) true b) ;;
       eval (get registry "size") ;;
       ret tt)
      (fun _ => ret tt).

(** *** The token of the powerful backend *)

(** [now + lifetime * 1000 - 60000] *)
Definition expiry (now : Z) (lifetime : value) : option Z :=
  option_map (fun n => now + n * 1000 - 60000)%Z (to_number lifetime).

(** [now >= expiresAt] *)
Definition expired (now : Z) (expiresAt : option Z) : bool :=
  match expiresAt with
  | Some t => (t <=? now)%Z
  | None => false
  end.

(** [_refreshAccessToken()] *)
Definition _refreshAccessToken : M unit :=
  b <- this ;;
  if negb (truthy (_openaiRefreshToken b))
  then throw (new_Error "No OpenAI refresh token configured")
  else
    try_catch
      (response <- perform (OAuthPost (_openaiRefreshToken b)) ;;
       data <- eval (get response "data") ;;
       access_token <- eval (get data "access_token") ;;
       update (set_accessToken access_token) ;;
       refresh_token <- eval (get data "refresh_token") ;;
       (if truthy refresh_token
        then update (set_refreshToken refresh_token) else ret tt) ;;
       now <- date_now ;;
       expires_in <- eval (get data "expires_in") ;;
       update (set_tokenExpiresAt
                 (expiry now (or_else expires_in (VNum 3600)))))
      (fun error =>
         throw (new_Error
           ("OpenAI token refresh failed: " ++
            to_string
              (or_else
                 (opt_get (opt_get (opt_get (JS.response error) "data")
                                   "error") "message")
                 (VStr (JS.message error)))))).

(** [_getValidToken()] *)
Definition _getValidToken : M value :=
  b <- this ;;
  if negb (truthy (_openaiAccessToken b))
     && negb (truthy (_openaiRefreshToken b))
  then throw (new_Error
    "No OpenAI credentials configured. Set OPENAI_CODEX_TOKEN and OPENAI_CODEX_REFRESH in .env")
  else
    (if negb (truthy (_openaiAccessToken b)) then _refreshAccessToken
     else
       now <- date_now ;;
       if expired now (_tokenExpiresAt b) then _refreshAccessToken
       else ret tt) ;;
    b' <- this ;;
    ret (_openaiAccessToken b').

(** *** The powerful backend *)

Definition maxPromptLen : Z := 100000.

(** [s.substring(0, n)] *)
Definition substring0 (n : Z) (s : string) : string :=
  Str.of_chars (firstn (Z.to_nat n) (Str.chars s)).

(** The request to the chat-completions endpoint, with the bearer
    [token] and [user] as the text of the user message. *)
Definition chat_request (b : brain) (token : value) (user : string)
    : call :=
  OpenAIPost ("Bearer " ++ to_string token) (openaiModel b)
             (claudeSystemPrompt b) user (openaiTimeout b).

Definition openai_post (token : value) (user : string) : M value :=
  b <- this ;;
  perform (chat_request b token user).

(** The [safePrompt] of [_callOpenAI]. *)
Definition safePrompt (prompt : string) : string :=
  if (maxPromptLen <? Z.of_nat (String.length prompt))%Z
  then substring0 maxPromptLen prompt ++ nl ++ nl
       ++ "[Prompt truncated for length]"
  else prompt.

(** The reactive refresh and the retry of [_callOpenAI]: the inner
    [try] of its [catch] block. *)
Definition refresh_and_retry (prompt : string) : M value :=
  _refreshAccessToken ;;
  b <- this ;;
  retryResponse <-
    openai_post (_openaiAccessToken b) (substring0 100000 prompt) ;;
  text <- eval (openai_text retryResponse) ;;
  ret (or_else text VNull).

(** [_callOpenAI(prompt)] *)
Definition _callOpenAI (prompt : string) : M value :=
  try_catch
    (token <- _getValidToken ;;
     response <- openai_post token (safePrompt prompt) ;;
     text <- eval (openai_text response) ;;
     if truthy text then ret text else ret VNull)
    (fun error =>
       if is_num (opt_get (JS.response error) "status") 401 then
         try_catch (refresh_and_retry prompt)
                   (fun retryErr => throw retryErr)
       else if is_str (JS.code error) "ECONNABORTED"
       then throw (new_Error "OpenAI API timed out")
       else throw error).

(** *** The fast backend *)

(** [thinkWithGemini(message, context)] *)
Definition thinkWithGemini (message : string) (context : list turn)
    : M value :=
  b <- this ;;
  if negb (truthy (geminiApiKey b))
  then ret (VStr "Add GEMINI_API_KEY to .env")
  else
    try_catch
      (let contents :=
         (map (fun msg =>
                 {| role := if Str.eqb (Eff.role msg) "user"
                            then "user" else "model";
                    content := Eff.content msg |})
              (last_n 10 context)
          ++ [ {| role := "user"; content := message |} ])%list in
       let enrichedPrompt :=
         geminiPrompt
         ++ (if truthy (_memoryContext b)
             then nl ++ to_string (_memoryContext b) else EmptyString)
         ++ (if truthy (_learnedContext b)
             then nl ++ to_string (_learnedContext b) else EmptyString) in
       apiKey <- perform (Invoke "keyRouter" "getKey" [VStr "textChat"]) ;;
       perform (Invoke "apiRateLimiter" "trackRequest"
                       [VStr "gemini-text-chat"]) ;;
       response <- perform
         (GeminiWithRetry apiKey
            {| contents := contents;
               systemInstruction := Some enrichedPrompt;
               temperature := "0.8";
               maxOutputTokens := 2048 |}
            30000) ;;
       text <- eval (gemini_text response) ;;
       ret (or_else text (VStr "I'm here!")))
      (fun error => ret (VStr ("Error: " ++ JS.message error))).

(** The [analysisPrompt] of [_fallbackToGemini]. *)
Definition fallbackPrompt (message : string) (context : list turn)
    (prefetchedData : value) : string :=
  let contextStr := context_text 5 context in
  (if str_truthy contextStr
   then "Recent conversation:" ++ nl ++ contextStr ++ nl ++ nl
   else EmptyString)
  ++ "Here is real data from Omar's accounts:" ++ nl ++ nl
  ++ to_string prefetchedData ++ nl ++ nl
  ++ "Omar's request: " ++ message ++ nl ++ nl
  ++ "Analyze the data and answer his question directly.".

(** [_fallbackToGemini(message, context, prefetchedData = null)] *)
Definition _fallbackToGemini (message : string) (context : list turn)
    (prefetchedData : value) : M value :=
  if truthy prefetchedData then
    let analysisPrompt := fallbackPrompt message context prefetchedData in
    try_catch
      (b <- this ;;
       response <- perform
         (GeminiPost (gemini_key b)
            (user_body analysisPrompt (Some (claudeSystemPrompt b))
                       "0.4" 4096)
            30000) ;;
       text <- eval (gemini_text response) ;;
       ret (or_else text
              (VStr "I found the data but couldn't analyze it. Try asking differently.")))
      (fun error =>
         ret (VStr ("Both Claude and Gemini failed: " ++ JS.message error)))
  else thinkWithGemini message context.

(** *** Prefetch *)

(** [googleWorkspace?.isReady()] as a condition. *)
Definition workspace_ready : M bool :=
  b <- this ;;
  if googleWorkspace (skills b)
  then r <- perform (Invoke "googleWorkspace" "isReady" []) ;;
       ret (truthy r)
  else ret false.

(** [googleWorkspace.method(args)]; without the skill the call is a
    [TypeError]. *)
Definition workspace (method : string) (args : list value) : M value :=
  b <- this ;;
  if googleWorkspace (skills b)
  then perform (Invoke "googleWorkspace" method args)
  else throw (type_error
    ("Cannot read properties of undefined (reading '" ++ method ++ "')")).

(** [sections.push(s)] *)
Definition push (sections : list string) (s : string) : list string :=
  (sections ++ [s])%list.

(** The text of a group that took part in the match. *)
Definition group_text (s : string) (f : found) (i : nat) : string :=
  match Regex.group s f i with Some g => g | None => EmptyString end.

(** The statements of a [try] body that push onto [sections]: when one
    of them throws, the sections pushed before it stay and the rest of
    the body is skipped. *)
Fixpoint try_steps (steps : list (list string -> M (list string)))
    (sections : list string) : M (list string) :=
  match steps with
  | [] => ret sections
  | step :: steps' =>
      fun b =>
        pbind (step sections b) (fun ob =>
          match ob with
          | (Val sections', b') => try_steps steps' sections' b'
          | (Exn _, b') => Ret (Val sections, b')
          end)
  end.

Definition prefetch_emails (lower : string) (sections : list string)
    : M (list string) :=
  if Regex.test Patterns.prefetch_email lower then
    ready <- workspace_ready ;;
    if ready then
      emails <- workspace "getRecentEmails" [VNum 10] ;;
      ret (push sections
             ("=== RECENT EMAILS ===" ++ nl ++ to_string emails))
    else ret sections
  else ret sections.

Definition prefetch_events (lower : string) (sections : list string)
    : M (list string) :=
  if Regex.test Patterns.prefetch_calendar lower then
    ready <- workspace_ready ;;
    if ready then
      events <- workspace "getTodayEvents" [] ;;
      ret (push sections
             ("=== TODAY'S CALENDAR ===" ++ nl ++ to_string events))
    else ret sections
  else ret sections.

(** The search term of the drive prefetch. *)
Definition prefetch_term (message : string) : string :=
  let t1 :=
    match Regex.exec Patterns.prefetch_for message with
    | Some f => Str.trim (group_text message f 1)
    | None => EmptyString
    end in
  let t2 :=
    if str_truthy t1 then t1
    else match Regex.exec Patterns.prefetch_quoted message with
         | Some f => Str.trim (group_text message f 1)
         | None => t1
         end in
  if str_truthy t2 then t2
  else Str.trim
         (replace_all Patterns.prefetch_noun EmptyString
            (replace_all Patterns.prefetch_stop EmptyString
               (replace_all Patterns.prefetch_lead EmptyString message))).

Definition prefetch_files (message lower : string)
    (sections : list string) : M (list string) :=
  if Regex.test Patterns.prefetch_drive lower then
    ready <- workspace_ready ;;
    if ready then
      let searchTerm := prefetch_term message in
      if (1 <? String.length searchTerm)%nat then
        files <- workspace "searchFiles" [VStr searchTerm] ;;
        ret (push sections
               ("=== DRIVE SEARCH RESULTS ===" ++ nl ++ to_string files))
      else ret sections
    else ret sections
  else ret sections.

Definition prefetch_web (message lower : string)
    (sections : list string) : M (list string) :=
  if Regex.test Patterns.prefetch_web lower
     && (length sections =? 0)%nat then
    b <- this ;;
    if braveSearch (skills b) then
      let query :=
        Str.trim (replace_first Patterns.query_lead EmptyString message) in
      results <- perform (Invoke "braveSearch" "search" [VStr query]) ;;
      ret (push sections
             ("=== WEB SEARCH RESULTS ===" ++ nl ++ to_string results))
    else ret sections
  else ret sections.

(** [prefetchData(message)] *)
Definition prefetchData (message : string) : M string :=
  let lower := Str.toLowerCase message in
  sections <- try_steps
    [prefetch_emails lower; prefetch_events lower;
     prefetch_files message lower; prefetch_web message lower] [] ;;
  ret (Str.join (nl ++ nl) sections).

(** [try { x = await first; body } catch (error) { handler }] where the
    handler reads the local [x]: it sees [initial] when [first] threw
    and the assigned value otherwise. *)
Definition try_assigning {A B : Type} (initial : A) (first : M A)
    (body : A -> M B) (handler : A -> error -> M B) : M B :=
  fun b =>
    pbind (first b) (fun ob =>
      match ob with
      | (Val a, b') => try_catch (body a) (handler a) b'
      | (Exn e, b') => handler initial e b'
      end).

(** The prompt of [thinkWithClaude] and its call of the powerful
    backend: the statements of the [try] body between the prefetch
    and the test of the response. *)
Definition askOpenAI (message : string) (context : list turn)
    (prefetchedData : value) : M value :=
  b <- this ;;
  let contextStr := context_text 5 context in
  let prompt1 :=
    claudeSystemPrompt b ++ nl ++ nl
    ++ (if truthy (_memoryContext b)
        then to_string (_memoryContext b) ++ nl ++ nl
        else EmptyString)
    ++ (if truthy (_learnedContext b)
        then to_string (_learnedContext b) ++ nl ++ nl
        else EmptyString)
    ++ (if str_truthy contextStr
        then "Recent conversation:" ++ nl ++ contextStr ++ nl ++ nl
        else EmptyString) in
  tools <-
    (if mcpBridge b then
       toolInfo <- perform
         (Invoke "mcpBridge" "getToolDescriptions" []) ;;
       ret (if truthy toolInfo
            then "Available MCP tools:" ++ nl ++ to_string toolInfo
                 ++ nl ++ nl
            else EmptyString)
     else ret EmptyString) ;;
  let fullPrompt :=
    prompt1 ++ tools
    ++ (if truthy prefetchedData
        then "Here is real data from Omar's accounts:" ++ nl ++ nl
             ++ to_string prefetchedData ++ nl ++ nl
        else EmptyString)
    ++ "Omar's request: " ++ message ++ nl ++ nl
    ++ "Analyze the data and answer his question directly. Be concise." in
  _callOpenAI fullPrompt.

(** [thinkWithClaude(message, context)] *)
Definition thinkWithClaude (message : string) (context : list turn)
    : M value :=
  try_assigning VNull
    (data <- prefetchData message ;; ret (VStr data))
    (fun prefetchedData =>
       openaiResponse <- askOpenAI message context prefetchedData ;;
       if truthy openaiResponse then ret openaiResponse
       else _fallbackToGemini message context prefetchedData)
    (fun prefetchedData _ =>
       _fallbackToGemini message context prefetchedData).


(** *** Handlers of [think] *)

Section Handlers.

(** [JSON.parse]: the value a text denotes, or the [SyntaxError]. *)
Variable JSON_parse : string -> outcome value.

(** [_handleSendEmail(message, context)] *)
Definition _handleSendEmail (message : string) (context : list turn)
    : M value :=
  try_catch
    (b <- this ;;
     parseResponse <- perform
       (GeminiPost (gemini_key b)
          (user_body
             ("Parse this email request and return ONLY valid JSON with keys "
              ++ quoted "to" ++ ", " ++ quoted "subject" ++ ", "
              ++ quoted "body"
              ++ ". If any field is unclear, make a reasonable guess."
              ++ nl ++ nl ++ "Request: " ++ quoted message ++ nl ++ nl
              ++ "JSON:")
             None "0.1" 1024)
          15000) ;;
     text <- eval (gemini_text parseResponse) ;;
     let rawText := or_else text (VStr EmptyString) in
     jsonMatch <- eval (value_match Patterns.json_region rawText) ;;
     match jsonMatch with
     | None =>
         ret (VStr ("I couldn't understand the email details. Try: "
                    ++ quoted "Send an email to name@email.com about [subject] saying [message]"))
     | Some (raw, found) =>
         parsed <- eval (JSON_parse (Regex.matched raw found)) ;;
         to <- eval (get parsed "to") ;;
         subject <- eval (get parsed "subject") ;;
         body <- eval (get parsed "body") ;;
         if negb (truthy to)
         then ret (VStr "I need a recipient email address.")
         else
           result <- workspace "sendEmail"
             [to; or_else subject (VStr "(no subject)");
              or_else body (VStr message)] ;;
           ret (VStr ("Email sent to **" ++ to_string to ++ "**!" ++ nl
                      ++ "Subject: " ++ to_string subject ++ nl ++ nl
                      ++ string_or_empty result))
     end)
    (fun error =>
       ret (VStr ("Failed to send email: " ++ JS.message error))).

(** [_handleReminder(message)] *)
Definition _handleReminder (message : string) : M value :=
  try_catch
    (b <- this ;;
     parseResponse <- perform
       (GeminiPost (gemini_key b)
          (user_body
             ("Parse this reminder request. Return ONLY valid JSON with keys "
              ++ quoted "time" ++ " (e.g., " ++ quoted "5m" ++ ", "
              ++ quoted "1h" ++ ", " ++ quoted "30min" ++ ") and "
              ++ quoted "message" ++ " (what to remind about)."
              ++ nl ++ nl ++ "Request: " ++ quoted message ++ nl ++ nl
              ++ "JSON:")
             None "0.1" 512)
          15000) ;;
     text <- eval (gemini_text parseResponse) ;;
     let rawText := or_else text (VStr EmptyString) in
     jsonMatch <- eval (value_match Patterns.json_region rawText) ;;
     let unparsed :=
       VStr ("I couldn't parse the reminder. Try: "
             ++ quoted "Remind me in 30 minutes to check the oven") in
     match jsonMatch with
     | None => ret unparsed
     | Some (raw, found) =>
         parsed <- eval (JSON_parse (Regex.matched raw found)) ;;
         time <- eval (get parsed "time") ;;
         reminderMsg <- eval (get parsed "message") ;;
         if truthy time && truthy reminderMsg then
           if scheduler (skills b) && truthy (scheduler_bot (skills b))
           then perform
                  (Invoke "scheduler" "addReminder"
                     [or_else (skills_userId (skills b)) (VStr EmptyString);
                      time; reminderMsg; scheduler_bot (skills b)])
           else ret unparsed
         else ret unparsed
     end)
    (fun error =>
       ret (VStr ("Failed to set reminder: " ++ JS.message error))).

(** One optional fetch of [_composeWithClaude]: a failure is logged
    and the data stays as it was. *)
Definition context_fetch (wanted : bool) (method : string)
    (args : list value) (title : string) (contextData : string)
    : M string :=
  if wanted then
    try_catch
      (fetched <- workspace method args ;;
       ret (contextData ++ nl ++ title ++ nl ++ to_string fetched ++ nl))
      (fun _ => ret contextData)
  else ret contextData.

Definition compose_prompt (composeType contextData conversationContext
    message : string) : string :=
  let conversation :=
    if str_truthy conversationContext
    then "Recent conversation:" ++ nl ++ conversationContext ++ nl
    else EmptyString in
  let data (intro : string) :=
    if str_truthy contextData
    then intro ++ nl ++ contextData ++ nl else EmptyString in
  if Str.eqb composeType "document" then
    "You are Omar's personal assistant. He wants you to CREATE content for a document."
    ++ nl ++ nl
    ++ data "Here is real data from his Google account for reference:"
    ++ nl ++ conversation ++ nl ++ "Omar's request: " ++ message
    ++ nl ++ nl
    ++ "Compose the document content. Be thorough, professional, and well-structured. Use clear headings and formatting. Return ONLY the content."
  else if Str.eqb composeType "draft" then
    "You are Omar's personal assistant. He wants you to DRAFT written content."
    ++ nl ++ nl
    ++ data "Here is real data from his Google account for context:"
    ++ nl ++ conversation ++ nl ++ "Omar's request: " ++ message
    ++ nl ++ nl
    ++ "Write the draft content. Match the appropriate tone. Return ONLY the draft text."
  else if Str.eqb composeType "summarize" then
    "You are Omar's personal assistant. He wants you to SUMMARIZE or DOCUMENT information."
    ++ nl ++ nl
    ++ data "Here is real data from his Google account:"
    ++ nl ++ conversation ++ nl ++ "Omar's request: " ++ message
    ++ nl ++ nl
    ++ "Create a clear, organized summary or document. Use bullet points and headings where appropriate. Return ONLY the content."
  else EmptyString.

(** [_composeWithClaude(message, context, composeType)] *)
Definition _composeWithClaude (message : string) (context : list turn)
    (composeType : string) : M value :=
  try_catch
    (let lower := Str.toLowerCase message in
     ready <- workspace_ready ;;
     contextData <-
       (if ready then
          d1 <- context_fetch (Regex.test Patterns.compose_email lower)
                  "getRecentEmails" [VNum 5]
                  "=== RECENT EMAILS (for context) ===" EmptyString ;;
          d2 <- context_fetch (Regex.test Patterns.compose_calendar lower)
                  "getTodayEvents" []
                  "=== TODAY'S CALENDAR ===" d1 ;;
          context_fetch (Regex.test Patterns.compose_drive lower)
            "listRecentFiles" [VNum 5]
            "=== RECENT DRIVE FILES ===" d2
        else ret EmptyString) ;;
     let conversationContext := context_text 5 context in
     let claudePrompt :=
       compose_prompt composeType contextData conversationContext message in
     claudeResponse <- _callOpenAI claudePrompt ;;
     if truthy claudeResponse then
       let icon :=
         if Str.eqb composeType "document" then "Doc"
         else if Str.eqb composeType "draft" then "Draft" else "Summary" in
       ret (VStr ("**Claude composed (" ++ icon ++ "):**" ++ nl ++ nl
                  ++ to_string claudeResponse))
     else _fallbackToGemini message context (VStr contextData))
    (fun _ => _fallbackToGemini message context VNull).

(** The search term of the drive branch of [_analyzeGoogleData]. *)
Definition driveSearchTerm (message : string) : string :=
  let searchTerm :=
    Str.trim
      (replace_all Patterns.punctuation EmptyString
         (replace_all Patterns.drive_noun EmptyString
            (replace_all Patterns.drive_stop EmptyString
               (replace_all Patterns.drive_lead EmptyString message)))) in
  if negb (str_truthy searchTerm)
     || (String.length searchTerm <? 3)%nat
     || Regex.test Patterns.stop_token searchTerm
  then "recent" else searchTerm.

(** [_analyzeGoogleData(message, context, dataType)] *)
Definition _analyzeGoogleData (message : string) (context : list turn)
    (dataType : string) : M value :=
  try_catch
    (data <-
       (if Str.eqb dataType "email"
        then workspace "getRecentEmails" [VNum 10]
        else if Str.eqb dataType "calendar"
        then workspace "getTodayEvents" []
        else if Str.eqb dataType "drive"
        then workspace "searchFiles" [VStr (driveSearchTerm message)]
        else ret (VStr EmptyString)) ;;
     unconfigured <-
       (if negb (truthy data) then ret true
        else eval (value_includes data "not configured")) ;;
     if (unconfigured : bool)
     then ret (VStr ("Google " ++ dataType ++ " is not set up properly."))
     else
       b <- this ;;
       let contextStr := context_text 3 context in
       let analysisPrompt :=
         "You are Omar's personal assistant. Here is real data from his Google account:"
         ++ nl ++ nl ++ to_string data ++ nl ++ nl
         ++ (if str_truthy contextStr
             then "Recent conversation:" ++ nl ++ contextStr ++ nl
             else EmptyString)
         ++ nl ++ "Omar's request: " ++ message ++ nl ++ nl
         ++ "Analyze the data above and answer his question directly. Be helpful and concise." in
       response <- perform
         (GeminiPost (gemini_key b)
                     (user_body analysisPrompt None "0.3" 4096) 15000) ;;
       text <- eval (gemini_text response) ;;
       if truthy text then ret text
       else ret (VStr "Could not analyze the data. Try asking differently."))
    (fun error =>
       ret (VStr ("Failed to get " ++ dataType ++ ": "
                  ++ JS.message error))).


(** *** [think] *)

(** [text.replace(lead, '').trim() || message]: the cleaned prompt of a
    media request. *)
Definition media_prompt (lead : regex) (message : string) : string :=
  str_or (Str.trim (replace_first lead EmptyString message)) message.

(** [result?.success && result?.imageBase64] *)
Definition image_ok (result : value) : bool :=
  truthy (and_then (opt_get result "success")
                   (opt_get result "imageBase64")).

(** [return result?.message || result || fallback] *)
Definition image_failure (result : value) (fallback : string) : value :=
  or_else (or_else (opt_get result "message") result) (VStr fallback).

(** The [options] object of a video request. *)
Record video_options : Type := VideoOptions {
  audio : option bool;
  resolution : option string;
  aspectRatio : option string;
  quality : option string;
  duration : option Z
}.

(** [[4, 6, 8].includes(dur)] *)
Definition allowed_duration (dur : option Z) : bool :=
  match dur with
  | Some d => existsb (Z.eqb d) [4; 6; 8]%Z
  | None => false
  end.

(** The options read from the lower-cased message. *)
Definition videoOptions (lower : string) : video_options :=
  {| audio :=
       if Regex.test Patterns.no_audio lower then Some false else None;
     resolution :=
       if Regex.test Patterns.res_4k lower then Some "4k"
       else if Regex.test Patterns.res_1080p lower then Some "1080p"
       else None;
     aspectRatio :=
       if Regex.test Patterns.portrait lower then Some "9:16" else None;
     quality :=
       if Regex.test Patterns.quality lower then Some "standard" else None;
     duration :=
       match Regex.exec Patterns.seconds lower with
       | Some durMatch =>
           let dur := parseInt (group_text lower durMatch 1) in
           if allowed_duration dur then dur else None
       | None => None
       end |}.

Definition field {A : Type} (name : string) (inj : A -> value)
    (o : option A) : list (string * value) :=
  match o with
  | Some a => [(name, inj a)]
  | None => []
  end.

Definition options_value (o : video_options) : value :=
  VObj (field "audio" VBool (audio o)
        ++ field "resolution" VStr (resolution o)
        ++ field "aspectRatio" VStr (aspectRatio o)
        ++ field "quality" VStr (quality o)
        ++ field "duration" VNum (duration o))%list.

(** [if (c) { body }] as a statement of [think]. *)
Definition when (c : bool) (body : block) : block :=
  if c then body else falls_through.

(** Image upscale intent *)
Definition upscale_intent : block :=
  b <- this ;;
  if geminiImage (skills b) then
    result <- perform (Invoke "geminiImage" "upscale" []) ;;
    if image_ok result then ret (Some result)
    else ret (Some (image_failure result "Upscale failed."))
  else falls_through.

(** Ultra image intent *)
Definition ultra_image_intent (message : string) : block :=
  b <- this ;;
  if geminiImage (skills b) then
    let prompt := media_prompt Patterns.ultra_lead message in
    result <- perform
      (Invoke "geminiImage" "ultraGenerate" [VStr prompt]) ;;
    if image_ok result then ret (Some result)
    else ret (Some (image_failure result "Ultra image generation failed."))
  else falls_through.

(** Image generation intent *)
Definition image_intent (message : string) : block :=
  b <- this ;;
  if geminiImage (skills b) then
    let prompt := media_prompt Patterns.image_lead message in
    result <- perform (Invoke "geminiImage" "generate" [VStr prompt]) ;;
    if image_ok result then ret (Some result)
    else ret (Some (image_failure result "Image generation failed."))
  else falls_through.

(** Video generation intent *)
Definition video_intent (message lower : string) : block :=
  b <- this ;;
  if geminiVideo (skills b) then
    let prompt := media_prompt Patterns.video_lead message in
    let options := videoOptions lower in
    result <- perform
      (Invoke "geminiVideo" "generateVideo"
              [VStr prompt; options_value options]) ;;
    if truthy (opt_get result "success") then ret (Some result)
    else ret (Some (or_else (opt_get result "message")
                            (VStr "Video generation failed.")))
  else falls_through.

(** Weather intent *)
Definition weather_intent (message lower : string) : block :=
  b <- this ;;
  if weather (skills b) then
    returns
      (try_catch
         (let location :=
            match Regex.exec Patterns.location message with
            | Some locMatch => Str.trim (group_text message locMatch 1)
            | None => "New York"
            end in
          if Regex.test Patterns.forecast lower
          then perform (Invoke "weather" "getForecast" [VStr location])
          else perform (Invoke "weather" "get" [VStr location]))
         (fun error =>
            ret (VStr ("Weather error: " ++ JS.message error))))
  else falls_through.

(** Send email intent *)
Definition send_email_intent (message : string) (context : list turn)
    : block :=
  ready <- workspace_ready ;;
  if ready then returns (_handleSendEmail message context)
  else falls_through.

(** Reminder intent *)
Definition reminder_intent (message : string) : block :=
  b <- this ;;
  if scheduler (skills b) then returns (_handleReminder message)
  else falls_through.

(** WRITE intents *)
Definition compose_intent (composeType message : string)
    (context : list turn) : block :=
  returns (_composeWithClaude message context composeType).

(** Google data READ intents *)
Definition read_intent (dataType message : string) (context : list turn)
    : block :=
  ready <- workspace_ready ;;
  if ready then returns (_analyzeGoogleData message context dataType)
  else falls_through.

(** Web search *)
Definition web_search_intent (message : string) (context : list turn)
    : block :=
  b <- this ;;
  if braveSearch (skills b)
  then returns (thinkWithClaude message context)
  else falls_through.

(** Multi-step requests: the statements inside the [if]. *)
Definition multi_step_intent (message : string) (context : list turn)
    : block :=
  b <- this ;;
  result <- perform
    (Invoke "orchestrator" "route"
            [VStr message;
             VObj [("userPreferences", VStr EmptyString)]]) ;;
  if truthy result then ret (Some result)
  else if agentLoop b
  then returns (perform (Invoke "agentLoop" "run"
                           [VStr message; context_value context]))
  else falls_through.

(** [if (this.orchestrator && this._isMultiStepRequest(message)) {...}] *)
Definition multi_step_block (message : string) (context : list turn)
    : block :=
  b <- this ;;
  when (orchestrator b && _isMultiStepRequest message)
       (multi_step_intent message context).

(** Smart classification (for everything else) *)
Definition classified (message : string) (context : list turn)
    : M value :=
  route <- classifyMessage message ;;
  if Str.eqb route "claude" then thinkWithClaude message context
  else thinkWithGemini message context.

(** The first statements of [think]: the skills, the agent system and
    the two contexts. *)
Definition think_setup (skills_arg : option skillset) : M unit :=
  (match skills_arg with
   | Some s => update (set_skills s)
   | None => ret tt
   end) ;;
  b <- this ;;
  (if agentLoop b then ret tt else initAgentLoop) ;;
  update (set_contexts
    (or_else (match skills_arg with
              | Some s => skills_memoryContext s
              | None => VUndefined
              end) (VStr EmptyString))
    (or_else (match skills_arg with
              | Some s => skills_learnedContext s
              | None => VUndefined
              end) (VStr EmptyString))).

(** The statements of [think] after the prefixes. *)
Definition think_intents (message : string) (context : list turn)
    : M value :=
  let lower := Str.toLowerCase message in
  when (Regex.test Patterns.upscale lower) upscale_intent ;;;
  when (Regex.test Patterns.ultra lower
        && Regex.test Patterns.image_noun lower)
       (ultra_image_intent message) ;;;
  when (Regex.test Patterns.image_verb lower
        && Regex.test Patterns.image_noun lower)
       (image_intent message) ;;;
  when (Regex.test Patterns.video_verb lower
        && Regex.test Patterns.video_noun lower)
       (video_intent message lower) ;;;
  when (Regex.test Patterns.weather lower)
       (weather_intent message lower) ;;;
  when (Regex.test Patterns.send_email lower)
       (send_email_intent message context) ;;;
  when (Regex.test Patterns.reminder lower) (reminder_intent message) ;;;
  when (Regex.test Patterns.create_document lower)
       (compose_intent "document" message context) ;;;
  when (Regex.test Patterns.draft_write lower)
       (compose_intent "draft" message context) ;;;
  when (Regex.test Patterns.summarize lower)
       (compose_intent "summarize" message context) ;;;
  when (Regex.test Patterns.calendar lower)
       (read_intent "calendar" message context) ;;;
  when (Regex.test Patterns.email lower)
       (read_intent "email" message context) ;;;
  when (Regex.test Patterns.drive lower)
       (read_intent "drive" message context) ;;;
  when (Regex.test Patterns.web_search lower)
       (web_search_intent message context) ;;;
  multi_step_block message context ;;;
  classified message context.

(** [think(message, context, skills)] *)
Definition think (message : string) (context : list turn)
    (skills_arg : option skillset) : M value :=
  think_setup skills_arg ;;
  b <- this ;;
  if Str.startsWith message "/claude "
  then thinkWithClaude (Str.slice_from 8 message) context
  else if Str.startsWith message "/gemini "
  then thinkWithGemini (Str.slice_from 8 message) context
  else if Str.startsWith message "/agent " then
    if agentLoop b
    then perform (Invoke "agentLoop" "run"
                    [VStr (Str.slice_from 7 message);
                     context_value context])
    else ret (VStr "Agent loop not initialized.")
  else if Str.startsWith message "/plan " then
    if planner b then
      result <- perform (Invoke "planner" "planAndExecute"
                           [VStr (Str.slice_from 6 message)]) ;;
      ret (or_else result
             (VStr "Could not create a plan for that request."))
    else ret (VStr "Planner not initialized.")
  else think_intents message context.


End Handlers.

End Brain.

(** ** Notions used to state the properties *)

Module Trace.
Import JS Eff.

(** A request to the token endpoint of the powerful backend. *)
Definition is_refresh (e : event) : bool :=
  match e with
  | Called (OAuthPost _) _ => true
  | _ => false
  end.

(** A request to the chat endpoint of the powerful backend. *)
Definition is_main (e : event) : bool :=
  match e with
  | Called (OpenAIPost _ _ _ _ _) _ => true
  | _ => false
  end.

Definition is_powerful (e : event) : bool := is_refresh e || is_main e.

(** The plain chat of the fast backend ([thinkWithGemini]). *)
Definition is_plain_chat (e : event) : bool :=
  match e with
  | Called (GeminiWithRetry _ _ _) _ => true
  | _ => false
  end.

(** A call of [googleWorkspace.sendEmail]. *)
Definition is_send_email (e : event) : bool :=
  match e with
  | Called (Invoke target method _) _ =>
      String.eqb target "googleWorkspace" && String.eqb method "sendEmail"
  | _ => false
  end.

(** A request to the fast backend outside the plain chat that ended in
    an exception. *)
Definition is_failed_fast (e : event) : bool :=
  match e with
  | Called (GeminiPost _ _ _) (Throws _) => true
  | _ => false
  end.

Definition count (p : event -> bool) (tr : list event) : nat :=
  length (filter p tr).

(** The HTTP status of a failed request, [error.response?.status]. *)
Definition status (e : error) : value := opt_get (response e) "status".

(** The effects before the first request to the chat endpoint, and
    the effects from that request on. *)
Fixpoint before_main (tr : list event) : list event :=
  match tr with
  | [] => []
  | e :: tr' => if is_main e then [] else e :: before_main tr'
  end.

Fixpoint from_main (tr : list event) : list event :=
  match tr with
  | [] => []
  | e :: tr' => if is_main e then tr else from_main tr'
  end.

End Trace.

Module Token.
Import JS Eff Brain.

(** The two configuration errors of the token layer. *)
Definition no_credentials : error :=
  new_Error
    "No OpenAI credentials configured. Set OPENAI_CODEX_TOKEN and OPENAI_CODEX_REFRESH in .env".

Definition no_refresh_token : error :=
  new_Error "No OpenAI refresh token configured".

(** A call of the powerful backend from [b] in [w] needs a refresh: no
    access token is held, or the clock read by the validity check is
    at or past the stored expiry. *)
Definition needs_refresh (w : world) (b : brain) : bool :=
  negb (truthy (_openaiAccessToken b))
  || expired (time w 0) (_tokenExpiresAt b).

(** The response of the token endpoint is usable: it has a [data]. *)
Definition token_data (r : reply) : option value :=
  match r with
  | Returns response =>
      match get response "data" with
      | Val data => if nullish data then None else Some data
      | Exn _ => None
      end
  | Throws _ => None
  end.

(** The instance after a refresh that got [data] at the time [now]. *)
Definition refreshed (b : brain) (data : value) (now : Z) : brain :=
  let b1 := set_accessToken (opt_get data "access_token") b in
  let b2 :=
    if truthy (opt_get data "refresh_token")
    then set_refreshToken (opt_get data "refresh_token") b1 else b1 in
  set_tokenExpiresAt
    (expiry now (or_else (opt_get data "expires_in") (VNum 3600))) b2.

(** The effects of the validity check of [_getValidToken]: the clock
    is read only when an access token is held. *)
Definition check_trace (w : world) (n : nat) (b : brain) : list event :=
  if truthy (_openaiAccessToken b) then [Clock (time w n)] else [].

(** What the [catch] block of [_callOpenAI] throws for an error that is
    not a 401. *)
Definition rethrown (e : error) : error :=
  if is_str (code e) "ECONNABORTED"
  then new_Error "OpenAI API timed out" else e.

(** The request of a refresh from [b]. *)
Definition refresh_request (b : brain) : call :=
  OAuthPost (_openaiRefreshToken b).

(** The five ways [_getValidToken] can run from [b], when its first
    effect is the [n]-th of [w]. *)
Inductive token_run (w : world) (n : nat) (b : brain)
    : (outcome value * brain) * list event -> Prop :=
| no_tokens :
    truthy (_openaiAccessToken b) = false ->
    truthy (_openaiRefreshToken b) = false ->
    token_run w n b ((Exn no_credentials, b), [])
| still_valid :
    truthy (_openaiAccessToken b) = true ->
    expired (time w n) (_tokenExpiresAt b) = false ->
    token_run w n b ((Val (_openaiAccessToken b), b), [Clock (time w n)])
| cannot_refresh :
    truthy (_openaiAccessToken b) = true ->
    expired (time w n) (_tokenExpiresAt b) = true ->
    truthy (_openaiRefreshToken b) = false ->
    token_run w n b ((Exn no_refresh_token, b), [Clock (time w n)])
| refresh_fails msg :
    negb (truthy (_openaiAccessToken b))
    || expired (time w n) (_tokenExpiresAt b) = true ->
    truthy (_openaiRefreshToken b) = true ->
    let i := length (check_trace w n b) + n in
    token_data (answer w i (refresh_request b)) = None ->
    token_run w n b
      ((Exn (new_Error msg), b),
       (check_trace w n b
        ++ [Called (refresh_request b) (answer w i (refresh_request b))])%list)
| refresh_succeeds data :
    negb (truthy (_openaiAccessToken b))
    || expired (time w n) (_tokenExpiresAt b) = true ->
    truthy (_openaiRefreshToken b) = true ->
    let i := length (check_trace w n b) + n in
    token_data (answer w i (refresh_request b)) = Some data ->
    let b1 := refreshed b data (time w (S i)) in
    token_run w n b
      ((Val (_openaiAccessToken b1), b1),
       (check_trace w n b
        ++ [Called (refresh_request b) (answer w i (refresh_request b));
            Clock (time w (S i))])%list).

End Token.


Module Quiet.
Import JS Eff Brain Trace.

Definition powerful_call (c : call) : bool :=
  match c with
  | OAuthPost _ | OpenAIPost _ _ _ _ _ => true
  | _ => false
  end.

(** [m] neither changes the instance nor reaches the powerful backend. *)
Definition quiet {A : Type} (m : M A) : Prop :=
  forall w n b,
    snd (fst (run_at w n m b)) = b
    /\ Forall (fun e => is_powerful e = false) (snd (run_at w n m b)).

(** [m] never throws. *)
Definition total {A : Type} (m : M A) : Prop :=
  forall w n b, exists a, fst (fst (run_at w n m b)) = Val a.

End Quiet.

Module Fallback.
Import JS Eff Brain.

(** A stage succeeded: it returned a value that is not empty. *)
Definition succeeded (o : outcome value) : bool :=
  match o with
  | Val v => truthy v
  | Exn _ => false
  end.

(** The request of the fast backend with the prefetched [data] folded
    into its prompt. *)
Definition fallback_request (b : brain) (message : string)
    (context : list turn) (data : string) : call :=
  GeminiPost (gemini_key b)
    (user_body (fallbackPrompt message context (VStr data))
               (Some (claudeSystemPrompt b)) "0.4" 4096)
    30000.

(** The text of the one user message of a request to the fast
    backend. *)
Definition prompt_of (c : call) : string :=
  match c with
  | GeminiPost _ body _ =>
      match contents body with
      | [m] => content m
      | _ => EmptyString
      end
  | _ => EmptyString
  end.

Definition apology : string :=
  "I found the data but couldn't analyze it. Try asking differently.".

End Fallback.

Module Classifier.
Import JS Eff Brain.

(** The one request of [classifyMessage]. *)
Definition request (b : brain) (message : string) : call :=
  GeminiPost (gemini_key b)
             (user_body message (Some classifierPrompt) "0" 10) 5000.

(** Two texts are the same up to the case of their letters. *)
Definition same_ignoring_case (a b : string) : Prop :=
  Str.toLowerCase a = Str.toLowerCase b.

(** The fast backend answered with the token ACTION. *)
Definition says_action (r : reply) : Prop :=
  exists response text,
    r = Returns response
    /\ gemini_text response = Val (VStr text)
    /\ same_ignoring_case (Str.trim text) "ACTION".

End Classifier.

Module Email.
Import JS Eff Brain.

(** A text whose braces are matched. *)
Inductive balanced : list ascii -> Prop :=
| balanced_nil : balanced []
| balanced_char c l :
    c <> "{"%char -> c <> "}"%char -> balanced l -> balanced (c :: l)
| balanced_nest l1 l2 :
    balanced l1 -> balanced l2 ->
    balanced ("{"%char :: l1 ++ "}"%char :: l2)%list.

(** The text has a region [{...}] whose inner braces are matched. *)
Definition balanced_region (s : string) : Prop :=
  exists pre mid post,
    Str.chars s = (pre ++ "{"%char :: mid ++ "}"%char :: post)%list
    /\ balanced mid.

(** The text the fast backend returned for the parse request, when its
    response carries one: the [rawText] of the handler. *)
Definition raw_text (r : reply) : option string :=
  match r with
  | Returns response =>
      match gemini_text response with
      | Val text =>
          match or_else text (VStr EmptyString) with
          | VStr raw => Some raw
          | _ => None
          end
      | Exn _ => None
      end
  | Throws _ => None
  end.

(** The parse request of [_handleSendEmail]. *)
Definition parse_request (b : brain) (message : string) : call :=
  GeminiPost (gemini_key b)
    (user_body
       ("Parse this email request and return ONLY valid JSON with keys "
        ++ quoted "to" ++ ", " ++ quoted "subject" ++ ", "
        ++ quoted "body"
        ++ ". If any field is unclear, make a reasonable guess."
        ++ nl ++ nl ++ "Request: " ++ quoted message ++ nl ++ nl
        ++ "JSON:")
       None "0.1" 1024)
    15000.

(** The call of the skill with the parsed fields. *)
Definition send_request (message : string) (parsed : value) : call :=
  Invoke "googleWorkspace" "sendEmail"
    [opt_get parsed "to";
     or_else (opt_get parsed "subject") (VStr "(no subject)");
     or_else (opt_get parsed "body") (VStr message)].

Definition failed (e : error) : value :=
  VStr ("Failed to send email: " ++ message e).

Definition no_recipient : string := "I need a recipient email address.".

Definition not_understood : string :=
  "I couldn't understand the email details. Try: "
  ++ quoted "Send an email to name@email.com about [subject] saying [message]".

End Email.

Module Router.
Import JS Eff Brain.

Section Table.

Variable JSON_parse : string -> outcome value.

(** An intent of the priority list: whether its pattern matches the
    message, and its handler, which returns a result or, when the skill
    it needs is absent or not ready, falls through. *)
Record entry : Type := Entry { matches : bool; handler : block }.

(** The priority list of the specification for a message, in its fixed
    order. *)
Definition table (message : string) (context : list turn) : list entry :=
  let lower := Str.toLowerCase message in
  [ {| matches := Regex.test Patterns.upscale lower;
       handler := upscale_intent |};
    {| matches := Regex.test Patterns.ultra lower
                  && Regex.test Patterns.image_noun lower;
       handler := ultra_image_intent message |};
    {| matches := Regex.test Patterns.image_verb lower
                  && Regex.test Patterns.image_noun lower;
       handler := image_intent message |};
    {| matches := Regex.test Patterns.video_verb lower
                  && Regex.test Patterns.video_noun lower;
       handler := video_intent message lower |};
    {| matches := Regex.test Patterns.weather lower;
       handler := weather_intent message lower |};
    {| matches := Regex.test Patterns.send_email lower;
       handler := send_email_intent JSON_parse message context |};
    {| matches := Regex.test Patterns.reminder lower;
       handler := reminder_intent JSON_parse message |};
    {| matches := Regex.test Patterns.create_document lower;
       handler := compose_intent "document" message context |};
    {| matches := Regex.test Patterns.draft_write lower;
       handler := compose_intent "draft" message context |};
    {| matches := Regex.test Patterns.summarize lower;
       handler := compose_intent "summarize" message context |};
    {| matches := Regex.test Patterns.calendar lower;
       handler := read_intent "calendar" message context |};
    {| matches := Regex.test Patterns.email lower;
       handler := read_intent "email" message context |};
    {| matches := Regex.test Patterns.drive lower;
       handler := read_intent "drive" message context |};
    {| matches := Regex.test Patterns.web_search lower;
       handler := web_search_intent message context |};
    {| matches := _isMultiStepRequest message;
       handler :=
         bind this (fun b =>
           when (orchestrator b) (multi_step_intent message context)) |} ].

(** The dispatch loop of the specification: the handler of the first
    entry whose pattern matches runs; the entries after it are tried
    only when that handler falls through. *)
Fixpoint dispatch (entries : list entry) (default : M value) : M value :=
  match entries with
  | [] => default
  | e :: rest =>
      if matches e then or_next (handler e) (dispatch rest default)
      else dispatch rest default
  end.

End Table.

(** The message starts with one of the four forcing prefixes. *)
Definition forced (message : string) : bool :=
  Str.startsWith message "/claude "
  || Str.startsWith message "/gemini "
  || Str.startsWith message "/agent "
  || Str.startsWith message "/plan ".

(** A call of the image skill. *)
Definition is_image_call (e : event) : bool :=
  match e with
  | Called (Invoke target _ _) _ => String.eqb target "geminiImage"
  | _ => false
  end.

(** Two methods with the same runs. *)
Definition same_runs {A : Type} (m1 m2 : M A) : Prop :=
  forall w n b, run_at w n m1 b = run_at w n m2 b.

End Router.

(** ** Concrete worlds and instances *)

Module Examples.
Import JS Eff Brain.

(** A response of the fast backend carrying one text. *)
Definition gemini_response (text : value) : value :=
  VObj [("data",
         VObj [("candidates",
                VArr [VObj [("content",
                             VObj [("parts",
                                    VArr [VObj [("text", text)]])])]])])].

(** A response of the powerful backend carrying one text. *)
Definition openai_response (text : value) : value :=
  VObj [("data",
         VObj [("choices",
                VArr [VObj [("message", VObj [("content", text)])]])])].

(** A response of the token endpoint. *)
Definition token_response (access : string) (lifetime : Z) : value :=
  VObj [("data",
         VObj [("access_token", VStr access);
               ("expires_in", VNum lifetime)])].

(** The error of a request answered with status 401. *)
Definition error_401 : error :=
  {| message := "Request failed with status code 401";
     code := VStr "ERR_BAD_REQUEST";
     response := VObj [("status", VNum 401)] |}.

Definition network_down : error :=
  {| message := "network down";
     code := VStr "ECONNREFUSED";
     response := VUndefined |}.

(** An environment with the named variables set. *)
Fixpoint env_of (vars : list (string * string)) : Config.env :=
  fun name =>
    match vars with
    | [] => None
    | (k, v) :: vars' =>
        if String.eqb k name then Some v else env_of vars' name
    end.

Definition both_tokens : Config.config :=
  Config.load (env_of [("GEMINI_API_KEY", "gk");
                       ("OPENAI_CODEX_TOKEN", "tok1");
                       ("OPENAI_CODEX_REFRESH", "ref1")]).

Definition access_only : Config.config :=
  Config.load (env_of [("GEMINI_API_KEY", "gk");
                       ("OPENAI_CODEX_TOKEN", "tok1")]).

Definition no_tokens_config : Config.config :=
  Config.load (env_of [("GEMINI_API_KEY", "gk")]).

Definition workspace_only : skillset :=
  {| geminiImage := false; geminiVideo := false; weather := false;
     googleWorkspace := true; scheduler := false;
     scheduler_bot := VUndefined; braveSearch := false;
     skills_memoryContext := VUndefined;
     skills_learnedContext := VUndefined;
     skills_userId := VUndefined |}.

Definition image_only : skillset :=
  {| geminiImage := true; geminiVideo := false; weather := false;
     googleWorkspace := false; scheduler := false;
     scheduler_bot := VUndefined; braveSearch := false;
     skills_memoryContext := VUndefined;
     skills_learnedContext := VUndefined;
     skills_userId := VUndefined |}.

Definition date : string := "11/1/2026, 9:00:00 AM".

(** A world at the time 1000000 whose token endpoint grants [lifetime]
    seconds, whose powerful backend answers [main], whose fast backend
    answers [fast] to a plain request and [chat] to the plain chat, and
    whose skills return [skill]. *)
Definition world_of (lifetime : Z) (main fast chat skill : reply)
    : world :=
  {| answer := fun _ c =>
       match c with
       | OAuthPost _ => Returns (token_response "tok2" lifetime)
       | OpenAIPost _ _ _ _ _ => main
       | GeminiPost _ _ _ => fast
       | GeminiWithRetry _ _ _ => chat
       | Invoke _ _ _ => skill
       end;
     time := fun _ => 1000000%Z |}.

End Examples.

(** ** The list of allowed users ([src/config.js]) *)

Module Settings.
Import JS.

(** [l.split(',')] on the characters of a text: the pieces between the
    separators; a text without separator is one piece. *)
Fixpoint split_chars (sep : ascii) (l : list ascii) : list (list ascii) :=
  match l with
  | [] => [[]]
  | c :: l' =>
      if Chr.eqb c sep then [] :: split_chars sep l'
      else match split_chars sep l' with
           | piece :: pieces => (c :: piece) :: pieces
           | [] => [[c]]
           end
  end.

(** [s.split(sep)] for a separator of one character. *)
Definition split (sep : ascii) (s : string) : list string :=
  map Str.of_chars (split_chars sep (Str.chars s)).

(** [process.env.NAME || fallback] *)
Definition env_or (e : Config.env) (name fallback : string) : string :=
  to_string (or_else (Config.env_value e name) (VStr fallback)).

(** [l.filter(Boolean)] on texts. *)
Definition filter_Boolean (l : list string) : list string :=
  filter (fun s => negb (Str.is_empty s)) l.

(** [(process.env.ALLOWED_USERS || '').split(',').filter(Boolean)] *)
Definition allowedUsers (e : Config.env) : list string :=
  filter_Boolean (split "," (env_or e "ALLOWED_USERS" EmptyString)).

(** A user id as [allowedUsers] can hold one: not empty and without
    comma. *)
Definition user_id (u : string) : Prop :=
  u <> EmptyString /\ ~ In ","%char (Str.chars u).

End Settings.

(** ** Further notions on runs *)

Module Shape.
Import JS Eff Brain.

(** The text of the user message of a request to the chat endpoint of
    the powerful backend. *)
Definition user_text (e : event) : option string :=
  match e with
  | Called (OpenAIPost _ _ _ user _) _ => Some user
  | _ => None
  end.

(** The marker [_callOpenAI] appends to a prompt it cut. *)
Definition truncation_marker : string :=
  nl ++ nl ++ "[Prompt truncated for length]".

(** What is asked of the chat endpoint in a run: the cut prompt, or on
    the retry its first 100000 characters. *)
Definition asks (prompt : string) (e : event) : Prop :=
  match user_text e with
  | Some user =>
      user = safePrompt prompt \/ user = substring0 100000 prompt
  | None => True
  end.

(** The call [target.method(...)] of a skill or collaborator. *)
Definition is_invoke (target method : string) (e : event) : bool :=
  match e with
  | Called (Invoke t m _) _ => String.eqb t target && String.eqb m method
  | _ => false
  end.

(** A call of the workspace skill that fetches data. *)
Definition is_fetch (e : event) : bool :=
  is_invoke "googleWorkspace" "getRecentEmails" e
  || is_invoke "googleWorkspace" "getTodayEvents" e
  || is_invoke "googleWorkspace" "searchFiles" e.

(** A call of the web search. *)
Definition is_search (e : event) : bool :=
  is_invoke "braveSearch" "search" e.

(** A request to the fast backend, plain chat or not. *)
Definition is_fast (e : event) : bool :=
  match e with
  | Called (GeminiPost _ _ _) _ | Called (GeminiWithRetry _ _ _) _ => true
  | _ => false
  end.

(** The calls [think] makes outside every [try]: the image and video
    skills, the agent loop, the planner, the orchestrator, and the
    readiness test of the workspace. *)
Definition unguarded (c : call) : bool :=
  match c with
  | Invoke target method _ =>
      String.eqb target "geminiImage"
      || String.eqb target "geminiVideo"
      || String.eqb target "agentLoop"
      || String.eqb target "planner"
      || String.eqb target "orchestrator"
      || (String.eqb target "googleWorkspace" && String.eqb method "isReady")
  | _ => false
  end.

(** The fetch of [_analyzeGoogleData] for a kind of data; there is none
    for a kind that is not one of the three. *)
Definition fetch_request (dataType message : string) : option call :=
  if Str.eqb dataType "email"
  then Some (Invoke "googleWorkspace" "getRecentEmails" [VNum 10])
  else if Str.eqb dataType "calendar"
  then Some (Invoke "googleWorkspace" "getTodayEvents" [])
  else if Str.eqb dataType "drive"
  then Some (Invoke "googleWorkspace" "searchFiles"
                    [VStr (driveSearchTerm message)])
  else None.

(** The request of [_analyzeGoogleData] to the fast backend. *)
Definition analysis_request (b : brain) (message : string)
    (context : list turn) (data : value) : call :=
  let contextStr := context_text 3 context in
  GeminiPost (gemini_key b)
    (user_body
       ("You are Omar's personal assistant. Here is real data from his Google account:"
        ++ nl ++ nl ++ to_string data ++ nl ++ nl
        ++ (if str_truthy contextStr
            then "Recent conversation:" ++ nl ++ contextStr ++ nl
            else EmptyString)
        ++ nl ++ "Omar's request: " ++ message ++ nl ++ nl
        ++ "Analyze the data above and answer his question directly. Be helpful and concise.")
       None "0.3" 4096)
    15000.

(** The answers of [_analyzeGoogleData] that are fixed texts. *)
Definition not_set_up (dataType : string) : value :=
  VStr ("Google " ++ dataType ++ " is not set up properly.").

Definition failed_to_get (dataType : string) (e : error) : value :=
  VStr ("Failed to get " ++ dataType ++ ": " ++ JS.message e).

(** The parse request of [_handleReminder]. *)
Definition reminder_request (b : brain) (message : string) : call :=
  GeminiPost (gemini_key b)
    (user_body
       ("Parse this reminder request. Return ONLY valid JSON with keys "
        ++ quoted "time" ++ " (e.g., " ++ quoted "5m" ++ ", "
        ++ quoted "1h" ++ ", " ++ quoted "30min" ++ ") and "
        ++ quoted "message" ++ " (what to remind about)."
        ++ nl ++ nl ++ "Request: " ++ quoted message ++ nl ++ nl
        ++ "JSON:")
       None "0.1" 512)
    15000.

(** The call of the scheduler with the parsed fields. *)
Definition add_reminder (b : brain) (parsed : value) : call :=
  Invoke "scheduler" "addReminder"
    [or_else (skills_userId (skills b)) (VStr EmptyString);
     opt_get parsed "time"; opt_get parsed "message";
     scheduler_bot (skills b)].

Definition unparsed_reminder : value :=
  VStr ("I couldn't parse the reminder. Try: "
        ++ quoted "Remind me in 30 minutes to check the oven").

(** The statements of [_composeWithClaude] before its prompt: the data
    gathered from the workspace. *)
Definition gather_context (message : string) : M string :=
  let lower := Str.toLowerCase message in
  bind workspace_ready (fun ready =>
    if ready then
      bind (context_fetch (Regex.test Patterns.compose_email lower)
              "getRecentEmails" [VNum 5]
              "=== RECENT EMAILS (for context) ===" EmptyString)
        (fun d1 =>
      bind (context_fetch (Regex.test Patterns.compose_calendar lower)
              "getTodayEvents" []
              "=== TODAY'S CALENDAR ===" d1)
        (fun d2 =>
      context_fetch (Regex.test Patterns.compose_drive lower)
        "listRecentFiles" [VNum 5]
        "=== RECENT DRIVE FILES ===" d2))
    else ret EmptyString).

(** No call of the run was answered with an exception. *)
Definition clean (t : list event) : Prop :=
  Forall (fun e => match e with
                   | Called _ (Throws _) => False
                   | _ => True
                   end) t.

(** What a step of the prefetch did, run from an instance [b] with the
    [sections] gathered so far: it left the instance alone and made no
    web search; when it returned, no call had thrown, and either nothing
    was fetched and the sections are as before, or one fetch was made
    and there is a section; when it threw, the call that threw is the
    last effect and the only one that threw. *)
Definition step_facts (sections : list string) (b : brain)
    (r : (outcome (list string) * brain) * list event) : Prop :=
  snd (fst r) = b
  /\ length (filter is_search (snd r)) = 0
  /\ match fst (fst r) with
     | Val sections' =>
         clean (snd r)
         /\ ((sections' = sections
              /\ length (filter is_fetch (snd r)) = 0)
             \/ (sections' <> []
                 /\ length (filter is_fetch (snd r)) = 1))
     | Exn e =>
         exists pre c,
           snd r = (pre ++ [Called c (Throws e)])%list /\ clean pre
           /\ length (filter is_fetch (snd r)) <= 1
     end.

(** A text split at its last closing brace: what precedes that brace
    and what follows it. *)
Fixpoint last_brace (l : list ascii) : option (list ascii * list ascii) :=
  match l with
  | [] => None
  | x :: xs =>
      match last_brace xs with
      | Some (mid, post) => Some (x :: mid, post)
      | None => if Chr.eqb "}" x then Some ([], xs) else None
      end
  end.

(** Whatever [m] throws was thrown by a call satisfying [p], the last
    effect of the run. *)
Definition raises_only {A : Type} (p : call -> bool) (m : M A) : Prop :=
  forall w n b e b1 t,
    run_at w n m b = ((Exn e, b1), t) ->
    exists pre c, t = (pre ++ [Called c (Throws e)])%list /\ p c = true.

(** The calls whose result [think] hands on as its answer without
    looking at it: the agent loop, the weather skill and the
    scheduler. *)
Definition passes_through (c : call) : bool :=
  match c with
  | Invoke target _ _ =>
      String.eqb target "agentLoop"
      || String.eqb target "weather"
      || String.eqb target "scheduler"
  | _ => false
  end.

(** The answer a result stands for: the value a method returns, or the
    value a block of [think] returns when it does not fall through. *)
Definition answer_of_value (v : value) : option value := Some v.
Definition answer_of_block (o : option value) : option value := o.

(** Every answer of [m] counts as true. *)
Definition answers {A : Type} (answer_of : A -> option value) (m : M A)
    : Prop :=
  forall w n b a b1 t v,
    run_at w n m b = ((Val a, b1), t) ->
    answer_of a = Some v -> truthy v = true.

(** An answer of [m] that counts as false is the result of a call that
    is passed through, the last effect of the run. *)
Definition empty_only {A : Type} (answer_of : A -> option value) (m : M A)
    : Prop :=
  forall w n b a b1 t v,
    run_at w n m b = ((Val a, b1), t) ->
    answer_of a = Some v -> truthy v = false ->
    exists pre c,
      t = (pre ++ [Called c (Returns v)])%list /\ passes_through c = true.

End Shape.

(** ** More concrete worlds *)

Module Samples.
Import JS Eff Brain.

(** A world in which every request and every call fails. *)
Definition offline : world :=
  {| answer := fun _ _ => Throws Examples.network_down;
     time := fun _ => 1000000%Z |}.

(** The error of a request that ran into its timeout. *)
Definition timed_out : error :=
  {| message := "timeout of 60000ms exceeded";
     code := VStr "ECONNABORTED";
     response := VUndefined |}.

(** A response of the token endpoint that rotates the refresh token
    and names no lifetime. *)
Definition rotating_response : value :=
  VObj [("data",
         VObj [("access_token", VStr "tok2");
               ("refresh_token", VStr "ref2")])].

(** A text of 131072 characters. *)
Definition long_text : string :=
  Str.of_chars (repeat "x"%char (Z.to_nat 131072)).

(** A world at the time 1000000 that answers the [n]-th effect of a run
    by the [n]-th reply of a script, and fails when the script is
    over. *)
Definition scripted (script : list reply) : world :=
  {| answer := fun n _ => nth n script (Throws Examples.network_down);
     time := fun _ => 1000000%Z |}.

End Samples.

(** ** Facts about runs *)

Import JS Eff Brain Trace.
Local Open Scope brain_scope.

Lemma interp_pbind {A B : Type} (w : world) (p : prog A) (f : A -> prog B) :
  forall n,
    interp w n (pbind p f) =
    let (a, t1) := interp w n p in
    let (b, t2) := interp w (length t1 + n) (f a) in
    (b, (t1 ++ t2)%list).
Proof.
  induction p as [a | c k IH | k IH]; intros n; cbn.
  - destruct (interp w n (f a)); reflexivity.
  - rewrite IH. destruct (interp w (S n) (k (answer w n c))) as [a t1].
    cbn. rewrite Nat.add_succ_r.
    destruct (interp w (S (length t1 + n)) (f a)); reflexivity.
  - rewrite IH. destruct (interp w (S n) (k (time w n))) as [a t1].
    cbn. rewrite Nat.add_succ_r.
    destruct (interp w (S (length t1 + n)) (f a)); reflexivity.
Qed.

Arguments run_at : simpl never.
Arguments to_string : simpl never.
Arguments get : simpl never.
Arguments opt_get : simpl never.

Lemma run_at_ret {A : Type} w n (a : A) b :
  run_at w n (ret a) b = ((Val a, b), []).
Proof. reflexivity. Qed.

Lemma run_at_throw {A : Type} w n e b :
  run_at w n (@throw A e) b = ((Exn e, b), []).
Proof. reflexivity. Qed.

Lemma run_at_this w n b : run_at w n this b = ((Val b, b), []).
Proof. reflexivity. Qed.

Lemma run_at_update w n f b : run_at w n (update f) b = ((Val tt, f b), []).
Proof. reflexivity. Qed.

Lemma run_at_eval {A : Type} w n (o : outcome A) b :
  run_at w n (eval o) b = ((o, b), []).
Proof. destruct o; reflexivity. Qed.

Lemma run_at_perform w n c b :
  run_at w n (perform c) b =
  ((match answer w n c with Returns v => Val v | Throws e => Exn e end, b),
   [Called c (answer w n c)]).
Proof.
  unfold run_at, perform; cbn. destruct (answer w n c); reflexivity.
Qed.

Lemma run_at_date_now w n b :
  run_at w n date_now b = ((Val (time w n), b), [Clock (time w n)]).
Proof. reflexivity. Qed.

Lemma run_at_bind {A B : Type} w n (m : M A) (f : A -> M B) b :
  run_at w n (bind m f) b =
  match run_at w n m b with
  | ((Val a, b1), t1) =>
      let (r, t2) := run_at w (length t1 + n) (f a) b1 in (r, (t1 ++ t2)%list)
  | ((Exn e, b1), t1) => ((Exn e, b1), t1)
  end.
Proof.
  unfold run_at, bind. rewrite interp_pbind.
  destruct (interp w n (m b)) as [[[a | e] b1] t1]; cbn.
  - reflexivity.
  - rewrite app_nil_r. reflexivity.
Qed.

Lemma run_at_try_catch {A : Type} w n (m : M A) (h : error -> M A) b :
  run_at w n (try_catch m h) b =
  match run_at w n m b with
  | ((Val a, b1), t1) => ((Val a, b1), t1)
  | ((Exn e, b1), t1) =>
      let (r, t2) := run_at w (length t1 + n) (h e) b1 in (r, (t1 ++ t2)%list)
  end.
Proof.
  unfold run_at, try_catch. rewrite interp_pbind.
  destruct (interp w n (m b)) as [[[a | e] b1] t1]; cbn.
  - rewrite app_nil_r. reflexivity.
  - reflexivity.
Qed.

Lemma run_at_or_next w n (blk : block) (rest : M value) b :
  run_at w n (blk ;;; rest) b =
  match run_at w n blk b with
  | ((Val (Some v), b1), t1) => ((Val v, b1), t1)
  | ((Val None, b1), t1) =>
      let (r, t2) := run_at w (length t1 + n) rest b1 in (r, (t1 ++ t2)%list)
  | ((Exn e, b1), t1) => ((Exn e, b1), t1)
  end.
Proof.
  unfold or_next. rewrite run_at_bind.
  destruct (run_at w n blk b) as [[[[v |] | e] b1] t1]; try reflexivity.
  rewrite run_at_ret, app_nil_r. reflexivity.
Qed.


(** One step of a run, and the steps as far as they go. *)
Ltac run_step :=
  first [ rewrite run_at_bind | rewrite run_at_try_catch
        | rewrite run_at_or_next
        | rewrite run_at_this | rewrite run_at_ret | rewrite run_at_throw
        | rewrite run_at_perform | rewrite run_at_date_now
        | rewrite run_at_update | rewrite run_at_eval ];
  cbn [length Nat.add app].

Ltac run_steps := repeat run_step.


(** ** Runs of the token layer and of the powerful backend *)

Import Token.

Lemma get_not_nullish v k : nullish v = false -> get v k = Val (opt_get v k).
Proof.
  unfold opt_get, get. destruct v; cbn; intros; try discriminate; reflexivity.
Qed.

Lemma get_nullish v k : nullish v = true -> exists e, get v k = Exn e.
Proof.
  unfold get. destruct v; cbn; intros; try discriminate; eauto.
Qed.

Lemma refresh_run_absent w n b :
  truthy (_openaiRefreshToken b) = false ->
  run_at w n _refreshAccessToken b = ((Exn no_refresh_token, b), []).
Proof.
  intros Hr. unfold _refreshAccessToken. run_steps. rewrite Hr.
  cbn [negb]. run_steps. reflexivity.
Qed.

Lemma refresh_run_ok w n b data :
  truthy (_openaiRefreshToken b) = true ->
  token_data (answer w n (refresh_request b)) = Some data ->
  run_at w n _refreshAccessToken b =
  ((Val tt, refreshed b data (time w (S n))),
   [Called (refresh_request b) (answer w n (refresh_request b));
    Clock (time w (S n))]).
Proof.
  unfold refresh_request, token_data. intros Hr Hd. unfold _refreshAccessToken.
  run_steps. rewrite Hr. cbn [negb]. run_steps.
  destruct (answer w n (OAuthPost (_openaiRefreshToken b))) as [response | e];
    [| discriminate].
  destruct (get response "data") as [d | e] eqn:Ed; [| discriminate].
  destruct (nullish d) eqn:En; [discriminate |]. injection Hd as ->.
  run_steps. rewrite ?Ed. run_steps.
  rewrite !(get_not_nullish data) by assumption. run_steps.
  unfold refreshed.
  destruct (truthy (opt_get data "refresh_token")); run_steps; reflexivity.
Qed.

Lemma refresh_run_failed w n b :
  truthy (_openaiRefreshToken b) = true ->
  token_data (answer w n (refresh_request b)) = None ->
  exists msg,
    run_at w n _refreshAccessToken b =
    ((Exn (new_Error msg), b),
     [Called (refresh_request b) (answer w n (refresh_request b))]).
Proof.
  unfold refresh_request, token_data. intros Hr Hd. unfold _refreshAccessToken.
  run_steps. rewrite Hr. cbn [negb]. run_steps.
  destruct (answer w n (OAuthPost (_openaiRefreshToken b))) as [response | e].
  - run_steps.
    destruct (get response "data") as [d | e] eqn:Ed.
    + destruct (nullish d) eqn:En; [| discriminate].
      destruct (get_nullish d "access_token" En) as [e He].
      run_steps. rewrite ?He. run_steps. eauto.
    + run_steps. eauto.
  - run_steps. eauto.
Qed.

Lemma getValidToken_no_credentials w n b :
  truthy (_openaiAccessToken b) = false ->
  truthy (_openaiRefreshToken b) = false ->
  run_at w n _getValidToken b = ((Exn no_credentials, b), []).
Proof.
  intros Ha Hr. unfold _getValidToken. run_steps. rewrite Ha, Hr.
  cbn [negb andb]. run_steps. reflexivity.
Qed.

Lemma getValidToken_valid w n b :
  truthy (_openaiAccessToken b) = true ->
  expired (time w n) (_tokenExpiresAt b) = false ->
  run_at w n _getValidToken b =
  ((Val (_openaiAccessToken b), b), [Clock (time w n)]).
Proof.
  intros Ha He. unfold _getValidToken. run_steps. rewrite Ha.
  cbn [negb andb]. run_steps. rewrite He. run_steps. reflexivity.
Qed.

(** With a refresh due, [_getValidToken] is the validity check followed
    by [_refreshAccessToken]. *)
Lemma getValidToken_refreshing w n b :
  truthy (_openaiAccessToken b) || truthy (_openaiRefreshToken b) = true ->
  negb (truthy (_openaiAccessToken b))
  || expired (time w n) (_tokenExpiresAt b) = true ->
  run_at w n _getValidToken b =
  match run_at w (length (check_trace w n b) + n) _refreshAccessToken b with
  | ((Val _, b1), t) =>
      ((Val (_openaiAccessToken b1), b1), (check_trace w n b ++ t)%list)
  | ((Exn e, b1), t) => ((Exn e, b1), (check_trace w n b ++ t)%list)
  end.
Proof.
  intros Hc Hn. unfold _getValidToken, check_trace. run_steps.
  destruct (truthy (_openaiAccessToken b)) eqn:Ha; cbn [negb andb orb] in *.
  - run_steps. rewrite Hn. cbn [length Nat.add].
    destruct (run_at w (S n) _refreshAccessToken b) as [[[u | e] b1] t];
      run_steps; rewrite ?app_nil_r; reflexivity.
  - rewrite Hc. cbn [negb]. run_steps. cbn [length Nat.add].
    destruct (run_at w n _refreshAccessToken b) as [[[u | e] b1] t];
      run_steps; rewrite ?app_nil_r; reflexivity.
Qed.

(** The errors of the token layer carry no HTTP status and no code. *)
Lemma refresh_exn_plain w n b e b1 t :
  run_at w n _refreshAccessToken b = ((Exn e, b1), t) ->
  exists msg, e = new_Error msg.
Proof.
  intros H.
  destruct (truthy (_openaiRefreshToken b)) eqn:Hr.
  - destruct (token_data (answer w n (refresh_request b))) as [data |] eqn:Hd.
    + rewrite (refresh_run_ok w n b data Hr Hd) in H. discriminate.
    + destruct (refresh_run_failed w n b Hr Hd) as [msg Hm].
      rewrite Hm in H. injection H as <- _ _. eauto.
  - rewrite (refresh_run_absent w n b Hr) in H. injection H as <- _ _.
    unfold no_refresh_token. eauto.
Qed.

Lemma getValidToken_exn_plain w n b e b1 t :
  run_at w n _getValidToken b = ((Exn e, b1), t) ->
  exists msg, e = new_Error msg.
Proof.
  intros H.
  destruct (truthy (_openaiAccessToken b)) eqn:Ha.
  - destruct (expired (time w n) (_tokenExpiresAt b)) eqn:He.
    + rewrite getValidToken_refreshing in H
        by (rewrite Ha, ?He; reflexivity).
      destruct (run_at w (length (check_trace w n b) + n) _refreshAccessToken b)
        as [[[u | e'] b'] t'] eqn:Hq; [discriminate |].
      injection H as <- _ _. eapply refresh_exn_plain; eauto.
    + rewrite getValidToken_valid in H by assumption. discriminate.
  - destruct (truthy (_openaiRefreshToken b)) eqn:Hr.
    + rewrite getValidToken_refreshing in H
        by (rewrite Ha, ?Hr; reflexivity).
      destruct (run_at w (length (check_trace w n b) + n) _refreshAccessToken b)
        as [[[u | e'] b'] t'] eqn:Hq; [discriminate |].
      injection H as <- _ _. eapply refresh_exn_plain; eauto.
    + rewrite getValidToken_no_credentials in H by assumption.
      injection H as <- _ _. unfold no_credentials. eauto.
Qed.

Lemma status_plain msg : is_num (status (new_Error msg)) 401 = false.
Proof. reflexivity. Qed.

Lemma rethrown_plain msg : rethrown (new_Error msg) = new_Error msg.
Proof. reflexivity. Qed.

Lemma get_exn_plain v k e : get v k = Exn e -> exists msg, e = new_Error msg.
Proof.
  unfold get. destruct v; intros H; try discriminate;
    injection H as <-; unfold type_error; eauto.
Qed.

Lemma openai_text_exn_plain response e :
  openai_text response = Exn e -> exists msg, e = new_Error msg.
Proof.
  unfold openai_text.
  destruct (get response "data") as [data | e1] eqn:E1.
  - destruct (get data "choices") as [choices | e2] eqn:E2; [discriminate |].
    intros H. injection H as <-. eapply get_exn_plain; eauto.
  - intros H. injection H as <-. eapply get_exn_plain; eauto.
Qed.

(** [_callOpenAI] when the token layer throws. *)
Lemma callOpenAI_token_error w n b prompt e b1 t1 :
  run_at w n _getValidToken b = ((Exn e, b1), t1) ->
  run_at w n (_callOpenAI prompt) b = ((Exn e, b1), t1).
Proof.
  intros H. destruct (getValidToken_exn_plain _ _ _ _ _ _ H) as [msg ->].
  unfold _callOpenAI. run_steps. rewrite H. run_steps.
  change (opt_get (JS.response (new_Error msg)) "status")
    with (status (new_Error msg)).
  rewrite status_plain. cbn [code new_Error is_str]. run_steps.
  rewrite app_nil_r. reflexivity.
Qed.

(** [_callOpenAI] when the token layer yields a token: the main call
    and, after a 401, the refresh and the retry. *)
Lemma callOpenAI_main w n b prompt token b1 t1 :
  run_at w n _getValidToken b = ((Val token, b1), t1) ->
  let c := chat_request b1 token (safePrompt prompt) in
  let r := answer w (length t1 + n) c in
  run_at w n (_callOpenAI prompt) b =
  match r with
  | Returns response =>
      ((match openai_text response with
        | Val text => Val (or_else text VNull)
        | Exn e => Exn e
        end, b1), (t1 ++ [Called c r])%list)
  | Throws e =>
      if is_num (status e) 401 then
        let (ob, t2) :=
          run_at w (S (length t1 + n)) (refresh_and_retry prompt) b1 in
        (ob, (t1 ++ Called c r :: t2)%list)
      else ((Exn (rethrown e), b1), (t1 ++ [Called c r])%list)
  end.
Proof.
  intros H c r. unfold _callOpenAI, openai_post. run_steps. rewrite H.
  run_steps. fold c. fold r.
  destruct r as [response | e] eqn:Er.
  - run_steps.
    destruct (openai_text response) as [text | e] eqn:Et.
    + run_steps. unfold or_else.
      destruct (truthy text); run_steps; rewrite ?app_nil_r; reflexivity.
    + destruct (openai_text_exn_plain _ _ Et) as [msg ->].
      run_steps.
      change (opt_get (JS.response (new_Error msg)) "status")
        with (status (new_Error msg)).
      rewrite status_plain. cbn [code new_Error is_str]. run_steps.
      rewrite ?app_nil_r. reflexivity.
  - run_steps. fold (status e).
    destruct (is_num (status e) 401) eqn:Es.
    + run_steps.
      rewrite length_app. cbn [length]. rewrite Nat.add_1_r.
      cbn [Nat.add].
      destruct (run_at w (S (length t1 + n)) (refresh_and_retry prompt) b1)
        as [[[v | e2] b2] t2]; run_steps;
        rewrite <- ?app_assoc, ?app_nil_r; reflexivity.
    + unfold rethrown.
      destruct (is_str (code e) "ECONNABORTED"); run_steps;
        rewrite ?app_nil_r; reflexivity.
Qed.

(** The reactive refresh and the retry. *)
Lemma refresh_and_retry_run w n b prompt :
  run_at w n (refresh_and_retry prompt) b =
  match run_at w n _refreshAccessToken b with
  | ((Exn e, b1), t1) => ((Exn e, b1), t1)
  | ((Val _, b1), t1) =>
      let c := chat_request b1 (_openaiAccessToken b1)
                            (substring0 100000 prompt) in
      let r := answer w (length t1 + n) c in
      ((match r with
        | Returns response =>
            match openai_text response with
            | Val text => Val (or_else text VNull)
            | Exn e => Exn e
            end
        | Throws e => Exn e
        end, b1), (t1 ++ [Called c r])%list)
  end.
Proof.
  unfold refresh_and_retry, openai_post. run_steps.
  destruct (run_at w n _refreshAccessToken b) as [[[u | e] b1] t1];
    [| reflexivity].
  run_steps.
  destruct (answer w (length t1 + n)
              (chat_request b1 (_openaiAccessToken b1)
                            (substring0 100000 prompt)))
    as [response | e]; run_steps.
  - destruct (openai_text response) as [text | e]; run_steps;
      rewrite ?app_nil_r; reflexivity.
  - rewrite ?app_nil_r. reflexivity.
Qed.


Lemma getValidToken_no_credentials_call w n b prompt :
  truthy (_openaiAccessToken b) = false ->
  truthy (_openaiRefreshToken b) = false ->
  run_at w n (_callOpenAI prompt) b = ((Exn no_credentials, b), []).
Proof.
  intros Ha Hr. apply callOpenAI_token_error.
  apply getValidToken_no_credentials; assumption.
Qed.

(** Every run of [_getValidToken] is one of the five. *)
Lemma getValidToken_run w n b : token_run w n b (run_at w n _getValidToken b).
Proof.
  destruct (truthy (_openaiAccessToken b)) eqn:Ha.
  - destruct (expired (time w n) (_tokenExpiresAt b)) eqn:He.
    + rewrite getValidToken_refreshing by (rewrite Ha, ?He; reflexivity).
      destruct (truthy (_openaiRefreshToken b)) eqn:Hr.
      * destruct (token_data (answer w (length (check_trace w n b) + n)
                                     (refresh_request b))) as [data |] eqn:Hd.
        -- rewrite (refresh_run_ok _ _ _ data Hr Hd).
           apply refresh_succeeds; try assumption.
           rewrite Ha, He. reflexivity.
        -- destruct (refresh_run_failed _ _ _ Hr Hd) as [msg ->].
           apply refresh_fails; try assumption.
           rewrite Ha, He. reflexivity.
      * rewrite refresh_run_absent by assumption.
        unfold check_trace. rewrite Ha. cbn [app].
        apply cannot_refresh; assumption.
    + rewrite getValidToken_valid by assumption.
      apply still_valid; assumption.
  - destruct (truthy (_openaiRefreshToken b)) eqn:Hr.
    + rewrite getValidToken_refreshing by (rewrite Ha, ?Hr; reflexivity).
      destruct (token_data (answer w (length (check_trace w n b) + n)
                                   (refresh_request b))) as [data |] eqn:Hd.
      * rewrite (refresh_run_ok _ _ _ data Hr Hd).
        apply refresh_succeeds; try assumption.
        rewrite Ha. reflexivity.
      * destruct (refresh_run_failed _ _ _ Hr Hd) as [msg ->].
        apply refresh_fails; try assumption.
        rewrite Ha. reflexivity.
    + rewrite getValidToken_no_credentials by assumption.
      apply no_tokens; assumption.
Qed.

(** *** The first main call of a trace *)

Lemma before_main_none tr :
  Forall (fun e => is_main e = false) tr ->
  before_main tr = tr /\ from_main tr = [].
Proof.
  induction 1 as [| e tr He _ [IH1 IH2]]; [auto |].
  cbn. rewrite He, IH1, IH2. auto.
Qed.

Lemma before_main_app t1 x rest :
  Forall (fun e => is_main e = false) t1 ->
  is_main x = true ->
  before_main (t1 ++ x :: rest) = t1 /\ from_main (t1 ++ x :: rest) = x :: rest.
Proof.
  intros H Hx. induction H as [| e tr He _ [IH1 IH2]]; cbn.
  - rewrite Hx. auto.
  - rewrite He, IH1, IH2. auto.
Qed.

Lemma check_trace_no_main w n b :
  Forall (fun e => is_main e = false) (check_trace w n b).
Proof.
  unfold check_trace. destruct (truthy (_openaiAccessToken b));
    repeat constructor.
Qed.

Lemma check_trace_no_refresh w n b : count is_refresh (check_trace w n b) = 0.
Proof.
  unfold check_trace. destruct (truthy (_openaiAccessToken b)); reflexivity.
Qed.

Lemma count_app p t1 t2 : count p (t1 ++ t2) = count p t1 + count p t2.
Proof. unfold count. rewrite filter_app, length_app. reflexivity. Qed.

Lemma token_run_no_main w n b r :
  token_run w n b r -> Forall (fun e => is_main e = false) (snd r).
Proof.
  intros H. destruct H; cbn [snd]; try (repeat constructor; fail).
  - apply Forall_app. split; [apply check_trace_no_main |].
    repeat constructor.
  - apply Forall_app. split; [apply check_trace_no_main |].
    repeat constructor.
Qed.

Lemma chat_request_is_main b token user r :
  is_main (Called (chat_request b token user) r) = true.
Proof. reflexivity. Qed.

(** The trace of [_callOpenAI]: the token layer, then the main call and
    what follows it. *)
Lemma callOpenAI_trace w b prompt :
  match run_at w 0 _getValidToken b with
  | ((Exn e, b1), t1) =>
      run_at w 0 (_callOpenAI prompt) b = ((Exn e, b1), t1)
      /\ before_main t1 = t1 /\ from_main t1 = []
  | ((Val token, b1), t1) =>
      let c := chat_request b1 token (safePrompt prompt) in
      exists rest,
        snd (run_at w 0 (_callOpenAI prompt) b)
          = (t1 ++ Called c (answer w (length t1 + 0) c) :: rest)%list
        /\ before_main (t1 ++ Called c (answer w (length t1 + 0) c) :: rest)
           = t1
        /\ from_main (t1 ++ Called c (answer w (length t1 + 0) c) :: rest)
           = Called c (answer w (length t1 + 0) c) :: rest
  end.
Proof.
  pose proof (token_run_no_main _ _ _ _ (getValidToken_run w 0 b)) as Hn.
  destruct (run_at w 0 _getValidToken b) as [[[token | e] b1] t1] eqn:Hg;
    cbn [snd] in Hn.
  - intros c.
    assert (forall rest,
      before_main (t1 ++ Called c (answer w (length t1 + 0) c) :: rest) = t1
      /\ from_main (t1 ++ Called c (answer w (length t1 + 0) c) :: rest)
         = Called c (answer w (length t1 + 0) c) :: rest) as Hsplit
      by (intros rest; apply before_main_app; [assumption | reflexivity]).
    rewrite (callOpenAI_main w 0 b prompt token b1 t1 Hg). fold c.
    destruct (answer w (length t1 + 0) c) as [response | e] eqn:Er.
    + exists []. split; [reflexivity | apply Hsplit].
    + destruct (is_num (status e) 401).
      * destruct (run_at w (S (length t1 + 0)) (refresh_and_retry prompt) b1)
          as [ob t2].
        exists t2. split; [reflexivity | apply Hsplit].
      * exists []. split; [reflexivity | apply Hsplit].
  - split; [apply callOpenAI_token_error; assumption |].
    apply before_main_none. assumption.
Qed.


Lemma callOpenAI_cannot_refresh w b prompt :
  truthy (_openaiAccessToken b) = true ->
  expired (time w 0) (_tokenExpiresAt b) = true ->
  truthy (_openaiRefreshToken b) = false ->
  run_at w 0 (_callOpenAI prompt) b
    = ((Exn no_refresh_token, b), [Clock (time w 0)]).
Proof.
  intros Ha He Hr. apply callOpenAI_token_error.
  pose proof (getValidToken_run w 0 b) as H.
  inversion H; subst; congruence.
Qed.


(** ** Methods that leave the instance and the powerful backend alone *)

Import Quiet.

Lemma quiet_ret {A : Type} (a : A) : quiet (ret a).
Proof. intros w n b. rewrite run_at_ret. cbn. auto. Qed.

Lemma quiet_throw {A : Type} e : quiet (@throw A e).
Proof. intros w n b. rewrite run_at_throw. cbn. auto. Qed.

Lemma quiet_this : quiet this.
Proof. intros w n b. rewrite run_at_this. cbn. auto. Qed.

Lemma quiet_eval {A : Type} (o : outcome A) : quiet (eval o).
Proof. intros w n b. rewrite run_at_eval. cbn. auto. Qed.

Lemma quiet_perform c : powerful_call c = false -> quiet (perform c).
Proof.
  intros Hc w n b. rewrite run_at_perform. cbn. split; [reflexivity |].
  constructor; [| constructor].
  destruct c; try discriminate; reflexivity.
Qed.

Lemma quiet_date_now : quiet date_now.
Proof.
  intros w n b. rewrite run_at_date_now. cbn. split; [reflexivity |].
  constructor; [reflexivity | constructor].
Qed.

Lemma quiet_bind {A B : Type} (m : M A) (f : A -> M B) :
  quiet m -> (forall a, quiet (f a)) -> quiet (bind m f).
Proof.
  intros Hm Hf w n b. rewrite run_at_bind.
  destruct (Hm w n b) as [Hb Ht].
  destruct (run_at w n m b) as [[[a | e] b1] t1]; cbn in Hb, Ht; subst b1.
  - destruct (Hf a w (length t1 + n) b) as [Hb' Ht'].
    destruct (run_at w (length t1 + n) (f a) b) as [[o b2] t2];
      cbn in Hb', Ht' |- *.
    split; [assumption | apply Forall_app; auto].
  - cbn. auto.
Qed.

Lemma quiet_try_catch {A : Type} (m : M A) (h : error -> M A) :
  quiet m -> (forall e, quiet (h e)) -> quiet (try_catch m h).
Proof.
  intros Hm Hh w n b. rewrite run_at_try_catch.
  destruct (Hm w n b) as [Hb Ht].
  destruct (run_at w n m b) as [[[a | e] b1] t1]; cbn in Hb, Ht; subst b1.
  - cbn. auto.
  - destruct (Hh e w (length t1 + n) b) as [Hb' Ht'].
    destruct (run_at w (length t1 + n) (h e) b) as [[o b2] t2];
      cbn in Hb', Ht' |- *.
    split; [assumption | apply Forall_app; auto].
Qed.

Lemma quiet_if {A : Type} (c : bool) (m1 m2 : M A) :
  quiet m1 -> quiet m2 -> quiet (if c then m1 else m2).
Proof. destruct c; auto. Qed.

Lemma total_ret {A : Type} (a : A) : total (ret a).
Proof. intros w n b. rewrite run_at_ret. cbn. eauto. Qed.

Lemma total_bind {A B : Type} (m : M A) (f : A -> M B) :
  total m -> (forall a, total (f a)) -> total (bind m f).
Proof.
  intros Hm Hf w n b. rewrite run_at_bind.
  destruct (Hm w n b) as [a Ha].
  destruct (run_at w n m b) as [[o b1] t1]; cbn in Ha; subst o.
  destruct (Hf a w (length t1 + n) b1) as [x Hx].
  destruct (run_at w (length t1 + n) (f a) b1) as [[o b2] t2];
    cbn in Hx |- *. eauto.
Qed.

Lemma total_try_catch {A : Type} (m : M A) (h : error -> M A) :
  (forall e, total (h e)) -> total (try_catch m h).
Proof.
  intros Hh w n b. rewrite run_at_try_catch.
  destruct (run_at w n m b) as [[[a | e] b1] t1]; cbn; eauto.
  destruct (Hh e w (length t1 + n) b1) as [x Hx].
  destruct (run_at w (length t1 + n) (h e) b1) as [[o b2] t2];
    cbn in Hx |- *. eauto.
Qed.

Lemma total_if {A : Type} (c : bool) (m1 m2 : M A) :
  total m1 -> total m2 -> total (if c then m1 else m2).
Proof. destruct c; auto. Qed.

Create HintDb quiet discriminated.
#[local] Hint Resolve quiet_ret quiet_throw quiet_this quiet_eval
  quiet_date_now quiet_bind quiet_try_catch quiet_if : quiet.
#[local] Hint Extern 1 (quiet (perform _)) =>
  apply quiet_perform; reflexivity : quiet.
#[local] Hint Resolve total_ret total_bind total_try_catch total_if : quiet.

Ltac quiet_auto := repeat (intros; auto with quiet).

Lemma quiet_workspace_ready : quiet workspace_ready.
Proof.
  unfold workspace_ready. apply quiet_bind; [auto with quiet |].
  intros b. apply quiet_if; auto 6 with quiet.
Qed.

Lemma quiet_workspace method args : quiet (workspace method args).
Proof.
  unfold workspace. apply quiet_bind; [auto with quiet |].
  intros b. apply quiet_if; auto with quiet.
Qed.

#[local] Hint Resolve quiet_workspace_ready quiet_workspace : quiet.

Lemma quiet_prefetch_emails lower sections :
  quiet (prefetch_emails lower sections).
Proof. unfold prefetch_emails. auto 8 with quiet. Qed.

Lemma quiet_prefetch_events lower sections :
  quiet (prefetch_events lower sections).
Proof. unfold prefetch_events. auto 8 with quiet. Qed.

Lemma quiet_prefetch_files message lower sections :
  quiet (prefetch_files message lower sections).
Proof. unfold prefetch_files. auto 10 with quiet. Qed.

Lemma quiet_prefetch_web message lower sections :
  quiet (prefetch_web message lower sections).
Proof. unfold prefetch_web. auto 10 with quiet. Qed.

(** The guarded steps of a [try] body neither throw nor, when each step
    is quiet, touch the instance. *)
Lemma try_steps_run steps :
  Forall (fun step => forall sections, quiet (step sections)) steps ->
  forall sections w n b,
    exists sections' t,
      run_at w n (try_steps steps sections) b = ((Val sections', b), t)
      /\ Forall (fun e => is_powerful e = false) t.
Proof.
  induction 1 as [| step steps Hq _ IH]; intros sections w n b.
  - exists sections, []. split; [reflexivity | constructor].
  - unfold run_at. cbn [try_steps]. rewrite interp_pbind.
    destruct (Hq sections w n b) as [Hb Ht]. unfold run_at in Hb, Ht.
    destruct (interp w n (step sections b)) as [[[s1 | e] b1] t1];
      cbn in Hb, Ht; subst b1.
    + destruct (IH s1 w (length t1 + n) b) as (s2 & t2 & Hr & Hp).
      unfold run_at in Hr. rewrite Hr.
      exists s2, (t1 ++ t2)%list. split; [reflexivity |].
      apply Forall_app; auto.
    + cbn. exists sections, t1. rewrite app_nil_r. auto.
Qed.

Lemma prefetchData_run message w n b :
  exists data t,
    run_at w n (prefetchData message) b = ((Val data, b), t)
    /\ Forall (fun e => is_powerful e = false) t.
Proof.
  unfold prefetchData. rewrite run_at_bind.
  match goal with
  | |- context [run_at w n (try_steps ?steps ?s) b] =>
      destruct (try_steps_run steps) with (sections := s) (w := w) (n := n)
        (b := b) as (s' & t & Hr & Hp)
  end.
  - repeat apply Forall_cons; try apply Forall_nil; intros sections;
      [ apply quiet_prefetch_emails | apply quiet_prefetch_events
      | apply quiet_prefetch_files | apply quiet_prefetch_web ].
  - rewrite Hr. run_steps. rewrite app_nil_r. eauto.
Qed.

Lemma quiet_thinkWithGemini message context :
  quiet (thinkWithGemini message context).
Proof.
  unfold thinkWithGemini. apply quiet_bind; [auto with quiet |].
  intros b. apply quiet_if; auto 12 with quiet.
Qed.

Lemma total_thinkWithGemini message context :
  total (thinkWithGemini message context).
Proof.
  unfold thinkWithGemini. intros w n b. rewrite run_at_bind, run_at_this.
  cbn [length Nat.add app].
  destruct (negb (truthy (geminiApiKey b))).
  - rewrite run_at_ret. cbn. eauto.
  - match goal with
    | |- context [run_at w n (try_catch ?m ?h) b] =>
        destruct (total_try_catch m h) with (w := w) (n := n) (b := b)
          as [a Ha]; [intros e; apply total_ret |]
    end.
    destruct (run_at w n _ b) as [[o b1] t1]. cbn in Ha |- *. eauto.
Qed.

Lemma quiet_fallbackToGemini message context data :
  quiet (_fallbackToGemini message context data).
Proof.
  unfold _fallbackToGemini. apply quiet_if.
  - auto 12 with quiet.
  - apply quiet_thinkWithGemini.
Qed.

Lemma total_fallbackToGemini message context data :
  total (_fallbackToGemini message context data).
Proof.
  unfold _fallbackToGemini. apply total_if.
  - apply total_try_catch. intros e. apply total_ret.
  - apply total_thinkWithGemini.
Qed.


(** ** Runs of [thinkWithClaude] and of the fallback *)

Import Fallback.

Lemma run_at_try_assigning {A B : Type} w n (initial : A) (first : M A)
    (body : A -> M B) (handler : A -> error -> M B) b :
  run_at w n (try_assigning initial first body handler) b =
  match run_at w n first b with
  | ((Val a, b1), t1) =>
      let (r, t2) :=
        run_at w (length t1 + n) (try_catch (body a) (handler a)) b1 in
      (r, (t1 ++ t2)%list)
  | ((Exn e, b1), t1) =>
      let (r, t2) := run_at w (length t1 + n) (handler initial e) b1 in
      (r, (t1 ++ t2)%list)
  end.
Proof.
  unfold run_at, try_assigning. rewrite interp_pbind.
  destruct (interp w n (first b)) as [[[a | e] b1] t1]; reflexivity.
Qed.

(** [thinkWithClaude] is the prefetch, the powerful backend and, when
    that one did not succeed, the fallback. *)
Lemma thinkWithClaude_run w n b message context :
  exists data t1,
    run_at w n (prefetchData message) b = ((Val data, b), t1)
    /\ Forall (fun e => is_powerful e = false) t1
    /\ run_at w n (thinkWithClaude message context) b =
       match run_at w (length t1 + n)
                    (askOpenAI message context (VStr data)) b with
       | ((o2, b2), t2) =>
           if succeeded o2 then ((o2, b2), (t1 ++ t2)%list)
           else
             let (r3, t3) :=
               run_at w (length t2 + (length t1 + n))
                      (_fallbackToGemini message context (VStr data)) b2 in
             (r3, (t1 ++ t2 ++ t3)%list)
       end.
Proof.
  destruct (prefetchData_run message w n b) as (data & t1 & Hp & Hq).
  exists data, t1. split; [assumption |]. split; [assumption |].
  unfold thinkWithClaude. rewrite run_at_try_assigning.
  rewrite run_at_bind, Hp. run_steps. rewrite app_nil_r.
  destruct (run_at w (length t1 + n) (askOpenAI message context (VStr data)) b)
    as [[[v | e] b2] t2]; cbn [succeeded].
  - destruct (truthy v).
    + run_steps. rewrite app_nil_r. reflexivity.
    + destruct (total_fallbackToGemini message context (VStr data) w
                  (length t2 + (length t1 + n)) b2) as [a Ha].
      destruct (run_at w (length t2 + (length t1 + n))
                  (_fallbackToGemini message context (VStr data)) b2)
        as [[o3 b3] t3]. cbn in Ha. subst o3. reflexivity.
  - destruct (run_at w (length t2 + (length t1 + n))
                (_fallbackToGemini message context (VStr data)) b2)
      as [[o3 b3] t3]. reflexivity.
Qed.

(** The fallback with data: one request, and a text whatever it
    answers. *)
Lemma fallback_with_data_run w n b message context data :
  data <> EmptyString ->
  let c := fallback_request b message context data in
  let r := answer w n c in
  run_at w n (_fallbackToGemini message context (VStr data)) b =
  ((Val (match r with
         | Returns response =>
             match gemini_text response with
             | Val text => or_else text (VStr apology)
             | Exn e =>
                 VStr ("Both Claude and Gemini failed: " ++ JS.message e)
             end
         | Throws e => VStr ("Both Claude and Gemini failed: " ++ JS.message e)
         end), b), [Called c r]).
Proof.
  intros Hd c r. unfold _fallbackToGemini.
  assert (truthy (VStr data) = true) as ->
    by (destruct data; [congruence | reflexivity]).
  run_steps. fold (fallback_request b message context data). fold c. fold r.
  destruct r as [response | e]; run_steps.
  - destruct (gemini_text response) as [text | e]; run_steps;
      rewrite ?app_nil_r; reflexivity.
  - reflexivity.
Qed.

Lemma fallback_without_data_run w n b message context :
  run_at w n (_fallbackToGemini message context (VStr EmptyString)) b =
  run_at w n (thinkWithGemini message context) b.
Proof. reflexivity. Qed.

(** The data is folded into the prompt of the fallback request. *)
Lemma fallback_prompt_folds b message context data :
  exists pre post,
    prompt_of (fallback_request b message context data) =
    pre ++ "Here is real data from Omar's accounts:" ++ nl ++ nl ++ data
    ++ post.
Proof.
  cbn [prompt_of fallback_request user_body contents content].
  unfold fallbackPrompt.
  exists (if str_truthy (context_text 5 context)
          then "Recent conversation:" ++ nl ++ context_text 5 context
               ++ nl ++ nl
          else EmptyString).
  eexists. reflexivity.
Qed.


(** ** The pattern of the JSON region *)

Lemma chr_eqb_eq a b : Chr.eqb a b = true <-> a = b.
Proof.
  unfold Chr.eqb, Chr.code. rewrite Nat.eqb_eq. split; [| congruence].
  intros H. rewrite <- (ascii_nat_embedding a), <- (ascii_nat_embedding b).
  congruence.
Qed.

(** After [[\s\S]*], a match of [\}] needs a closing brace in what is
    left of the input. *)
Lemma any_then_brace_run fuel :
  forall st res,
    Regex.iterate
      (Regex.run false (Regex.Class false [Regex.ISpace; Regex.INotSpace]))
      true (fun st1 => Regex.run false (Regex.Lit "}") st1 Some) fuel st
    = Some res ->
    exists mid post, Regex.rest st = (mid ++ "}"%char :: post)%list.
Proof.
  induction fuel as [| fuel IH]; intros st res; cbn [Regex.iterate Regex.run].
  - unfold Regex.one, Regex.lit_ok.
    destruct (Regex.rest st) as [| x xs]; [discriminate |].
    destruct (Chr.eqb "}" x) eqn:Ex; [| discriminate].
    apply chr_eqb_eq in Ex. subst x. intros _. exists [], xs. reflexivity.
  - unfold Regex.one at 1.
    destruct (Regex.rest st) as [| x xs] eqn:Er.
    + unfold Regex.one. rewrite Er. discriminate.
    + destruct (xorb false
                  (Regex.items_have false [Regex.ISpace; Regex.INotSpace] x)).
      * destruct (Nat.eqb (Regex.pos (Regex.advance x xs st)) (Regex.pos st)).
        -- unfold Regex.one, Regex.lit_ok. rewrite Er.
           destruct (Chr.eqb "}" x) eqn:Ex; [| discriminate].
           apply chr_eqb_eq in Ex. subst x. intros _.
           exists [], xs. reflexivity.
        -- destruct (Regex.iterate _ true _ fuel (Regex.advance x xs st))
             as [res' |] eqn:Hit.
           ++ intros _. apply IH in Hit. destruct Hit as (mid & post & Hm).
              cbn [Regex.advance Regex.rest] in Hm. subst xs.
              exists (x :: mid), post. reflexivity.
           ++ unfold Regex.one, Regex.lit_ok. rewrite Er.
              destruct (Chr.eqb "}" x) eqn:Ex; [| discriminate].
              apply chr_eqb_eq in Ex. subst x. intros _.
              exists [], xs. reflexivity.
      * unfold Regex.one, Regex.lit_ok. rewrite Er.
        destruct (Chr.eqb "}" x) eqn:Ex; [| discriminate].
        apply chr_eqb_eq in Ex. subst x. intros _.
        exists [], xs. reflexivity.
Qed.

Lemma json_region_run st res :
  Regex.run false (Regex.expr Patterns.json_region) st Some = Some res ->
  exists mid post,
    Regex.rest st = ("{"%char :: mid ++ "}"%char :: post)%list.
Proof.
  unfold Patterns.json_region, Patterns.cs.
  cbn [Regex.expr Regex.seqs]. cbn [Regex.run]. unfold Regex.one at 1.
  destruct (Regex.rest st) as [| x xs] eqn:Er; [discriminate |].
  unfold Regex.lit_ok. destruct (Chr.eqb "{" x) eqn:Ex; [| discriminate].
  apply chr_eqb_eq in Ex. subst x. intros H.
  apply any_then_brace_run in H. destruct H as (mid & post & Hm).
  cbn [Regex.advance Regex.rest] in Hm. subst xs. eauto.
Qed.

Lemma json_region_search l :
  forall p pv f,
    Regex.search_from Patterns.json_region p pv l = Some f ->
    exists pre mid post,
      l = (pre ++ "{"%char :: mid ++ "}"%char :: post)%list.
Proof.
  induction l as [| x xs IH]; intros p pv f; cbn [Regex.search_from].
  - destruct (Regex.run _ _ _ Some) as [res |] eqn:Hr; [| discriminate].
    apply json_region_run in Hr. cbn [Regex.rest] in Hr.
    destruct Hr as (mid & post & Hr). discriminate Hr.
  - destruct (Regex.run _ _ _ Some) as [res |] eqn:Hr.
    + apply json_region_run in Hr. cbn [Regex.rest] in Hr.
      destruct Hr as (mid & post & ->). intros _.
      exists [], mid, post. reflexivity.
    + intros H. apply IH in H. destruct H as (pre & mid & post & ->).
      exists (x :: pre), mid, post. reflexivity.
Qed.

(** Between an opening and a closing brace there is a region without
    braces inside. *)
Lemma innermost_region_bounded n :
  forall mid pre post,
    length mid <= n ->
    exists pre' mid' post',
      (pre ++ "{"%char :: mid ++ "}"%char :: post
       = pre' ++ "{"%char :: mid' ++ "}"%char :: post')%list
      /\ ~ In "{"%char mid' /\ ~ In "}"%char mid'.
Proof.
  induction n as [| n IH]; intros mid pre post Hlen.
  - destruct mid; [| cbn in Hlen; lia].
    exists pre, [], post. cbn. auto.
  - destruct (in_dec ascii_dec "{"%char mid) as [Ho | Ho].
    + apply in_split in Ho. destruct Ho as (m1 & m2 & ->).
      rewrite length_app in Hlen. cbn in Hlen.
      destruct (IH m2 (pre ++ "{"%char :: m1)%list post)
        as (pre' & mid' & post' & E & H); [lia |].
      exists pre', mid', post'. split; [| assumption].
      rewrite <- E. rewrite <- !app_assoc. reflexivity.
    + destruct (in_dec ascii_dec "}"%char mid) as [Hc | Hc].
      * apply in_split in Hc. destruct Hc as (m1 & m2 & ->).
        rewrite length_app in Hlen. cbn in Hlen.
        destruct (IH m1 pre (m2 ++ "}"%char :: post)%list)
          as (pre' & mid' & post' & E & H); [lia |].
        exists pre', mid', post'. split; [| assumption].
        rewrite <- E. rewrite <- !app_assoc. reflexivity.
      * exists pre, mid, post. auto.
Qed.

Lemma innermost_region mid pre post :
  exists pre' mid' post',
    (pre ++ "{"%char :: mid ++ "}"%char :: post
     = pre' ++ "{"%char :: mid' ++ "}"%char :: post')%list
    /\ ~ In "{"%char mid' /\ ~ In "}"%char mid'.
Proof. apply (innermost_region_bounded (length mid)). lia. Qed.

Lemma brace_free_balanced l :
  ~ In "{"%char l -> ~ In "}"%char l -> Email.balanced l.
Proof.
  induction l as [| c l IH]; intros Ho Hc; [constructor |].
  apply Email.balanced_char.
  - intros ->. apply Ho. left. reflexivity.
  - intros ->. apply Hc. left. reflexivity.
  - apply IH; intros H; [apply Ho | apply Hc]; right; assumption.
Qed.

(** Where the pattern finds a region, the text has a balanced one. *)
Lemma json_region_balanced raw f :
  Regex.exec Patterns.json_region raw = Some f -> Email.balanced_region raw.
Proof.
  unfold Regex.exec. intros H. apply json_region_search in H.
  destruct H as (pre & mid & post & E).
  destruct (innermost_region mid pre post) as (pre' & mid' & post' & E' & Ho & Hc).
  exists pre', mid', post'. split; [congruence |].
  apply brace_free_balanced; assumption.
Qed.


(** ** Properties of the pure parts *)

(** C7 (drive search term, analyze mode).  The derivation strips the
    stop words wherever they occur, also inside a word: on the message
    "can you search my drive for invoices" it strips "in" from
    "invoices" and yields the term "voices", where the term "invoices" is
    expected; on "check drive" the residual is empty and the default
    "recent" is substituted. *)
Theorem C7_drive_search_term_examples :
  Brain.driveSearchTerm "can you search my drive for invoices" = "voices"
  /\ Brain.driveSearchTerm "check drive" = "recent".
Proof. split; vm_compute; reflexivity. Qed.

Lemma allowed_duration_spec (dur : option Z) :
  allowed_duration dur = true <->
  exists d, dur = Some d /\ In d [4; 6; 8]%Z.
Proof.
  destruct dur as [d |]; cbn.
  - rewrite !orb_true_iff, !Z.eqb_eq. split.
    + intros H. exists d. split; [reflexivity |].
      cbn. intuition (auto; discriminate).
    + intros (d' & E & H). injection E as <-. cbn in H.
      intuition auto.
  - split; [discriminate | intros (d & E & _); discriminate].
Qed.

Lemma video_duration_spec (lower : string) (d : Z) :
  duration (videoOptions lower) = Some d <->
  exists m, Regex.exec Patterns.seconds lower = Some m
            /\ parseInt (group_text lower m 1) = Some d
            /\ In d [4; 6; 8]%Z.
Proof.
  unfold videoOptions; cbn [duration].
  destruct (Regex.exec Patterns.seconds lower) as [m |].
  - destruct (allowed_duration (parseInt (group_text lower m 1))) eqn:Ha.
    + apply allowed_duration_spec in Ha. destruct Ha as (d' & E & Hin).
      rewrite E. split.
      * intros H. injection H as <-. exists m. auto.
      * intros (m' & Em & Ep & _). injection Em as <-. congruence.
    + split; [discriminate |].
      intros (m' & Em & Ep & Hin). injection Em as <-.
      assert (allowed_duration (parseInt (group_text lower m 1)) = true)
        as Ht by (apply allowed_duration_spec; eauto).
      congruence.
  - split; [discriminate | intros (m & Em & _); discriminate].
Qed.

Lemma options_value_duration (o : video_options) :
  opt_get (options_value o) "duration" =
  match duration o with Some d => VNum d | None => VUndefined end.
Proof.
  destruct o as [a r ar q d].
  destruct a, r, ar, q, d; reflexivity.
Qed.

Lemma video_intent_run w n b (message lower : string) :
  geminiVideo (skills b) = true ->
  let c := Invoke "geminiVideo" "generateVideo"
             [VStr (media_prompt Patterns.video_lead message);
              options_value (videoOptions lower)] in
  snd (run_at w n (video_intent message lower) b) = [Called c (answer w n c)]
  /\ forall e, fst (fst (run_at w n (video_intent message lower) b)) = Exn e ->
               answer w n c = Throws e.
Proof.
  intros Hv c. unfold video_intent, run_at, bind, this; cbn.
  rewrite Hv; cbn. fold c.
  destruct (answer w n c) as [v | e0]; cbn.
  - destruct (truthy (opt_get v "success")); cbn;
      (split; [reflexivity | discriminate]).
  - split; [reflexivity | intros e H; congruence].
Qed.

(** C9 (video duration).  The options of a video request carry a
    duration [d] exactly when the lower-cased message matches
    [(\d+)\s*sec], the digits read as the number [d], and [d] is one of
    4, 6 and 8; otherwise the options object has no [duration] key.  With
    the video skill present the intent is then the one call of
    [generateVideo] with these options, and the only exception it can
    end in is the one that call throws. *)
Theorem C9_video_duration_allowed_set :
  forall lower : string,
    (forall d : Z,
        duration (videoOptions lower) = Some d <->
        exists m, Regex.exec Patterns.seconds lower = Some m
                  /\ parseInt (group_text lower m 1) = Some d
                  /\ In d [4; 6; 8]%Z)
    /\ opt_get (options_value (videoOptions lower)) "duration" =
       match duration (videoOptions lower) with
       | Some d => VNum d
       | None => VUndefined
       end
    /\ (forall w n b message,
          geminiVideo (skills b) = true ->
          let c := Invoke "geminiVideo" "generateVideo"
                     [VStr (media_prompt Patterns.video_lead message);
                      options_value (videoOptions lower)] in
          snd (run_at w n (video_intent message lower) b)
            = [Called c (answer w n c)]
          /\ forall e,
               fst (fst (run_at w n (video_intent message lower) b)) = Exn e ->
               answer w n c = Throws e).
Proof.
  intros lower. split; [| split].
  - intros d. apply video_duration_spec.
  - apply options_value_duration.
  - intros w n b message Hv. apply video_intent_run. exact Hv.
Qed.

(** The claim on a request for 8 seconds and on one for 10 seconds. *)
Lemma C9_witness :
  duration (videoOptions "make a clip of rain, 8 sec long") = Some 8%Z
  /\ duration (videoOptions "make a clip of rain, 10 sec long") = None
  /\ snd (run_at (Examples.world_of 3600 (Throws Examples.network_down)
                    (Throws Examples.network_down)
                    (Throws Examples.network_down)
                    (Returns (VObj [("success", VBool true)])))
                 0
                 (video_intent "make a clip of rain, 10 sec long"
                               "make a clip of rain, 10 sec long")
                 (constructor Examples.no_tokens_config Examples.date
                    (Some {| geminiImage := false; geminiVideo := true;
                             weather := false; googleWorkspace := false;
                             scheduler := false; scheduler_bot := VUndefined;
                             braveSearch := false;
                             skills_memoryContext := VUndefined;
                             skills_learnedContext := VUndefined;
                             skills_userId := VUndefined |})))
     = [Called (Invoke "geminiVideo" "generateVideo"
                       [VStr "rain, 10 sec long"; VObj []])
               (Returns (VObj [("success", VBool true)]))].
Proof.
  split; [| split].
  - destruct (C9_video_duration_allowed_set "make a clip of rain, 8 sec long")
      as (Hiff & _).
    apply Hiff. eexists. split; [vm_compute; reflexivity |].
    split; [vm_compute; reflexivity | cbn; auto].
  - destruct (C9_video_duration_allowed_set "make a clip of rain, 10 sec long")
      as (Hiff & _).
    destruct (duration (videoOptions "make a clip of rain, 10 sec long"))
      as [d |] eqn:E; [| reflexivity].
    destruct (proj1 (Hiff d) eq_refl) as (m & Em & Ep & Hin).
    vm_compute in Em. injection Em as <-.
    vm_compute in Ep. injection Ep as <-.
    cbn in Hin. destruct Hin as [H | [H | [H | []]]]; discriminate H.
  - destruct (C9_video_duration_allowed_set "make a clip of rain, 10 sec long")
      as (_ & _ & Hrun).
    match goal with
    | |- snd (run_at ?w 0 (video_intent ?m _) ?b) = _ =>
        destruct (Hrun w 0 b m eq_refl) as [Ht _]
    end.
    rewrite Ht. vm_compute. reflexivity.
Defined.


(** ** Properties of the token layer *)

Lemma askOpenAI_no_credentials w n b message context data :
  truthy (_openaiAccessToken b) = false ->
  truthy (_openaiRefreshToken b) = false ->
  exists e t,
    run_at w n (askOpenAI message context data) b = ((Exn e, b), t)
    /\ Forall (fun ev => is_powerful ev = false) t.
Proof.
  intros Ha Hr. unfold askOpenAI. run_steps.
  destruct (mcpBridge b).
  - run_steps.
    destruct (answer w n (Invoke "mcpBridge" "getToolDescriptions" []))
      as [toolInfo | e]; run_steps.
    + rewrite getValidToken_no_credentials_call by assumption.
      eexists _, _. split; [reflexivity |].
      constructor; [reflexivity | constructor].
    + eexists _, _. split; [reflexivity |].
      constructor; [reflexivity | constructor].
  - run_steps.
    rewrite getValidToken_no_credentials_call by assumption.
    eexists _, _. split; [reflexivity | constructor].
Qed.

(** C8 (missing credentials).  With neither an access token nor a refresh
    token the token layer throws the configuration error at once: no
    request is made, [_callOpenAI] passes the error on without a retry,
    and the request that needed the powerful backend goes on without
    ever reaching it.  With the refresh token alone absent a refresh
    throws at once as well, and so does the call when the held access
    token has expired. *)
Theorem C8_missing_credentials_fail_fast :
  forall (w : world) (b : brain) (prompt : string),
    (truthy (_openaiAccessToken b) = false ->
     truthy (_openaiRefreshToken b) = false ->
     run_in w _getValidToken b = ((Exn no_credentials, b), [])
     /\ run_in w (_callOpenAI prompt) b = ((Exn no_credentials, b), [])
     /\ forall message context,
          Forall (fun e => is_powerful e = false)
                 (snd (run_in w (thinkWithClaude message context) b)))
    /\ (truthy (_openaiRefreshToken b) = false ->
        run_in w _refreshAccessToken b = ((Exn no_refresh_token, b), [])
        /\ (truthy (_openaiAccessToken b) = true ->
            expired (time w 0) (_tokenExpiresAt b) = true ->
            run_in w (_callOpenAI prompt) b
              = ((Exn no_refresh_token, b), [Clock (time w 0)]))).
Proof.
  intros w b prompt. unfold run_in. split.
  - intros Ha Hr. split; [| split].
    + apply getValidToken_no_credentials; assumption.
    + apply getValidToken_no_credentials_call; assumption.
    + intros message context.
      destruct (thinkWithClaude_run w 0 b message context)
        as (data & t1 & _ & Hq & ->).
      destruct (askOpenAI_no_credentials w (length t1 + 0) b message context
                  (VStr data) Ha Hr) as (e & t2 & -> & Hq2).
      cbn [succeeded].
      destruct (quiet_fallbackToGemini message context (VStr data) w
                  (length t2 + (length t1 + 0)) b) as [_ Hq3].
      destruct (run_at w (length t2 + (length t1 + 0))
                  (_fallbackToGemini message context (VStr data)) b)
        as [r3 t3]. cbn [snd] in Hq3 |- *.
      repeat (apply Forall_app; split); assumption.
  - intros Hr. split.
    + apply refresh_run_absent; assumption.
    + intros Ha He. apply callOpenAI_cannot_refresh; assumption.
Qed.

(** The claim at an instance built without credentials, and at one
    whose access token is held without a refresh token. *)
Lemma C8_witness :
  run_in (Examples.world_of 3600 (Throws Examples.network_down)
            (Throws Examples.network_down) (Throws Examples.network_down)
            (Throws Examples.network_down))
         (_callOpenAI "hello")
         (constructor Examples.no_tokens_config Examples.date None)
  = ((Exn no_credentials,
      constructor Examples.no_tokens_config Examples.date None), [])
  /\ run_in (Examples.world_of 3600 (Throws Examples.network_down)
               (Throws Examples.network_down) (Throws Examples.network_down)
               (Throws Examples.network_down))
            (_callOpenAI "hello")
            (constructor Examples.access_only Examples.date None)
     = ((Exn no_refresh_token,
         constructor Examples.access_only Examples.date None),
        [Clock 1000000%Z]).
Proof.
  split.
  - destruct (C8_missing_credentials_fail_fast
                (Examples.world_of 3600 (Throws Examples.network_down)
                   (Throws Examples.network_down)
                   (Throws Examples.network_down)
                   (Throws Examples.network_down))
                (constructor Examples.no_tokens_config Examples.date None)
                "hello") as [H _].
    destruct (H eq_refl eq_refl) as (_ & Hc & _). exact Hc.
  - destruct (C8_missing_credentials_fail_fast
                (Examples.world_of 3600 (Throws Examples.network_down)
                   (Throws Examples.network_down)
                   (Throws Examples.network_down)
                   (Throws Examples.network_down))
                (constructor Examples.access_only Examples.date None)
                "hello") as [_ H].
    destruct (H eq_refl) as [_ Hc]. exact (Hc eq_refl eq_refl).
Defined.

Lemma constructor_tokens config date skills_arg :
  _openaiAccessToken (constructor config date skills_arg)
    = Config.openaiCodexToken config
  /\ _openaiRefreshToken (constructor config date skills_arg)
     = Config.openaiCodexRefresh config
  /\ _tokenExpiresAt (constructor config date skills_arg) = Some 0%Z.
Proof. repeat split. Qed.



(** The stored expiry after a refresh is in the future of the refresh
    exactly when the granted lifetime exceeds the safety margin. *)
Lemma refreshed_expiry b data now :
  _tokenExpiresAt (refreshed b data now)
  = expiry now (or_else (opt_get data "expires_in") (VNum 3600)).
Proof.
  unfold refreshed. destruct (truthy (opt_get data "refresh_token"));
    reflexivity.
Qed.

Lemma expiry_in_future now lifetime n :
  to_number lifetime = Some n ->
  expired now (expiry now lifetime) = false <-> (60 < n)%Z.
Proof.
  intros Hn. unfold expiry. rewrite Hn. cbn [option_map expired].
  rewrite Z.leb_gt. lia.
Qed.






Lemma refreshed_keeps_refresh_token b data now :
  truthy (_openaiRefreshToken b) = true ->
  truthy (_openaiRefreshToken (refreshed b data now)) = true.
Proof.
  intros H. unfold refreshed.
  destruct (truthy (opt_get data "refresh_token")) eqn:E; cbn; assumption.
Qed.

Lemma status_401 e : status e = VNum 401 -> is_num (status e) 401 = true.
Proof. intros ->. reflexivity. Qed.

(** What follows a main call answered with 401, from the instance [b1]
    the token layer left. *)
Lemma reactive_run w n b1 prompt :
  let run := run_at w n (refresh_and_retry prompt) b1 in
  (truthy (_openaiRefreshToken b1) = false
   /\ run = ((Exn no_refresh_token, b1), []))
  \/ (truthy (_openaiRefreshToken b1) = true
      /\ exists r1,
           (exists msg,
               run = ((Exn (new_Error msg), b1),
                      [Called (refresh_request b1) r1]))
           \/ (exists b2 c2 r2,
                  is_main (Called c2 r2) = true
                  /\ run = ((match r2 with
                             | Returns response =>
                                 match openai_text response with
                                 | Val text => Val (or_else text VNull)
                                 | Exn e => Exn e
                                 end
                             | Throws e => Exn e
                             end, b2),
                            [Called (refresh_request b1) r1;
                             Clock (time w (S n)); Called c2 r2]))).
Proof.
  cbv zeta. rewrite refresh_and_retry_run.
  destruct (truthy (_openaiRefreshToken b1)) eqn:Hr.
  - right. split; [reflexivity |].
    exists (answer w n (refresh_request b1)).
    destruct (token_data (answer w n (refresh_request b1))) as [data |] eqn:Hd.
    + right. rewrite (refresh_run_ok _ _ _ data Hr Hd). cbv zeta.
      eexists _, _, _. split; [| reflexivity]. reflexivity.
    + left. destruct (refresh_run_failed _ _ _ Hr Hd) as [msg ->]. eauto.
  - left. rewrite refresh_run_absent by assumption. auto.
Qed.




(** ** The classifier *)

Import Classifier.

Lemma toUpperCase_cons c s :
  Str.toUpperCase (String c s) = String (Chr.to_upper c) (Str.toUpperCase s).
Proof. reflexivity. Qed.

Lemma toLowerCase_cons c s :
  Str.toLowerCase (String c s) = String (Chr.to_lower c) (Str.toLowerCase s).
Proof. reflexivity. Qed.

(** A character is a given capital letter after [toUpperCase] exactly
    when it is the small letter after [toLowerCase]. *)
Lemma upper_iff_lower (u l : ascii) :
  Chr.is_upper u = true -> Chr.to_lower u = l ->
  forall c, Chr.to_upper c = u <-> Chr.to_lower c = l.
Proof.
  intros Hu <- c.
  destruct u as [[] [] [] [] [] [] [] []]; try discriminate Hu;
    destruct c as [[] [] [] [] [] [] [] []];
    vm_compute; split; intros H; first [reflexivity | discriminate H].
Qed.

Lemma upper_action_iff_lower (s : string) :
  Str.toUpperCase s = "ACTION" <-> same_ignoring_case s "ACTION".
Proof.
  unfold same_ignoring_case.
  change (Str.toLowerCase "ACTION") with "action".
  destruct s as [| c1 [| c2 [| c3 [| c4 [| c5 [| c6 [| c7 s]]]]]]];
    try (split; intros H; discriminate H).
  rewrite !toUpperCase_cons, !toLowerCase_cons.
  change (Str.toUpperCase EmptyString) with EmptyString.
  change (Str.toLowerCase EmptyString) with EmptyString.
  pose proof (upper_iff_lower "A" "a" eq_refl eq_refl c1) as H1.
  pose proof (upper_iff_lower "C" "c" eq_refl eq_refl c2) as H2.
  pose proof (upper_iff_lower "T" "t" eq_refl eq_refl c3) as H3.
  pose proof (upper_iff_lower "I" "i" eq_refl eq_refl c4) as H4.
  pose proof (upper_iff_lower "O" "o" eq_refl eq_refl c5) as H5.
  pose proof (upper_iff_lower "N" "n" eq_refl eq_refl c6) as H6.
  split; intros H; injection H as E1 E2 E3 E4 E5 E6.
  - apply H1 in E1. apply H2 in E2. apply H3 in E3. apply H4 in E4.
    apply H5 in E5. apply H6 in E6. congruence.
  - apply H1 in E1. apply H2 in E2. apply H3 in E3. apply H4 in E4.
    apply H5 in E5. apply H6 in E6. congruence.
Qed.

(** The label as a function of the reply. *)
Lemma classifyMessage_run w n b message :
  let r := answer w n (request b message) in
  run_at w n (classifyMessage message) b =
  ((Val (match r with
         | Returns response =>
             match gemini_text response with
             | Val (VStr text) =>
                 if Str.eqb (Str.toUpperCase (Str.trim text)) "ACTION"
                 then "claude" else "gemini"
             | _ => "gemini"
             end
         | Throws _ => "gemini"
         end), b), [Called (request b message) r]).
Proof.
  intros r. unfold classifyMessage. run_steps.
  fold (request b message). fold r.
  destruct r as [response | e]; run_steps; [| reflexivity].
  destruct (gemini_text response) as [text | e]; run_steps;
    [| reflexivity].
  destruct text; cbn [trim_upper]; run_steps; reflexivity.
Qed.




(** ** The send-email handler *)

Import Email.

Section SendEmail.

Variable JSON_parse : string -> outcome value.

(** The runs of [_handleSendEmail], by the text the fast backend
    returned and by what [JSON.parse] makes of its region. *)
Lemma handleSendEmail_run w n b message context :
  let c := parse_request b message in
  let r := answer w n c in
  let run := run_at w n (_handleSendEmail JSON_parse message context) b in
  match raw_text r with
  | None => exists e, run = ((Val (failed e), b), [Called c r])
  | Some raw =>
      match Regex.exec Patterns.json_region raw with
      | None => run = ((Val (VStr not_understood), b), [Called c r])
      | Some f =>
          match JSON_parse (Regex.matched raw f) with
          | Exn e => run = ((Val (failed e), b), [Called c r])
          | Val parsed =>
              if nullish parsed
              then exists e, run = ((Val (failed e), b), [Called c r])
              else if truthy (opt_get parsed "to") then
                if googleWorkspace (skills b) then
                  exists text,
                    run = ((Val (VStr text), b),
                           [Called c r;
                            Called (send_request message parsed)
                                   (answer w (S n)
                                           (send_request message parsed))])
                else exists e, run = ((Val (failed e), b), [Called c r])
              else run = ((Val (VStr no_recipient), b), [Called c r])
          end
      end
  end.
Proof.
  intros c r run. subst run. unfold _handleSendEmail, raw_text.
  run_steps. fold (parse_request b message). fold c. fold r.
  destruct r as [response | e]; run_steps; [| eexists; reflexivity].
  destruct (gemini_text response) as [text | e]; run_steps;
    [| eexists; reflexivity].
  destruct (or_else text (VStr EmptyString)) as [| | x | x | raw | x | x];
    cbn [value_match]; run_steps; try (eexists; reflexivity).
  destruct (Regex.exec Patterns.json_region raw) as [f |]; run_steps;
    [| reflexivity].
  destruct (JSON_parse (Regex.matched raw f)) as [parsed | e]; run_steps;
    [| reflexivity].
  destruct (nullish parsed) eqn:En.
  - destruct (get_nullish parsed "to" En) as [e ->]. run_steps.
    eexists; reflexivity.
  - rewrite !(get_not_nullish parsed) by assumption. run_steps.
    destruct (truthy (opt_get parsed "to")); cbn [negb]; run_steps;
      [| reflexivity].
    unfold workspace. run_steps.
    destruct (googleWorkspace (skills b)); run_steps.
    + fold (send_request message parsed).
      destruct (answer w (S n) (send_request message parsed)); run_steps;
        eexists; reflexivity.
    + eexists; reflexivity.
Qed.

End SendEmail.

Lemma recipient_key parsed :
  truthy (opt_get parsed "to") = true ->
  exists fields, parsed = VObj fields /\ truthy (lookup "to" fields) = true.
Proof.
  unfold opt_get, get. destruct parsed; cbn; try discriminate. eauto.
Qed.

(** C6 (send-email handler).  [_handleSendEmail] never throws: it
    returns a text and leaves the instance as it was.  It calls
    [sendEmail] only after [JSON.parse] gave an object whose [to] is
    present and not empty, and then with that recipient.  When the
    parsed object has no [to] it returns "I need a recipient email
    address." and has called nothing but the parser request.  When the
    text of the fast backend has no balanced [{...}] region it returns
    the guidance on how to phrase the request, again without calling
    [sendEmail]. *)
Theorem C6_send_email_needs_recipient :
  forall (JSON_parse : string -> outcome value) (w : world) (b : brain)
         (message : string) (context : list turn),
    let c := parse_request b message in
    let r := answer w 0 c in
    let run := run_in w (_handleSendEmail JSON_parse message context) b in
    (exists text, fst run = (Val (VStr text), b))
    /\ (forall c2 r2,
          In (Called c2 r2) (snd run) ->
          is_send_email (Called c2 r2) = true ->
          exists raw f fields,
            raw_text r = Some raw
            /\ Regex.exec Patterns.json_region raw = Some f
            /\ JSON_parse (Regex.matched raw f) = Val (VObj fields)
            /\ truthy (lookup "to" fields) = true
            /\ c2 = send_request message (VObj fields))
    /\ (forall raw f parsed,
          raw_text r = Some raw ->
          Regex.exec Patterns.json_region raw = Some f ->
          JSON_parse (Regex.matched raw f) = Val parsed ->
          nullish parsed = false ->
          truthy (opt_get parsed "to") = false ->
          run = ((Val (VStr no_recipient), b), [Called c r]))
    /\ (forall raw,
          raw_text r = Some raw ->
          ~ balanced_region raw ->
          run = ((Val (VStr not_understood), b), [Called c r])).
Proof.
  intros JSON_parse w b message context c r run.
  pose proof (handleSendEmail_run JSON_parse w 0 b message context) as H.
  cbv zeta in H. fold c in H. fold r in H.
  fold (run_in w (_handleSendEmail JSON_parse message context) b) in H.
  fold run in H.
  assert (forall c2 r2, In (Called c2 r2) [Called c r] ->
                        is_send_email (Called c2 r2) = true -> False) as Hone.
  { intros c2 r2 [E | []] Hs. injection E as <- <-. discriminate Hs. }
  destruct (raw_text r) as [raw |] eqn:Eraw.
  2:{ destruct H as [e ->]. cbn [fst snd]. split; [eexists; reflexivity |].
      split; [intros c2 r2 Hin Hs; destruct (Hone c2 r2 Hin Hs) |].
      split; [intros raw f parsed E; discriminate E |].
      intros raw E; discriminate E. }
  destruct (Regex.exec Patterns.json_region raw) as [f |] eqn:Ef.
  2:{ rewrite H. cbn [fst snd]. split; [eexists; reflexivity |].
      split; [intros c2 r2 Hin Hs; destruct (Hone c2 r2 Hin Hs) |].
      split.
      - intros raw' f' parsed E. injection E as <-. congruence.
      - reflexivity. }
  assert (forall raw', Some raw = Some raw' -> ~ balanced_region raw' -> False)
    as Hbal.
  { intros raw' E Hn. injection E as <-. apply Hn.
    eapply json_region_balanced; eassumption. }
  destruct (JSON_parse (Regex.matched raw f)) as [parsed | e] eqn:Ep.
  2:{ rewrite H. cbn [fst snd]. split; [eexists; reflexivity |].
      split; [intros c2 r2 Hin Hs; destruct (Hone c2 r2 Hin Hs) |].
      split.
      - intros raw' f' parsed E Ef'. injection E as <-.
        rewrite Ef in Ef'. injection Ef' as <-. congruence.
      - intros raw' E Hn. destruct (Hbal raw' E Hn). }
  destruct (nullish parsed) eqn:En.
  { destruct H as [e ->]. cbn [fst snd]. split; [eexists; reflexivity |].
    split; [intros c2 r2 Hin Hs; destruct (Hone c2 r2 Hin Hs) |].
    split.
    - intros raw' f' parsed' E Ef' Ep'. injection E as <-.
      rewrite Ef in Ef'. injection Ef' as <-. congruence.
    - intros raw' E Hn. destruct (Hbal raw' E Hn). }
  destruct (truthy (opt_get parsed "to")) eqn:Eto.
  - destruct (recipient_key parsed Eto) as (fields & -> & Hto).
    destruct (googleWorkspace (skills b)).
    + destruct H as [text ->]. cbn [fst snd].
      split; [eexists; reflexivity |]. split; [| split].
      * intros c2 r2 [E | [E | []]] Hs.
        -- injection E as <- <-. discriminate Hs.
        -- injection E as <- _. exists raw, f, fields. auto.
      * intros raw' f' parsed' E Ef' Ep'. injection E as <-.
        rewrite Ef in Ef'. injection Ef' as <-. congruence.
      * intros raw' E Hn. destruct (Hbal raw' E Hn).
    + destruct H as [e ->]. cbn [fst snd].
      split; [eexists; reflexivity |].
      split; [intros c2 r2 Hin Hs; destruct (Hone c2 r2 Hin Hs) |].
      split.
      * intros raw' f' parsed' E Ef' Ep'. injection E as <-.
        rewrite Ef in Ef'. injection Ef' as <-. congruence.
      * intros raw' E Hn. destruct (Hbal raw' E Hn).
  - rewrite H. cbn [fst snd]. split; [eexists; reflexivity |].
    split; [intros c2 r2 Hin Hs; destruct (Hone c2 r2 Hin Hs) |].
    split; [reflexivity |].
    intros raw' E Hn. destruct (Hbal raw' E Hn).
Qed.

(** The claim where the fast backend returns an object without a
    recipient, and where it returns a text without braces. *)
Lemma C6_witness :
  let parse := fun _ : string => Val (VObj [("subject", VStr "hello")]) in
  let b := constructor Examples.no_tokens_config Examples.date
             (Some Examples.workspace_only) in
  let w1 := Examples.world_of 3600 (Throws Examples.network_down)
              (Returns (Examples.gemini_response (VStr "Here you go: {}")))
              (Throws Examples.network_down) (Returns (VStr "sent")) in
  let w2 := Examples.world_of 3600 (Throws Examples.network_down)
              (Returns (Examples.gemini_response (VStr "no details given")))
              (Throws Examples.network_down) (Returns (VStr "sent")) in
  fst (fst (run_in w1 (_handleSendEmail parse "send an email" []) b))
    = Val (VStr no_recipient)
  /\ fst (fst (run_in w2 (_handleSendEmail parse "send an email" []) b))
     = Val (VStr not_understood).
Proof.
  intros parse b w1 w2. split.
  - destruct (C6_send_email_needs_recipient parse w1 b "send an email" [])
      as (_ & _ & H & _).
    rewrite (H "Here you go: {}" _ (VObj [("subject", VStr "hello")])
               eq_refl eq_refl eq_refl eq_refl eq_refl).
    reflexivity.
  - destruct (C6_send_email_needs_recipient parse w2 b "send an email" [])
      as (_ & _ & _ & H).
    rewrite (H "no details given" eq_refl).
    + reflexivity.
    + intros (pre & mid & post & E & _).
      assert (In "{"%char (Str.chars "no details given")) as Hin
        by (rewrite E; apply in_elt).
      vm_compute in Hin.
      repeat (destruct Hin as [Hin | Hin]; [discriminate Hin |]).
      exact Hin.
Defined.


(** ** The intent router *)

Import Router.

Lemma same_runs_refl {A : Type} (m : M A) : same_runs m m.
Proof. intros w n b. reflexivity. Qed.

Lemma same_runs_trans {A : Type} (m1 m2 m3 : M A) :
  same_runs m1 m2 -> same_runs m2 m3 -> same_runs m1 m3.
Proof. intros H1 H2 w n b. rewrite H1. apply H2. Qed.

Lemma same_runs_bind {A B : Type} (m : M A) (f g : A -> M B) :
  (forall a, same_runs (f a) (g a)) -> same_runs (bind m f) (bind m g).
Proof.
  intros H w n b. rewrite !run_at_bind.
  destruct (run_at w n m b) as [[[a | e] b1] t1]; [| reflexivity].
  rewrite H. reflexivity.
Qed.

Lemma same_runs_or_next (blk : block) (rest rest' : M value) :
  same_runs rest rest' -> same_runs (blk ;;; rest) (blk ;;; rest').
Proof.
  intros H w n b. rewrite !run_at_or_next.
  destruct (run_at w n blk b) as [[[[v |] | e] b1] t1]; try reflexivity.
  rewrite H. reflexivity.
Qed.

Lemma same_runs_skip (rest : M value) :
  same_runs (falls_through ;;; rest) rest.
Proof.
  intros w n b. rewrite run_at_or_next. unfold falls_through.
  rewrite run_at_ret. cbn [length Nat.add app].
  destruct (run_at w n rest b). reflexivity.
Qed.

(** One statement of [think] against one entry of the list. *)
Lemma same_runs_when (c : bool) (body : block) (rest rest' : M value) :
  same_runs rest rest' ->
  same_runs (when c body ;;; rest)
            (if c then body ;;; rest' else rest').
Proof.
  intros H. destruct c; cbn [when].
  - apply same_runs_or_next. assumption.
  - eapply same_runs_trans; [apply same_runs_skip | assumption].
Qed.

Lemma same_runs_multi_step message context (rest rest' : M value) :
  same_runs rest rest' ->
  same_runs (multi_step_block message context ;;; rest)
            (if _isMultiStepRequest message
             then bind this (fun b =>
                    when (orchestrator b)
                         (multi_step_intent message context)) ;;; rest'
             else rest').
Proof.
  intros H w n b. unfold multi_step_block.
  destruct (_isMultiStepRequest message).
  - rewrite !run_at_or_next, !run_at_bind, !run_at_this.
    cbn [length Nat.add app]. rewrite andb_true_r.
    destruct (run_at w n (when (orchestrator b)
                            (multi_step_intent message context)) b)
      as [[[[v |] | e] b1] t1]; try reflexivity.
    rewrite H. reflexivity.
  - rewrite run_at_or_next, run_at_bind, run_at_this.
    cbn [length Nat.add app]. rewrite andb_false_r. cbn [when].
    unfold falls_through. rewrite run_at_ret. cbn [length Nat.add app].
    rewrite H. destruct (run_at w n rest' b). reflexivity.
Qed.

Section Dispatch.

Variable JSON_parse : string -> outcome value.

(** The statements of [think] are the dispatch loop over the priority
    list. *)
Lemma think_intents_dispatch message context :
  same_runs (think_intents JSON_parse message context)
            (dispatch (table JSON_parse message context)
                      (classified message context)).
Proof.
  unfold think_intents, table. cbv zeta. cbn [dispatch matches handler].
  repeat (apply same_runs_when).
  apply same_runs_multi_step. apply same_runs_refl.
Qed.

(** First match wins. *)
Lemma dispatch_first_match (pre : list entry) e post default :
  Forall (fun x => matches x = false) pre ->
  matches e = true ->
  dispatch (pre ++ e :: post) default
  = (handler e ;;; dispatch post default).
Proof.
  induction 1 as [| x pre Hx _ IH]; intros He; cbn [app dispatch].
  - rewrite He. reflexivity.
  - rewrite Hx. apply IH. assumption.
Qed.

Lemma think_unforced w n b message context skills_arg :
  forced message = false ->
  run_at w n (think JSON_parse message context skills_arg) b
  = run_at w n (think_setup skills_arg ;;
                think_intents JSON_parse message context) b.
Proof.
  unfold forced. intros Hf.
  apply orb_false_elim in Hf. destruct Hf as [Hf H4].
  apply orb_false_elim in Hf. destruct Hf as [Hf H3].
  apply orb_false_elim in Hf. destruct Hf as [H1 H2].
  unfold think. rewrite H1, H2, H3, H4.
  rewrite !run_at_bind.
  destruct (run_at w n (think_setup skills_arg) b) as [[[u | e] b1] t1];
    [| reflexivity].
  rewrite run_at_bind, run_at_this. cbn [length Nat.add app].
  destruct (run_at w (length t1 + n) (think_intents JSON_parse message context)
                   b1) as [r t2]. reflexivity.
Qed.

End Dispatch.

Lemma initAgentLoop_run w n b :
  exists b1 t,
    run_at w n initAgentLoop b = ((Val tt, b1), t)
    /\ skills b1 = skills b.
Proof.
  unfold initAgentLoop. run_steps.
  destruct (agentLoop b); run_steps; [eauto |].
  destruct (answer w n (Invoke "tools" "registerAllTools" []))
    as [registry | e]; run_steps; [| eauto].
  destruct (answer w (S n) (Invoke "AgentLoop" "new" [registry]))
    as [a1 | e]; run_steps; [| eauto].
  destruct (answer w (S (S n)) (Invoke "TaskPlanner" "new" [registry]))
    as [a2 | e]; run_steps; [| eauto].
  destruct (answer w (S (S (S n))) (Invoke "Orchestrator" "new" [registry]))
    as [a3 | e]; run_steps; [| eauto].
  destruct (get registry "size") as [size | e]; run_steps; eauto.
Qed.

Lemma think_setup_run w n b skills_arg :
  exists b1 t,
    run_at w n (think_setup skills_arg) b = ((Val tt, b1), t)
    /\ skills b1 = match skills_arg with Some s => s | None => skills b end.
Proof.
  unfold think_setup. rewrite run_at_bind.
  assert (exists b0,
    run_at w n (match skills_arg with
                | Some s => update (set_skills s)
                | None => ret tt
                end) b = ((Val tt, b0), [])
    /\ skills b0 = match skills_arg with Some s => s | None => skills b end)
    as (b0 & -> & Hs)
    by (destruct skills_arg; [rewrite run_at_update | rewrite run_at_ret];
        eauto).
  cbn [length Nat.add app]. rewrite run_at_bind, run_at_this.
  cbn [length Nat.add app]. rewrite run_at_bind.
  assert (exists b1 t,
    run_at w n (if agentLoop b0 then ret tt else initAgentLoop) b0
      = ((Val tt, b1), t) /\ skills b1 = skills b0) as (b1 & t & -> & Hs1).
  { destruct (agentLoop b0); [rewrite run_at_ret; eauto |].
    apply initAgentLoop_run. }
  rewrite run_at_update. rewrite !app_nil_r.
  eexists _, _. split; [reflexivity |]. cbn [skills set_contexts].
  congruence.
Qed.

(** With the image skill present, the ultra-image handler is the one
    call of [ultraGenerate]. *)
Lemma ultra_image_intent_run w n b message :
  geminiImage (skills b) = true ->
  let c := Invoke "geminiImage" "ultraGenerate"
             [VStr (media_prompt Patterns.ultra_lead message)] in
  exists o,
    run_at w n (ultra_image_intent message) b
    = ((o, b), [Called c (answer w n c)])
    /\ o <> Val None.
Proof.
  intros Hg c. unfold ultra_image_intent. run_steps. rewrite Hg. run_steps.
  fold c. destruct (answer w n c) as [result | e]; run_steps.
  - destruct (image_ok result); run_steps;
      (eexists; split; [reflexivity | discriminate]).
  - eexists; split; [reflexivity | discriminate].
Qed.





(** ** The fallback chain *)

(** A failed call of the plain chat is answered with its error text. *)
Lemma thinkWithGemini_failure w n b message context :
  truthy (geminiApiKey b) = true ->
  forall c e,
    In (Called c (Throws e)) (snd (run_at w n (thinkWithGemini message context) b)) ->
    fst (fst (run_at w n (thinkWithGemini message context) b))
    = Val (VStr ("Error: " ++ JS.message e)).
Proof.
  intros Hk c e. unfold thinkWithGemini. run_steps. rewrite Hk.
  cbn [negb]. run_steps.
  destruct (answer w n (Invoke "keyRouter" "getKey" [VStr "textChat"]))
    as [apiKey | e1] eqn:E1; run_steps.
  2:{ cbn [fst snd]. intros [H | []]. injection H as _ <-. reflexivity. }
  destruct (answer w (S n)
              (Invoke "apiRateLimiter" "trackRequest"
                      [VStr "gemini-text-chat"]))
    as [u | e2] eqn:E2; run_steps.
  2:{ cbn [fst snd]. intros [H | [H | []]]; [discriminate H |].
      injection H as _ <-. reflexivity. }
  match goal with
  | |- context [answer w (S (S n)) ?c3] =>
      destruct (answer w (S (S n)) c3) as [response | e3] eqn:E3
  end; run_steps.
  - destruct (gemini_text response) as [text | e4]; run_steps; cbn [fst snd];
      intros [H | [H | [H | []]]]; discriminate H.
  - cbn [fst snd]. intros [H | [H | [H | []]]]; try discriminate H.
    injection H as _ <-. reflexivity.
Qed.





(** ** Further properties: the token layer and the powerful backend *)

Import Shape.

Lemma count_none (p : event -> bool) (t : list event) :
  Forall (fun e => p e = false) t -> count p t = 0.
Proof.
  unfold count. induction 1 as [| x l Hx _ IH]; [reflexivity |].
  cbn [filter]. rewrite Hx. exact IH.
Qed.

(** A failed token request, with its message. *)
Lemma refresh_failure_run w n b :
  truthy (_openaiRefreshToken b) = true ->
  token_data (answer w n (refresh_request b)) = None ->
  exists detail,
    run_at w n _refreshAccessToken b =
    ((Exn (new_Error ("OpenAI token refresh failed: " ++ detail)), b),
     [Called (refresh_request b) (answer w n (refresh_request b))]).
Proof.
  unfold refresh_request, token_data. intros Hr Hd. unfold _refreshAccessToken.
  run_steps. rewrite Hr. cbn [negb]. run_steps.
  destruct (answer w n (OAuthPost (_openaiRefreshToken b))) as [response | e].
  - run_steps.
    destruct (get response "data") as [d | e] eqn:Ed.
    + destruct (nullish d) eqn:En; [| discriminate].
      destruct (get_nullish d "access_token" En) as [e He].
      run_steps. rewrite ?He. run_steps. eexists. reflexivity.
    + run_steps. eexists. reflexivity.
  - run_steps. eexists. reflexivity.
Qed.

(** X4 (a failed refresh is atomic).  When [_refreshAccessToken]
    throws, the instance is exactly as it was: neither token nor the
    expiry has changed.  The error is a fresh [Error] without HTTP
    status and without code, so it can never be taken for a 401 or a
    timeout by [_callOpenAI]: either no refresh token is held, and then
    nothing was requested, or the one token request failed and the
    message starts with "OpenAI token refresh failed: ". *)
Theorem X4_refresh_failure_changes_nothing :
  forall (w : world) (n : nat) (b : brain) (e : error) (b1 : brain)
         (t : list event),
    run_at w n _refreshAccessToken b = ((Exn e, b1), t) ->
    b1 = b
    /\ JS.response e = VUndefined
    /\ JS.code e = VUndefined
    /\ ((truthy (_openaiRefreshToken b) = false
         /\ e = no_refresh_token /\ t = [])
        \/ (truthy (_openaiRefreshToken b) = true
            /\ (exists detail,
                   JS.message e = "OpenAI token refresh failed: " ++ detail)
            /\ t = [Called (refresh_request b)
                           (answer w n (refresh_request b))])).
Proof.
  intros w n b e b1 t H.
  destruct (truthy (_openaiRefreshToken b)) eqn:Hr.
  - destruct (token_data (answer w n (refresh_request b))) as [data |] eqn:Hd.
    + rewrite (refresh_run_ok w n b data Hr Hd) in H. discriminate.
    + destruct (refresh_failure_run w n b Hr Hd) as [detail Hm].
      rewrite Hm in H. injection H as <- <- <-.
      repeat split. right. repeat split. exists detail. reflexivity.
  - rewrite (refresh_run_absent w n b Hr) in H. injection H as <- <- <-.
    repeat split. left. repeat split.
Qed.

(** The property in a world without network: the refresh of an instance
    holding both tokens fails and leaves the instance as it was. *)
Lemma X4_witness :
  snd (fst (run_at Samples.offline 0 _refreshAccessToken
                   (constructor Examples.both_tokens Examples.date None)))
  = constructor Examples.both_tokens Examples.date None.
Proof.
  pose (b := constructor Examples.both_tokens Examples.date None).
  pose (R := run_at Samples.offline 0 _refreshAccessToken b).
  assert (R = ((Exn (new_Error "OpenAI token refresh failed: network down"),
                snd (fst R)), snd R)) as HR
    by (vm_compute; reflexivity).
  exact (proj1 (X4_refresh_failure_changes_nothing
                  Samples.offline 0 b _ _ _ HR)).
Defined.

(** The fields of an instance apart from the two tokens and the
    expiry. *)
Lemma refreshed_other_fields b data now :
  let b1 := refreshed b data now in
  skills b1 = skills b /\ geminiApiKey b1 = geminiApiKey b
  /\ openaiTimeout b1 = openaiTimeout b /\ openaiModel b1 = openaiModel b
  /\ mcpBridge b1 = mcpBridge b /\ agentLoop b1 = agentLoop b
  /\ planner b1 = planner b /\ orchestrator b1 = orchestrator b
  /\ _memoryContext b1 = _memoryContext b
  /\ _learnedContext b1 = _learnedContext b
  /\ claudeSystemPrompt b1 = claudeSystemPrompt b.
Proof.
  unfold refreshed. cbv zeta.
  destruct (truthy (opt_get data "refresh_token")); repeat split.
Qed.

(** X5 (what a successful refresh stores).  When the token endpoint
    answers with a [data] object, [_refreshAccessToken] makes that one
    request, reads the clock once and returns.  Afterwards the access
    token is [data.access_token]; the refresh token is
    [data.refresh_token] when the response carries one and the one held
    before otherwise, so a refresh token is still held; for a lifetime
    [expires_in] that is a number of seconds the expiry is the clock
    reading plus the lifetime minus one minute, the lifetime being 3600
    seconds when [expires_in] is missing or zero; and no other field of
    the instance has changed. *)
Theorem X5_refresh_rotates_tokens :
  forall (w : world) (n : nat) (b : brain) (data : value),
    truthy (_openaiRefreshToken b) = true ->
    token_data (answer w n (refresh_request b)) = Some data ->
    exists b1,
      run_at w n _refreshAccessToken b
      = ((Val tt, b1),
         [Called (refresh_request b) (answer w n (refresh_request b));
          Clock (time w (S n))])
      /\ _openaiAccessToken b1 = opt_get data "access_token"
      /\ _openaiRefreshToken b1
         = (if truthy (opt_get data "refresh_token")
            then opt_get data "refresh_token"
            else _openaiRefreshToken b)
      /\ truthy (_openaiRefreshToken b1) = true
      /\ (truthy (opt_get data "expires_in") = false ->
          _tokenExpiresAt b1 = Some (time w (S n) + 3540000)%Z)
      /\ (forall lifetime,
            opt_get data "expires_in" = VNum lifetime -> lifetime <> 0%Z ->
            _tokenExpiresAt b1
            = Some (time w (S n) + lifetime * 1000 - 60000)%Z)
      /\ skills b1 = skills b /\ geminiApiKey b1 = geminiApiKey b
      /\ openaiTimeout b1 = openaiTimeout b /\ openaiModel b1 = openaiModel b
      /\ mcpBridge b1 = mcpBridge b /\ agentLoop b1 = agentLoop b
      /\ planner b1 = planner b /\ orchestrator b1 = orchestrator b
      /\ _memoryContext b1 = _memoryContext b
      /\ _learnedContext b1 = _learnedContext b
      /\ claudeSystemPrompt b1 = claudeSystemPrompt b.
Proof.
  intros w n b data Hr Hd.
  exists (refreshed b data (time w (S n))).
  split; [apply refresh_run_ok; assumption |].
  split; [| split; [| split; [| split; [| split]]]].
  - unfold refreshed.
    destruct (truthy (opt_get data "refresh_token")); reflexivity.
  - unfold refreshed.
    destruct (truthy (opt_get data "refresh_token")); reflexivity.
  - unfold refreshed.
    destruct (truthy (opt_get data "refresh_token")) eqn:E; cbn; assumption.
  - intros He. unfold refreshed, or_else. rewrite He.
    destruct (truthy (opt_get data "refresh_token")); cbn; f_equal; lia.
  - intros lifetime He Hl. unfold refreshed, or_else. rewrite He.
    cbn [truthy]. apply Z.eqb_neq in Hl. rewrite Hl. cbn [negb].
    destruct (truthy (opt_get data "refresh_token")); reflexivity.
  - apply refreshed_other_fields.
Qed.

(** The property for a response that rotates the refresh token and
    names no lifetime: the new refresh token is stored and the expiry is
    3540 seconds after the clock reading. *)
Lemma X5_witness :
  let w := Samples.scripted [Returns Samples.rotating_response] in
  let b := constructor Examples.both_tokens Examples.date None in
  exists b1,
    snd (fst (run_at w 0 _refreshAccessToken b)) = b1
    /\ _openaiAccessToken b1 = VStr "tok2"
    /\ _openaiRefreshToken b1 = VStr "ref2"
    /\ _tokenExpiresAt b1 = Some 4540000%Z.
Proof.
  intros w b.
  destruct (X5_refresh_rotates_tokens w 0 b
              (VObj [("access_token", VStr "tok2");
                     ("refresh_token", VStr "ref2")])
              eq_refl eq_refl)
    as (b1 & Hrun & Ha & Hr & _ & He & _).
  exists b1. rewrite Hrun. repeat split; try assumption.
  exact (He eq_refl).
Defined.

(** X6 (a failure other than 401 is final).  When the token layer
    yielded a token and the main call fails with an error whose HTTP
    status is not 401, [_callOpenAI] ends there: the main call is the
    last effect, so there is neither a refresh nor a retry, and the
    instance is as the token layer left it.  What is thrown is the
    error itself, except for a timeout (code ECONNABORTED), which is
    replaced by a fresh error "OpenAI API timed out". *)
Theorem X6_other_failure_no_retry :
  forall (w : world) (n : nat) (b : brain) (prompt : string)
         (token : value) (b1 : brain) (t1 : list event) (e : error),
    run_at w n _getValidToken b = ((Val token, b1), t1) ->
    answer w (length t1 + n) (chat_request b1 token (safePrompt prompt))
    = Throws e ->
    is_num (status e) 401 = false ->
    run_at w n (_callOpenAI prompt) b
    = ((Exn (if is_str (JS.code e) "ECONNABORTED"
             then new_Error "OpenAI API timed out" else e), b1),
       (t1 ++ [Called (chat_request b1 token (safePrompt prompt))
                      (Throws e)])%list).
Proof.
  intros w n b prompt token b1 t1 e Hg Ha Hs.
  rewrite (callOpenAI_main w n b prompt token b1 t1 Hg). cbv zeta.
  rewrite Ha, Hs. reflexivity.
Qed.

(** The property for a main call that times out, from an instance whose
    token is still valid: the clock reading and the main call are the
    whole run, and the error thrown is the fresh one. *)
Lemma X6_witness :
  let w := Samples.scripted [Throws Samples.timed_out;
                             Throws Samples.timed_out] in
  let b := set_tokenExpiresAt (Some 2000000%Z)
             (constructor Examples.both_tokens Examples.date None) in
  fst (fst (run_at w 0 (_callOpenAI "hi") b))
  = Exn (new_Error "OpenAI API timed out")
  /\ length (snd (run_at w 0 (_callOpenAI "hi") b)) = 2.
Proof.
  intros w b.
  rewrite (X6_other_failure_no_retry w 0 b "hi" (VStr "tok1") b
             [Clock 1000000%Z] Samples.timed_out
             eq_refl eq_refl eq_refl).
  split; reflexivity.
Defined.

(** *** The length of the prompt *)

Lemma length_of_chars l : String.length (Str.of_chars l) = length l.
Proof.
  unfold Str.of_chars. induction l as [| c l IH]; cbn; congruence.
Qed.

Lemma of_chars_chars s : Str.of_chars (Str.chars s) = s.
Proof. apply string_of_list_ascii_of_string. Qed.

Lemma chars_of_chars l : Str.chars (Str.of_chars l) = l.
Proof. apply list_ascii_of_string_of_list_ascii. Qed.

Lemma length_chars s : length (Str.chars s) = String.length s.
Proof. rewrite <- (of_chars_chars s) at 2. symmetry. apply length_of_chars. Qed.

Lemma length_append (a b : string) :
  String.length (a ++ b) = String.length a + String.length b.
Proof. induction a as [| c a IH]; cbn; congruence. Qed.

Lemma substring0_length n s :
  (0 <= n)%Z -> (Z.of_nat (String.length (substring0 n s)) <= n)%Z.
Proof.
  intros Hn. unfold substring0. rewrite length_of_chars.
  pose proof (firstn_le_length (Z.to_nat n) (Str.chars s)). lia.
Qed.

Lemma substring0_short n s :
  (Z.of_nat (String.length s) <= n)%Z -> substring0 n s = s.
Proof.
  intros H. unfold substring0. rewrite firstn_all2.
  - apply of_chars_chars.
  - rewrite length_chars. lia.
Qed.

Lemma truncation_marker_length :
  Z.of_nat (String.length truncation_marker) = 31%Z.
Proof. reflexivity. Qed.

Lemma safePrompt_cut prompt :
  safePrompt prompt
  = substring0 100000 prompt
    ++ (if (100000 <? Z.of_nat (String.length prompt))%Z
        then truncation_marker else EmptyString).
Proof.
  unfold safePrompt, maxPromptLen.
  destruct (100000 <? Z.of_nat (String.length prompt))%Z eqn:E.
  - reflexivity.
  - rewrite substring0_short by lia.
    clear E. induction prompt as [| c p IH]; cbn; congruence.
Qed.

Lemma safePrompt_length prompt :
  (Z.of_nat (String.length (safePrompt prompt)) <= 100031)%Z.
Proof.
  rewrite safePrompt_cut, length_append.
  pose proof (substring0_length 100000 prompt ltac:(lia)).
  destruct (100000 <? Z.of_nat (String.length prompt))%Z.
  - pose proof truncation_marker_length. lia.
  - cbn [String.length]. lia.
Qed.

Lemma asks_other prompt e : is_main e = false -> asks prompt e.
Proof.
  unfold asks. destruct e as [c r | t]; [| exact (fun _ => I)].
  destruct c; try exact (fun _ => I). discriminate.
Qed.

Lemma asks_all_other prompt t :
  Forall (fun e => is_main e = false) t -> Forall (asks prompt) t.
Proof.
  intros H. eapply Forall_impl; [| exact H]. intros e. apply asks_other.
Qed.

Lemma refresh_no_main w n b :
  Forall (fun e => is_main e = false)
         (snd (run_at w n _refreshAccessToken b)).
Proof.
  destruct (truthy (_openaiRefreshToken b)) eqn:Hr.
  - destruct (token_data (answer w n (refresh_request b))) as [data |] eqn:Hd.
    + rewrite (refresh_run_ok w n b data Hr Hd). repeat constructor.
    + destruct (refresh_run_failed w n b Hr Hd) as [msg ->].
      repeat constructor.
  - rewrite (refresh_run_absent w n b Hr). constructor.
Qed.

Lemma callOpenAI_asks w n b prompt :
  Forall (asks prompt) (snd (run_at w n (_callOpenAI prompt) b)).
Proof.
  pose proof (token_run_no_main _ _ _ _ (getValidToken_run w n b)) as Hn.
  destruct (run_at w n _getValidToken b) as [[[token | e] b1] t1] eqn:Hg;
    cbn [snd] in Hn.
  2:{ rewrite (callOpenAI_token_error _ _ _ _ _ _ _ Hg). cbn [snd].
      apply asks_all_other. assumption. }
  rewrite (callOpenAI_main w n b prompt token b1 t1 Hg). cbv zeta.
  assert (asks prompt
            (Called (chat_request b1 token (safePrompt prompt))
                    (answer w (length t1 + n)
                            (chat_request b1 token (safePrompt prompt)))))
    as Hfirst by (left; reflexivity).
  destruct (answer w (length t1 + n)
              (chat_request b1 token (safePrompt prompt))) as [response | e].
  - cbn [snd]. apply Forall_app. split; [apply asks_all_other; assumption |].
    constructor; [assumption | constructor].
  - destruct (is_num (status e) 401).
    + rewrite refresh_and_retry_run.
      pose proof (refresh_no_main w (S (length t1 + n)) b1) as Hr.
      destruct (run_at w (S (length t1 + n)) _refreshAccessToken b1)
        as [[[u | e2] b2] t2]; cbn [snd] in Hr |- *.
      * apply Forall_app. split; [apply asks_all_other; assumption |].
        constructor; [assumption |].
        apply Forall_app. split; [apply asks_all_other; assumption |].
        constructor; [right; reflexivity | constructor].
      * apply Forall_app. split; [apply asks_all_other; assumption |].
        constructor; [assumption |]. apply asks_all_other. assumption.
    + cbn [snd]. apply Forall_app.
      split; [apply asks_all_other; assumption |].
      constructor; [assumption | constructor].
Qed.


(** *** The number of requests *)

Lemma refresh_counts w n b :
  count is_main (snd (run_at w n _refreshAccessToken b)) = 0
  /\ count is_refresh (snd (run_at w n _refreshAccessToken b)) <= 1
  /\ length (snd (run_at w n _refreshAccessToken b)) <= 2.
Proof.
  destruct (truthy (_openaiRefreshToken b)) eqn:Hr.
  - destruct (token_data (answer w n (refresh_request b))) as [data |] eqn:Hd.
    + rewrite (refresh_run_ok w n b data Hr Hd). cbn. lia.
    + destruct (refresh_run_failed w n b Hr Hd) as [msg ->]. cbn. lia.
  - rewrite (refresh_run_absent w n b Hr). cbn. lia.
Qed.

Lemma getValidToken_counts w n b :
  count is_main (snd (run_at w n _getValidToken b)) = 0
  /\ count is_refresh (snd (run_at w n _getValidToken b)) <= 1
  /\ length (snd (run_at w n _getValidToken b)) <= 3.
Proof.
  pose proof (getValidToken_run w n b) as H.
  destruct H as [| | | msg Hn Hr i Hd | data Hn Hr i Hd b1]; cbn [snd];
    try (cbn; lia).
  - rewrite !count_app, length_app, check_trace_no_refresh.
    rewrite (count_none _ _ (check_trace_no_main w n b)).
    unfold check_trace. destruct (truthy (_openaiAccessToken b)); cbn; lia.
  - rewrite !count_app, length_app, check_trace_no_refresh.
    rewrite (count_none _ _ (check_trace_no_main w n b)).
    unfold check_trace. destruct (truthy (_openaiAccessToken b)); cbn; lia.
Qed.

(** X7 (no loop of retries).  One call of [_callOpenAI] makes at most
    two requests to the chat endpoint (the call and one retry) and at
    most two requests to the token endpoint (one before the call, one
    after a 401), and at most seven effects in all, the readings of the
    clock included; it never asks the fast backend or a skill. *)
Theorem X7_requests_are_bounded :
  forall (w : world) (n : nat) (b : brain) (prompt : string),
    let t := snd (run_at w n (_callOpenAI prompt) b) in
    count is_main t <= 2
    /\ count is_refresh t <= 2
    /\ length t <= 7
    /\ count is_fast t = 0
    /\ count (fun e => match e with
                       | Called (Invoke _ _ _) _ => true
                       | _ => false
                       end) t = 0.
Proof.
  intros w n b prompt. cbv zeta.
  assert (forall k b0,
            count is_fast (snd (run_at w k _refreshAccessToken b0)) = 0
            /\ count (fun e => match e with
                               | Called (Invoke _ _ _) _ => true
                               | _ => false
                               end)
                     (snd (run_at w k _refreshAccessToken b0)) = 0) as Hrf.
  { intros k b0. destruct (truthy (_openaiRefreshToken b0)) eqn:Hr.
    - destruct (token_data (answer w k (refresh_request b0)))
        as [data |] eqn:Hd.
      + rewrite (refresh_run_ok w k b0 data Hr Hd). split; reflexivity.
      + destruct (refresh_run_failed w k b0 Hr Hd) as [msg ->].
        split; reflexivity.
    - rewrite (refresh_run_absent w k b0 Hr). split; reflexivity. }
  assert (count is_fast (snd (run_at w n _getValidToken b)) = 0
          /\ count (fun e => match e with
                             | Called (Invoke _ _ _) _ => true
                             | _ => false
                             end)
                   (snd (run_at w n _getValidToken b)) = 0) as Hgf.
  { pose proof (getValidToken_run w n b) as H.
    destruct H as [| | | msg Hn Hr i Hd | data Hn Hr i Hd b1]; cbn [snd];
      try (split; reflexivity);
      rewrite !count_app; unfold check_trace;
      destruct (truthy (_openaiAccessToken b)); split; reflexivity. }
  pose proof (getValidToken_counts w n b) as (G1 & G2 & G3).
  destruct Hgf as [G4 G5].
  destruct (run_at w n _getValidToken b) as [[[token | e] b1] t1] eqn:Hg;
    cbn [snd] in G1, G2, G3, G4, G5.
  2:{ rewrite (callOpenAI_token_error _ _ _ _ _ _ _ Hg). cbn [snd].
      repeat split; lia. }
  rewrite (callOpenAI_main w n b prompt token b1 t1 Hg). cbv zeta.
  destruct (answer w (length t1 + n)
              (chat_request b1 token (safePrompt prompt))) as [response | e].
  - cbn [snd]. rewrite !count_app, length_app. cbn. repeat split; lia.
  - destruct (is_num (status e) 401).
    + rewrite refresh_and_retry_run.
      pose proof (refresh_counts w (S (length t1 + n)) b1) as (R1 & R2 & R3).
      destruct (Hrf (S (length t1 + n)) b1) as [R4 R5].
      destruct (run_at w (S (length t1 + n)) _refreshAccessToken b1)
        as [[[u | e2] b2] t2]; cbn [snd] in R1, R2, R3, R4, R5 |- *.
      * change (Called (chat_request b1 token (safePrompt prompt)) (Throws e)
                :: t2 ++ ?x)%list
          with ([Called (chat_request b1 token (safePrompt prompt))
                        (Throws e)] ++ t2 ++ x)%list.
        rewrite !count_app, !length_app. cbn. repeat split; lia.
      * change (Called (chat_request b1 token (safePrompt prompt)) (Throws e)
                :: t2)%list
          with ([Called (chat_request b1 token (safePrompt prompt))
                        (Throws e)] ++ t2)%list.
        rewrite !count_app, !length_app. cbn. repeat split; lia.
    + cbn [snd]. rewrite !count_app, length_app. cbn. repeat split; lia.
Qed.

(** ** Further properties: the conversation and the plain chat *)

Lemma last_n_length {A : Type} n (l : list A) :
  length (last_n n l) = Nat.min n (length l).
Proof. unfold last_n. rewrite length_skipn. lia. Qed.

(** Of a conversation, [slice(-n)] sees only the last [n] turns. *)
Lemma last_n_app {A : Type} n (old recent : list A) :
  n <= length recent -> last_n n (old ++ recent) = last_n n recent.
Proof.
  intros H. unfold last_n. rewrite length_app, skipn_app.
  rewrite skipn_all2 by lia. cbn [app]. f_equal. lia.
Qed.

Lemma context_text_app n (old recent : list turn) :
  n <= length recent ->
  context_text n (old ++ recent) = context_text n recent.
Proof.
  intros H. unfold context_text. rewrite last_n_app by assumption.
  reflexivity.
Qed.

(** The turns the plain chat sends for a conversation and a message. *)
Lemma chat_turns_shape (message : string) (context : list turn) :
  let turns :=
    (map (fun msg =>
            {| role := if Str.eqb (Eff.role msg) "user"
                       then "user" else "model";
               content := Eff.content msg |})
         (last_n 10 context)
     ++ [ {| role := "user"; content := message |} ])%list in
  length turns = S (Nat.min 10 (length context))
  /\ last turns {| role := EmptyString; content := EmptyString |}
     = {| role := "user"; content := message |}
  /\ Forall (fun t => role t = "user" \/ role t = "model") turns
  /\ map content turns
     = (map content (last_n 10 context) ++ [message])%list.
Proof.
  cbv zeta. split; [| split; [| split]].
  - rewrite length_app, length_map, last_n_length. cbn [length]. lia.
  - apply last_last.
  - apply Forall_app. split.
    + apply Forall_forall. intros t Ht. apply in_map_iff in Ht.
      destruct Ht as (msg & <- & _). cbn [role].
      destruct (Str.eqb (Eff.role msg) "user"); auto.
    + constructor; [left; reflexivity | constructor].
  - rewrite map_app, map_map. reflexivity.
Qed.

(** X10 (the request of the plain chat).  [thinkWithGemini] never throws
    and never changes the instance.  Without an API key it answers with
    the fixed hint and has no effect at all.  Otherwise it hands at most
    one request to [apiRateLimiter.callWithRetry], and that request
    carries at most eleven turns: the last ten turns of the conversation,
    in order and with their texts unchanged, followed by the message as
    a user turn; every role is "user" or "model" (any role other than
    "user" is sent as "model"), and the timeout is 30 seconds. *)
Theorem X10_plain_chat_request :
  forall (w : world) (n : nat) (b : brain) (message : string)
         (context : list turn),
    let run := run_at w n (thinkWithGemini message context) b in
    (exists v, fst (fst run) = Val v)
    /\ snd (fst run) = b
    /\ (truthy (geminiApiKey b) = false ->
        run = ((Val (VStr "Add GEMINI_API_KEY to .env"), b), []))
    /\ count is_plain_chat (snd run) <= 1
    /\ Forall (fun e =>
                 match e with
                 | Called (GeminiWithRetry _ body timeout) _ =>
                     length (contents body) = S (Nat.min 10 (length context))
                     /\ last (contents body)
                             {| role := EmptyString; content := EmptyString |}
                        = {| role := "user"; content := message |}
                     /\ Forall (fun t => role t = "user" \/ role t = "model")
                               (contents body)
                     /\ map content (contents body)
                        = (map content (last_n 10 context) ++ [message])%list
                     /\ timeout = 30000%Z
                 | _ => True
                 end)
              (snd run).
Proof.
  intros w n b message context. cbv zeta.
  pose proof (chat_turns_shape message context) as Hshape. cbv zeta in Hshape.
  destruct Hshape as (S1 & S2 & S3 & S4).
  split; [apply total_thinkWithGemini |].
  split; [apply quiet_thinkWithGemini |].
  unfold thinkWithGemini. run_steps.
  destruct (truthy (geminiApiKey b)); cbn [negb]; run_steps.
  2:{ repeat split; [cbn; lia | constructor]. }
  split; [discriminate |].
  destruct (answer w n (Invoke "keyRouter" "getKey" [VStr "textChat"]))
    as [apiKey | e1]; run_steps.
  2:{ cbn. split; [lia | repeat constructor]. }
  destruct (answer w (S n)
              (Invoke "apiRateLimiter" "trackRequest"
                      [VStr "gemini-text-chat"]))
    as [u | e2]; run_steps.
  2:{ cbn. split; [lia | repeat constructor]. }
  match goal with
  | |- context [answer w (S (S n)) ?c3] =>
      destruct (answer w (S (S n)) c3) as [response | e3]
  end; run_steps.
  - destruct (gemini_text response) as [text | e4]; run_steps; cbn [snd];
      (split; [cbn; lia |]);
      repeat (apply Forall_cons; [try exact I |]);
      try apply Forall_nil; cbn [contents]; auto.
  - cbn [snd]. split; [cbn; lia |].
    repeat (apply Forall_cons; [try exact I |]);
      try apply Forall_nil; cbn [contents]; auto.
Qed.

(** X11 (the window on the conversation).  Only the end of the
    conversation reaches the backends: whatever precedes the last ten
    turns has no influence on [thinkWithClaude] (whose prompt quotes
    five turns, and whose fallback to the plain chat sends ten) nor on
    [thinkWithGemini]; whatever precedes the last three has none on
    [_analyzeGoogleData], and whatever precedes the last ten none on
    [_composeWithClaude]. *)
Theorem X11_conversation_window :
  forall (message : string) (old recent : list turn),
    3 <= length recent ->
    (forall dataType,
       _analyzeGoogleData message (old ++ recent) dataType
       = _analyzeGoogleData message recent dataType)
    /\ (10 <= length recent ->
        thinkWithClaude message (old ++ recent)
        = thinkWithClaude message recent
        /\ thinkWithGemini message (old ++ recent)
           = thinkWithGemini message recent
        /\ (forall composeType,
              _composeWithClaude message (old ++ recent) composeType
              = _composeWithClaude message recent composeType)).
Proof.
  intros message old recent H3. split.
  - intros dataType. unfold _analyzeGoogleData.
    rewrite (context_text_app 3 old recent) by lia. reflexivity.
  - intros H.
    assert (thinkWithGemini message (old ++ recent)
            = thinkWithGemini message recent) as Hg.
    { unfold thinkWithGemini. rewrite (last_n_app 10 old recent) by lia.
      reflexivity. }
    split; [| split].
    + unfold thinkWithClaude, askOpenAI, _fallbackToGemini, fallbackPrompt.
      rewrite Hg, (context_text_app 5 old recent) by lia. reflexivity.
    + exact Hg.
    + intros composeType. unfold _composeWithClaude.
      unfold _fallbackToGemini, fallbackPrompt.
      rewrite Hg, (context_text_app 5 old recent) by lia. reflexivity.
Qed.

(** The property for a conversation of twelve turns: the first two have
    no influence. *)
Lemma X11_witness :
  let turn := {| role := "user"; content := "hi" |} in
  thinkWithGemini "hello" ([turn; turn] ++ repeat turn 10)
  = thinkWithGemini "hello" (repeat turn 10).
Proof.
  intros turn.
  assert (3 <= length (repeat turn 10)) as H3 by (cbn; lia).
  exact (proj1 (proj2 (proj2 (X11_conversation_window "hello" [turn; turn]
                                (repeat turn 10) H3)
                             (le_n 10)))).
Defined.

(** X12 (no classification, no powerful backend).  When the request of
    the classifier fails, the message is answered by the plain chat:
    the run of the classified route is that failed request followed by
    the run of [thinkWithGemini], it makes no request to the powerful
    backend, it does not throw and it leaves the instance as it was. *)
Theorem X12_failed_classification_is_plain_chat :
  forall (w : world) (n : nat) (b : brain) (message : string)
         (context : list turn) (e : error),
    answer w n (Classifier.request b message) = Throws e ->
    run_at w n (classified message context) b
    = (fst (run_at w (S n) (thinkWithGemini message context) b),
       Called (Classifier.request b message) (Throws e)
       :: snd (run_at w (S n) (thinkWithGemini message context) b))
    /\ (exists v, fst (fst (run_at w n (classified message context) b)) = Val v)
    /\ snd (fst (run_at w n (classified message context) b)) = b
    /\ count is_powerful (snd (run_at w n (classified message context) b)) = 0.
Proof.
  intros w n b message context e Ha.
  assert (run_at w n (classified message context) b
          = (fst (run_at w (S n) (thinkWithGemini message context) b),
             Called (Classifier.request b message) (Throws e)
             :: snd (run_at w (S n) (thinkWithGemini message context) b)))
    as Hrun.
  { unfold classified. rewrite run_at_bind, classifyMessage_run. cbv zeta.
    rewrite Ha. cbn [length Nat.add app Str.eqb String.eqb Ascii.eqb Bool.eqb].
    destruct (run_at w (S n) (thinkWithGemini message context) b).
    reflexivity. }
  split; [exact Hrun |]. rewrite Hrun. cbn [fst snd].
  split; [apply total_thinkWithGemini |].
  split; [apply quiet_thinkWithGemini |].
  destruct (quiet_thinkWithGemini message context w (S n) b) as [_ Hq].
  change (Called (Classifier.request b message) (Throws e)
          :: snd (run_at w (S n) (thinkWithGemini message context) b))
    with ([Called (Classifier.request b message) (Throws e)]
          ++ snd (run_at w (S n) (thinkWithGemini message context) b))%list.
  rewrite count_app, (count_none _ _ Hq). reflexivity.
Qed.

(** The property in a world without network: the classifier fails, the
    plain chat fails too, and the answer is the text of its error. *)
Lemma X12_witness :
  fst (fst (run_at Samples.offline 0 (classified "hello" [])
                   (constructor Examples.both_tokens Examples.date None)))
  = Val (VStr "Error: network down").
Proof.
  rewrite (proj1 (X12_failed_classification_is_plain_chat
                    Samples.offline 0
                    (constructor Examples.both_tokens Examples.date None)
                    "hello" [] Examples.network_down eq_refl)).
  reflexivity.
Defined.

(** ** Further properties: what [think] throws, and the agent system *)

Lemma raises_only_total {A : Type} p (m : M A) : total m -> raises_only p m.
Proof.
  intros Ht w n b e b1 t H. destruct (Ht w n b) as [a Ha].
  rewrite H in Ha. discriminate.
Qed.

Lemma raises_only_perform p c : p c = true -> raises_only p (perform c).
Proof.
  intros Hp w n b e b1 t. rewrite run_at_perform.
  destruct (answer w n c) as [v | e0]; intros H; [discriminate |].
  injection H as <- <- <-. exists [], c. auto.
Qed.

Lemma raises_only_bind {A B : Type} p (m : M A) (f : A -> M B) :
  raises_only p m -> (forall a, raises_only p (f a)) ->
  raises_only p (bind m f).
Proof.
  intros Hm Hf w n b e b1 t. rewrite run_at_bind.
  destruct (run_at w n m b) as [[[a | e0] b0] t0] eqn:Em.
  - destruct (run_at w (length t0 + n) (f a) b0) as [[o2 b2] t2] eqn:Ef.
    intros H. injection H as -> <- <-.
    destruct (Hf a _ _ _ _ _ _ Ef) as (pre & c & -> & Hc).
    exists (t0 ++ pre)%list, c. rewrite app_assoc. auto.
  - intros H. injection H as <- <- <-. eapply Hm; eauto.
Qed.

Lemma raises_only_or_next p (blk : block) (rest : M value) :
  raises_only p blk -> raises_only p rest -> raises_only p (blk ;;; rest).
Proof.
  intros Hb Hr. unfold or_next. apply raises_only_bind; [assumption |].
  intros [v |]; [| assumption].
  apply raises_only_total. apply total_ret.
Qed.

Lemma raises_only_if {A : Type} p (c : bool) (m1 m2 : M A) :
  raises_only p m1 -> raises_only p m2 ->
  raises_only p (if c then m1 else m2).
Proof. destruct c; auto. Qed.

Lemma raises_only_when p (c : bool) (body : block) :
  raises_only p body -> raises_only p (when c body).
Proof.
  intros H. unfold when. apply raises_only_if; [assumption |].
  apply raises_only_total. apply total_ret.
Qed.

Lemma total_this : total this.
Proof. intros w n b. rewrite run_at_this. cbn. eauto. Qed.

Lemma total_returns (m : M value) : total m -> total (returns m).
Proof.
  intros H. unfold returns. apply total_bind; [assumption |].
  intros v. apply total_ret.
Qed.

Lemma total_try_assigning {A B : Type} (initial : A) (first : M A)
    (body : A -> M B) (handler : A -> error -> M B) :
  (forall a e, total (handler a e)) ->
  total (try_assigning initial first body handler).
Proof.
  intros Hh w n b. rewrite run_at_try_assigning.
  destruct (run_at w n first b) as [[[a | e] b1] t1].
  - destruct (total_try_catch (body a) (handler a) (Hh a) w
                (length t1 + n) b1) as [x Hx].
    destruct (run_at w (length t1 + n) (try_catch (body a) (handler a)) b1)
      as [[o b2] t2]. cbn in Hx |- *. eauto.
  - destruct (Hh initial e w (length t1 + n) b1) as [x Hx].
    destruct (run_at w (length t1 + n) (handler initial e) b1)
      as [[o b2] t2]. cbn in Hx |- *. eauto.
Qed.

Lemma total_thinkWithClaude message context :
  total (thinkWithClaude message context).
Proof.
  unfold thinkWithClaude. apply total_try_assigning.
  intros a e. apply total_fallbackToGemini.
Qed.

Lemma total_classifyMessage message : total (classifyMessage message).
Proof.
  unfold classifyMessage. apply total_try_catch. intros e. apply total_ret.
Qed.

Lemma total_classified message context : total (classified message context).
Proof.
  unfold classified. apply total_bind; [apply total_classifyMessage |].
  intros route. apply total_if;
    [apply total_thinkWithClaude | apply total_thinkWithGemini].
Qed.

Lemma total_composeWithClaude message context composeType :
  total (_composeWithClaude message context composeType).
Proof.
  unfold _composeWithClaude. apply total_try_catch.
  intros e. apply total_fallbackToGemini.
Qed.

Lemma total_analyzeGoogleData message context dataType :
  total (_analyzeGoogleData message context dataType).
Proof.
  unfold _analyzeGoogleData. apply total_try_catch.
  intros e. apply total_ret.
Qed.

Lemma total_think_setup skills_arg : total (think_setup skills_arg).
Proof.
  intros w n b. destruct (think_setup_run w n b skills_arg) as (b1 & t & H & _).
  rewrite H. cbn. eauto.
Qed.

Lemma raises_only_workspace_ready : raises_only unguarded workspace_ready.
Proof.
  unfold workspace_ready. apply raises_only_bind;
    [apply raises_only_total, total_this |].
  intros b. apply raises_only_if.
  - apply raises_only_bind; [apply raises_only_perform; reflexivity |].
    intros r. apply raises_only_total, total_ret.
  - apply raises_only_total, total_ret.
Qed.

(** A block that asks one call of a skill held and returns. *)
Lemma raises_only_skill_block (held : brain -> bool) (body : M (option value)) :
  raises_only unguarded body ->
  raises_only unguarded
    (bind this (fun b => if held b then body else falls_through)).
Proof.
  intros H. apply raises_only_bind; [apply raises_only_total, total_this |].
  intros b. apply raises_only_if; [assumption |].
  apply raises_only_total, total_ret.
Qed.

Lemma raises_only_call_then {B : Type} c (f : value -> M B) :
  unguarded c = true -> (forall v, total (f v)) ->
  raises_only unguarded (bind (perform c) f).
Proof.
  intros Hc Hf. apply raises_only_bind;
    [apply raises_only_perform; assumption |].
  intros v. apply raises_only_total, Hf.
Qed.

Section Raises.

Variable JSON_parse : string -> outcome value.

Lemma total_handleSendEmail message context :
  total (_handleSendEmail JSON_parse message context).
Proof.
  unfold _handleSendEmail. apply total_try_catch. intros e. apply total_ret.
Qed.

Lemma total_handleReminder message :
  total (_handleReminder JSON_parse message).
Proof.
  unfold _handleReminder. apply total_try_catch. intros e. apply total_ret.
Qed.

Lemma raises_only_think_intents message context :
  raises_only unguarded (think_intents JSON_parse message context).
Proof.
  unfold think_intents. cbv zeta.
  (* Image upscale *)
  apply raises_only_or_next.
  { apply raises_only_when. unfold upscale_intent.
    apply (raises_only_skill_block (fun b => geminiImage (skills b))).
    apply raises_only_call_then; [reflexivity |].
    intros v. apply total_if; apply total_ret. }
  (* Ultra image *)
  apply raises_only_or_next.
  { apply raises_only_when. unfold ultra_image_intent.
    apply (raises_only_skill_block (fun b => geminiImage (skills b))).
    apply raises_only_call_then; [reflexivity |].
    intros v. apply total_if; apply total_ret. }
  (* Image generation *)
  apply raises_only_or_next.
  { apply raises_only_when. unfold image_intent.
    apply (raises_only_skill_block (fun b => geminiImage (skills b))).
    apply raises_only_call_then; [reflexivity |].
    intros v. apply total_if; apply total_ret. }
  (* Video generation *)
  apply raises_only_or_next.
  { apply raises_only_when. unfold video_intent.
    apply (raises_only_skill_block (fun b => geminiVideo (skills b))).
    apply raises_only_call_then; [reflexivity |].
    intros v. apply total_if; apply total_ret. }
  (* Weather *)
  apply raises_only_or_next.
  { apply raises_only_when. apply raises_only_total.
    unfold weather_intent. apply total_bind; [apply total_this |].
    intros b. apply total_if; [| apply total_ret].
    apply total_returns. apply total_try_catch. intros e. apply total_ret. }
  (* Send email *)
  apply raises_only_or_next.
  { apply raises_only_when. unfold send_email_intent.
    apply raises_only_bind; [apply raises_only_workspace_ready |].
    intros ready. apply raises_only_total. apply total_if; [| apply total_ret].
    apply total_returns, total_handleSendEmail. }
  (* Reminder *)
  apply raises_only_or_next.
  { apply raises_only_when. apply raises_only_total.
    unfold reminder_intent. apply total_bind; [apply total_this |].
    intros b. apply total_if; [| apply total_ret].
    apply total_returns, total_handleReminder. }
  (* The three compositions *)
  apply raises_only_or_next.
  { apply raises_only_when, raises_only_total.
    apply total_returns, total_composeWithClaude. }
  apply raises_only_or_next.
  { apply raises_only_when, raises_only_total.
    apply total_returns, total_composeWithClaude. }
  apply raises_only_or_next.
  { apply raises_only_when, raises_only_total.
    apply total_returns, total_composeWithClaude. }
  (* The three readings of Google data *)
  apply raises_only_or_next.
  { apply raises_only_when. unfold read_intent.
    apply raises_only_bind; [apply raises_only_workspace_ready |].
    intros ready. apply raises_only_total. apply total_if; [| apply total_ret].
    apply total_returns, total_analyzeGoogleData. }
  apply raises_only_or_next.
  { apply raises_only_when. unfold read_intent.
    apply raises_only_bind; [apply raises_only_workspace_ready |].
    intros ready. apply raises_only_total. apply total_if; [| apply total_ret].
    apply total_returns, total_analyzeGoogleData. }
  apply raises_only_or_next.
  { apply raises_only_when. unfold read_intent.
    apply raises_only_bind; [apply raises_only_workspace_ready |].
    intros ready. apply raises_only_total. apply total_if; [| apply total_ret].
    apply total_returns, total_analyzeGoogleData. }
  (* Web search *)
  apply raises_only_or_next.
  { apply raises_only_when, raises_only_total.
    unfold web_search_intent. apply total_bind; [apply total_this |].
    intros b. apply total_if; [| apply total_ret].
    apply total_returns, total_thinkWithClaude. }
  (* Multi-step *)
  apply raises_only_or_next.
  { unfold multi_step_block.
    apply raises_only_bind; [apply raises_only_total, total_this |].
    intros b. apply raises_only_when. unfold multi_step_intent.
    apply raises_only_bind; [apply raises_only_total, total_this |].
    intros b'.
    apply raises_only_bind; [apply raises_only_perform; reflexivity |].
    intros result. apply raises_only_if;
      [apply raises_only_total, total_ret |].
    apply raises_only_if; [| apply raises_only_total, total_ret].
    unfold returns. apply raises_only_call_then; [reflexivity |].
    intros v. apply total_ret. }
  apply raises_only_total, total_classified.
Qed.

Lemma raises_only_think message context skills_arg :
  raises_only unguarded (think JSON_parse message context skills_arg).
Proof.
  unfold think.
  apply raises_only_bind; [apply raises_only_total, total_think_setup |].
  intros _.
  apply raises_only_bind; [apply raises_only_total, total_this |].
  intros b.
  apply raises_only_if; [apply raises_only_total, total_thinkWithClaude |].
  apply raises_only_if; [apply raises_only_total, total_thinkWithGemini |].
  apply raises_only_if.
  { apply raises_only_if; [| apply raises_only_total, total_ret].
    apply raises_only_perform. reflexivity. }
  apply raises_only_if.
  { apply raises_only_if; [| apply raises_only_total, total_ret].
    apply raises_only_call_then; [reflexivity |].
    intros v. apply total_ret. }
  apply raises_only_think_intents.
Qed.

End Raises.

(** X24 (what escapes [think]).  An exception leaves [think] only when
    one of the calls made outside every [try] threw it, and that call is
    then the last effect of the run: a call of the image skill, of the
    video skill, of the agent loop, of the planner or of the
    orchestrator, or the readiness test of the workspace.  A failure of
    a request to either backend or to the token endpoint, of the
    weather skill, of the scheduler, of the web search, of any other
    method of the workspace, of [JSON.parse] or of the set-up of the
    agent system never reaches the caller: it is turned into a returned
    text or into a fallback. *)
Theorem X24_exceptions_of_think :
  forall (JSON_parse : string -> outcome value) (w : world) (n : nat)
         (b : brain) (message : string) (context : list turn)
         (skills_arg : option skillset) (e : error) (b1 : brain)
         (t : list event),
    run_at w n (think JSON_parse message context skills_arg) b
    = ((Exn e, b1), t) ->
    exists pre c,
      t = (pre ++ [Called c (Throws e)])%list /\ unguarded c = true.
Proof.
  intros JSON_parse w n b message context skills_arg e b1 t H.
  exact (raises_only_think JSON_parse message context skills_arg
           w n b e b1 t H).
Qed.

(** The property in a world without network, for an instance holding
    the image skill: the set-up of the agent system fails and is
    swallowed, the upscale call fails and its error escapes. *)
Lemma X24_witness :
  exists pre c,
    snd (run_at Samples.offline 0
           (think (fun _ => Exn (new_Error "SyntaxError"))
                  "upscale this" [] (Some Examples.image_only))
           (constructor Examples.both_tokens Examples.date None))
    = (pre ++ [Called c (Throws Examples.network_down)])%list
    /\ unguarded c = true.
Proof.
  pose (parse := fun _ : string => @Exn value (new_Error "SyntaxError")).
  pose (b := constructor Examples.both_tokens Examples.date None).
  pose (R := run_at Samples.offline 0
               (think parse "upscale this" [] (Some Examples.image_only)) b).
  assert (R = ((Exn Examples.network_down, snd (fst R)), snd R)) as HR
    by (vm_compute; reflexivity).
  exact (X24_exceptions_of_think parse Samples.offline 0 b "upscale this"
           [] (Some Examples.image_only) _ _ _ HR).
Defined.

(** *** The agent system *)

(** X21 (the set-up of the agent system).  [initAgentLoop] never throws
    and makes at most four calls.  It does its work at most once: with
    an agent loop already held it has no effect and changes nothing.
    Starting without agents, the planner is held afterwards only if the
    agent loop is, and the orchestrator only if the planner is.  When
    the registry and the agent loop were built and the construction of
    the planner throws, the agent loop is held afterwards and neither
    planner nor orchestrator has been set; since the agent loop is then
    held, later calls have no effect and never build them. *)
Theorem X21_agent_system_setup :
  forall (w : world) (n : nat) (b : brain),
    let run := run_at w n initAgentLoop b in
    let b1 := snd (fst run) in
    fst (fst run) = Val tt
    /\ length (snd run) <= 4
    /\ skills b1 = skills b
    /\ (agentLoop b = true -> run = ((Val tt, b), []))
    /\ (agentLoop b = false -> planner b = false -> orchestrator b = false ->
        (planner b1 = true -> agentLoop b1 = true)
        /\ (orchestrator b1 = true -> planner b1 = true))
    /\ (forall registry loop e,
          agentLoop b = false ->
          answer w n (Invoke "tools" "registerAllTools" []) = Returns registry ->
          answer w (S n) (Invoke "AgentLoop" "new" [registry]) = Returns loop ->
          answer w (S (S n)) (Invoke "TaskPlanner" "new" [registry]) = Throws e ->
          agentLoop b1 = true /\ planner b1 = planner b
          /\ orchestrator b1 = orchestrator b).
Proof.
  intros w n b. cbv zeta. unfold initAgentLoop. run_steps.
  destruct (agentLoop b) eqn:Ha; run_steps.
  { cbn [fst snd length]. split; [reflexivity |]. split; [lia |].
    split; [reflexivity |]. split; [reflexivity |].
    split; intros; discriminate. }
  destruct (answer w n (Invoke "tools" "registerAllTools" []))
    as [registry | e0] eqn:E0; run_steps.
  2:{ cbn [fst snd length]. split; [reflexivity |]. split; [lia |].
      split; [reflexivity |]. split; [discriminate |].
      split; [intros _ Hp Ho; rewrite Hp, Ho; split; discriminate |].
      intros; discriminate. }
  destruct (answer w (S n) (Invoke "AgentLoop" "new" [registry]))
    as [a1 | e1] eqn:E1; run_steps.
  2:{ cbn [fst snd length]. split; [reflexivity |]. split; [lia |].
      split; [reflexivity |]. split; [discriminate |].
      split; [intros _ Hp Ho; rewrite Hp, Ho; split; discriminate |].
      intros registry' loop e _ Hr. injection Hr as <-.
      intros; congruence. }
  destruct (answer w (S (S n)) (Invoke "TaskPlanner" "new" [registry]))
    as [a2 | e2] eqn:E2; run_steps.
  2:{ cbn [fst snd length agentLoop planner orchestrator set_agents skills].
      split; [reflexivity |]. split; [lia |].
      split; [reflexivity |]. split; [discriminate |].
      split; [intros _ Hp Ho; rewrite Hp, Ho; split; discriminate |].
      intros; auto. }
  destruct (answer w (S (S (S n))) (Invoke "Orchestrator" "new" [registry]))
    as [a3 | e3] eqn:E3; run_steps.
  2:{ cbn [fst snd length agentLoop planner orchestrator set_agents skills].
      split; [reflexivity |]. split; [lia |].
      split; [reflexivity |]. split; [discriminate |].
      split; [intros _ Hp Ho; rewrite Ho; split; [reflexivity | discriminate] |].
      intros registry' loop e _ Hr. injection Hr as <-.
      intros; congruence. }
  destruct (get registry "size") as [size | e4]; run_steps;
    cbn [fst snd length agentLoop planner orchestrator set_agents skills];
    (split; [reflexivity |]); (split; [lia |]);
    (split; [reflexivity |]); (split; [discriminate |]);
    (split; [intros; split; reflexivity |]);
    intros registry' loop e _ Hr; injection Hr as <-;
    intros; congruence.
Qed.

Lemma plan_prefix_only message :
  Str.startsWith message "/plan " = true ->
  Str.startsWith message "/claude " = false
  /\ Str.startsWith message "/gemini " = false
  /\ Str.startsWith message "/agent " = false.
Proof.
  unfold Str.startsWith.
  destruct (Str.chars message) as [| c0 [| c1 l]];
    cbn [Str.chars list_ascii_of_string Str.prefix_chars];
    try discriminate.
  - rewrite andb_false_r. discriminate.
  - intros H. apply andb_prop in H. destruct H as [H0 H].
    apply andb_prop in H. destruct H as [H1 _].
    apply chr_eqb_eq in H1. subst c1. rewrite H0. auto.
Qed.

(** X22 (a planner that was not built).  For an instance that holds an
    agent loop but no planner, a message starting with "/plan " is
    answered with "Planner not initialized." without any call: the
    set-up of the agent system is not tried again, whatever skills are
    passed.  The instance still holds the agent loop and no planner
    afterwards, so every later "/plan " message is answered the same
    way. *)
Theorem X22_plan_without_planner :
  forall (JSON_parse : string -> outcome value) (w : world) (n : nat)
         (b : brain) (message : string) (context : list turn)
         (skills_arg : option skillset),
    agentLoop b = true ->
    planner b = false ->
    Str.startsWith message "/plan " = true ->
    exists b1,
      run_at w n (think JSON_parse message context skills_arg) b
      = ((Val (VStr "Planner not initialized."), b1), [])
      /\ agentLoop b1 = true /\ planner b1 = false.
Proof.
  intros JSON_parse w n b message context skills_arg Ha Hp Hm.
  destruct (plan_prefix_only message Hm) as (H1 & H2 & H3).
  unfold think. rewrite H1, H2, H3, Hm. unfold think_setup.
  destruct skills_arg as [s |]; run_steps;
    cbn [agentLoop planner set_skills set_contexts]; rewrite Ha; run_steps;
    cbn [agentLoop planner set_skills set_contexts]; rewrite Hp; run_steps;
    eexists; (split; [reflexivity |]);
    cbn [agentLoop planner set_skills set_contexts]; auto.
Qed.

(** The property after a set-up in which the construction of the
    planner failed: the instance holds the agent loop only, and
    "/plan the week" is answered with the fixed text. *)
Lemma X22_witness :
  let w := Samples.scripted [Returns (VObj [("size", VNum 3)]);
                             Returns (VObj [])] in
  let b := snd (fst (run_at w 0 initAgentLoop
                       (constructor Examples.both_tokens Examples.date None))) in
  fst (fst (run_at w 3 (think (fun _ => Exn (new_Error "SyntaxError"))
                              "/plan the week" [] None) b))
  = Val (VStr "Planner not initialized.").
Proof.
  intros w b.
  destruct (X22_plan_without_planner
              (fun _ => Exn (new_Error "SyntaxError")) w 3 b
              "/plan the week" [] None eq_refl eq_refl eq_refl)
    as (b1 & Hrun & _).
  rewrite Hrun. reflexivity.
Defined.

(** ** Further properties: the handlers of [think] *)

(** *** Reading Google data *)

(** The first statement of [_analyzeGoogleData]: the fetch. *)
Lemma analyze_fetch_run w n b message dataType :
  run_at w n
    (if Str.eqb dataType "email"
     then workspace "getRecentEmails" [VNum 10]
     else if Str.eqb dataType "calendar"
     then workspace "getTodayEvents" []
     else if Str.eqb dataType "drive"
     then workspace "searchFiles" [VStr (driveSearchTerm message)]
     else ret (VStr EmptyString)) b
  = match fetch_request dataType message with
    | None => ((Val (VStr EmptyString), b), [])
    | Some c =>
        if googleWorkspace (skills b) then
          ((match answer w n c with
            | Returns data => Val data
            | Throws e => Exn e
            end, b), [Called c (answer w n c)])
        else
          match c with
          | Invoke _ method _ =>
              ((Exn (type_error
                       ("Cannot read properties of undefined (reading '"
                        ++ method ++ "')")), b), [])
          | _ => ((Val (VStr EmptyString), b), [])
          end
    end.
Proof.
  unfold fetch_request, workspace.
  destruct (Str.eqb dataType "email");
    [run_steps; destruct (googleWorkspace (skills b)); run_steps;
     reflexivity |].
  destruct (Str.eqb dataType "calendar");
    [run_steps; destruct (googleWorkspace (skills b)); run_steps;
     reflexivity |].
  destruct (Str.eqb dataType "drive");
    [run_steps; destruct (googleWorkspace (skills b)); run_steps;
     reflexivity |].
  run_steps. reflexivity.
Qed.

(** The runs of [_analyzeGoogleData] from an instance holding the
    workspace. *)
Lemma analyzeGoogleData_run w n b message context dataType :
  googleWorkspace (skills b) = true ->
  run_at w n (_analyzeGoogleData message context dataType) b =
  match fetch_request dataType message with
  | None => ((Val (not_set_up dataType), b), [])
  | Some c =>
      match answer w n c with
      | Throws e =>
          ((Val (failed_to_get dataType e), b), [Called c (Throws e)])
      | Returns data =>
          if truthy data then
            match value_includes data "not configured" with
            | Exn e =>
                ((Val (failed_to_get dataType e), b),
                 [Called c (Returns data)])
            | Val true =>
                ((Val (not_set_up dataType), b), [Called c (Returns data)])
            | Val false =>
                let c2 := analysis_request b message context data in
                let r2 := answer w (S n) c2 in
                ((Val (match r2 with
                       | Returns response =>
                           match gemini_text response with
                           | Val text =>
                               if truthy text then text
                               else VStr "Could not analyze the data. Try asking differently."
                           | Exn e => failed_to_get dataType e
                           end
                       | Throws e => failed_to_get dataType e
                       end), b),
                 [Called c (Returns data); Called c2 r2])
            end
          else ((Val (not_set_up dataType), b), [Called c (Returns data)])
      end
  end.
Proof.
  intros Hg. unfold _analyzeGoogleData.
  rewrite run_at_try_catch, run_at_bind, analyze_fetch_run, Hg.
  destruct (fetch_request dataType message) as [c |].
  2:{ cbn [truthy Str.is_empty negb length Nat.add app]. run_steps.
      reflexivity. }
  destruct (answer w n c) as [data | e]; cbn [length Nat.add app];
    [| run_steps; reflexivity].
  destruct (truthy data); cbn [negb]; run_steps; [| reflexivity].
  destruct (value_includes data "not configured") as [[|] | e]; run_steps;
    try reflexivity.
  fold (analysis_request b message context data).
  destruct (answer w (S n) (analysis_request b message context data))
    as [response | e]; run_steps; [| reflexivity].
  destruct (gemini_text response) as [text | e]; run_steps; [| reflexivity].
  destruct (truthy text); run_steps; reflexivity.
Qed.

(** X15 (no data, no request).  [_analyzeGoogleData] never throws and
    never changes the instance.  For a kind of data other than email,
    calendar and drive it calls nothing and answers that Google is not
    set up.  For an instance holding the workspace it makes one fetch
    and at most one request to the fast backend after it, and nothing
    else; when the fetch returns nothing (a value that counts as false)
    or a text containing "not configured", the fast backend is not
    asked and the answer is "Google <kind> is not set up properly.";
    when the fetch throws, the answer is "Failed to get <kind>: "
    followed by the message of the error. *)
Theorem X15_no_data_no_request :
  forall (w : world) (n : nat) (b : brain) (message : string)
         (context : list turn) (dataType : string),
    let run := run_at w n (_analyzeGoogleData message context dataType) b in
    (exists v, fst (fst run) = Val v)
    /\ (fetch_request dataType message = None ->
        run = ((Val (not_set_up dataType), b), []))
    /\ (forall c,
          googleWorkspace (skills b) = true ->
          fetch_request dataType message = Some c ->
          snd (fst run) = b
          /\ (exists rest,
                 snd run = Called c (answer w n c) :: rest
                 /\ (rest = []
                     \/ exists c2 r2,
                          rest = [Called c2 r2]
                          /\ is_fast (Called c2 r2) = true))
          /\ (forall data,
                answer w n c = Returns data ->
                truthy data = false
                \/ value_includes data "not configured" = Val true ->
                run = ((Val (not_set_up dataType), b),
                       [Called c (Returns data)]))
          /\ (forall e,
                answer w n c = Throws e ->
                run = ((Val (failed_to_get dataType e), b),
                       [Called c (Throws e)]))).
Proof.
  intros w n b message context dataType. cbv zeta.
  split; [apply total_analyzeGoogleData |]. split.
  - intros Hnone. unfold _analyzeGoogleData.
    rewrite run_at_try_catch, run_at_bind, analyze_fetch_run, Hnone.
    cbn [truthy Str.is_empty negb length Nat.add app]. run_steps.
    reflexivity.
  - intros c Hg Hc.
    rewrite (analyzeGoogleData_run w n b message context dataType Hg), Hc.
    destruct (answer w n c) as [data | e].
    + destruct (truthy data) eqn:Et.
      * destruct (value_includes data "not configured") as [[|] | e] eqn:Ei;
          cbv zeta; cbn [fst snd].
        -- split; [reflexivity |]. split; [exists []; auto |].
           split; [| intros e; discriminate].
           intros data' Hd _. injection Hd as <-. reflexivity.
        -- split; [reflexivity |].
           split; [eexists; split; [reflexivity |]; right; eauto |].
           split; [| intros e; discriminate].
           intros data' Hd [Hf | Hi]; injection Hd as <-; congruence.
        -- split; [reflexivity |]. split; [exists []; auto |].
           split; [| intros e'; discriminate].
           intros data' Hd [Hf | Hi]; injection Hd as <-; congruence.
      * cbn [fst snd]. split; [reflexivity |]. split; [exists []; auto |].
        split; [| intros e; discriminate].
        intros data' Hd _. injection Hd as <-. reflexivity.
    + cbn [fst snd]. split; [reflexivity |]. split; [exists []; auto |].
      split; [intros data; discriminate |].
      intros e' He. injection He as <-. reflexivity.
Qed.

(** *** Reminders *)

Section Reminder.

Variable JSON_parse : string -> outcome value.

(** The runs of [_handleReminder], by the text the fast backend
    returned and by what [JSON.parse] makes of its region. *)
Lemma handleReminder_run w n b message :
  let c := reminder_request b message in
  let r := answer w n c in
  let run := run_at w n (_handleReminder JSON_parse message) b in
  match Email.raw_text r with
  | None =>
      exists text, run = ((Val (VStr ("Failed to set reminder: " ++ text)), b),
                          [Called c r])
  | Some raw =>
      match Regex.exec Patterns.json_region raw with
      | None => run = ((Val unparsed_reminder, b), [Called c r])
      | Some f =>
          match JSON_parse (Regex.matched raw f) with
          | Exn e =>
              run = ((Val (VStr ("Failed to set reminder: " ++ JS.message e)),
                      b), [Called c r])
          | Val parsed =>
              if nullish parsed then
                exists text,
                  run = ((Val (VStr ("Failed to set reminder: " ++ text)), b),
                         [Called c r])
              else if truthy (opt_get parsed "time")
                      && truthy (opt_get parsed "message")
                      && scheduler (skills b)
                      && truthy (scheduler_bot (skills b))
              then
                let c2 := add_reminder b parsed in
                run = ((Val (match answer w (S n) c2 with
                             | Returns v => v
                             | Throws e =>
                                 VStr ("Failed to set reminder: "
                                       ++ JS.message e)
                             end), b),
                       [Called c r; Called c2 (answer w (S n) c2)])
              else run = ((Val unparsed_reminder, b), [Called c r])
          end
      end
  end.
Proof.
  intros c r run. subst run. unfold _handleReminder, Email.raw_text.
  run_steps. fold (reminder_request b message). fold c. fold r.
  destruct r as [response | e]; run_steps; [| eexists; reflexivity].
  destruct (gemini_text response) as [text | e]; run_steps;
    [| eexists; reflexivity].
  destruct (or_else text (VStr EmptyString)) as [| | x | x | raw | x | x];
    cbn [value_match]; run_steps; try (eexists; reflexivity).
  destruct (Regex.exec Patterns.json_region raw) as [f |]; run_steps;
    [| reflexivity].
  destruct (JSON_parse (Regex.matched raw f)) as [parsed | e]; run_steps;
    [| reflexivity].
  destruct (nullish parsed) eqn:En.
  - destruct (get_nullish parsed "time" En) as [e ->]. run_steps.
    eexists; reflexivity.
  - rewrite !(get_not_nullish parsed) by assumption. run_steps.
    destruct (truthy (opt_get parsed "time")); cbn [andb];
      [| run_steps; reflexivity].
    destruct (truthy (opt_get parsed "message")); cbn [andb];
      [| run_steps; reflexivity].
    destruct (scheduler (skills b)); cbn [andb]; [| run_steps; reflexivity].
    destruct (truthy (scheduler_bot (skills b))); [| run_steps; reflexivity].
    cbv zeta. fold (add_reminder b parsed). run_steps.
    destruct (answer w (S n) (add_reminder b parsed)); run_steps;
      reflexivity.
Qed.

End Reminder.


(** *** Sending an email *)

(** X18 (what is sent, and what is confirmed).  When the text of the
    fast backend has a JSON region, [JSON.parse] reads an object with a
    recipient from it, the workspace is held and [sendEmail] returns,
    [_handleSendEmail] makes exactly the parse request and the one call
    of [sendEmail].  The call carries the parsed recipient, the parsed
    subject or "(no subject)" when there is none, and the parsed body or
    the original message when there is none.  The confirmation names
    the recipient and the subject as it was parsed, not as it was sent
    (for a missing subject it reads "Subject: undefined"), and ends with
    the result of the call when that is a text. *)
Theorem X18_email_sent_and_confirmed :
  forall (JSON_parse : string -> outcome value) (w : world) (n : nat)
         (b : brain) (message : string) (context : list turn)
         (raw : string) (f : Regex.found) (parsed result : value),
    Email.raw_text (answer w n (Email.parse_request b message)) = Some raw ->
    Regex.exec Patterns.json_region raw = Some f ->
    JSON_parse (Regex.matched raw f) = Val parsed ->
    truthy (opt_get parsed "to") = true ->
    googleWorkspace (skills b) = true ->
    answer w (S n) (Email.send_request message parsed) = Returns result ->
    run_at w n (_handleSendEmail JSON_parse message context) b
    = ((Val (VStr ("Email sent to **" ++ to_string (opt_get parsed "to")
                   ++ "**!" ++ nl
                   ++ "Subject: " ++ to_string (opt_get parsed "subject")
                   ++ nl ++ nl ++ string_or_empty result)), b),
       [Called (Email.parse_request b message)
               (answer w n (Email.parse_request b message));
        Called (Email.send_request message parsed) (Returns result)])
    /\ Email.send_request message parsed
       = Invoke "googleWorkspace" "sendEmail"
           [opt_get parsed "to";
            (if truthy (opt_get parsed "subject")
             then opt_get parsed "subject" else VStr "(no subject)");
            (if truthy (opt_get parsed "body")
             then opt_get parsed "body" else VStr message)].
Proof.
  intros JSON_parse w n b message context raw f parsed result
         Hraw Hf Hp Hto Hg Hs.
  split; [| reflexivity].
  assert (nullish parsed = false) as Hn
    by (destruct parsed; try reflexivity; discriminate Hto).
  unfold Email.raw_text in Hraw. unfold _handleSendEmail.
  run_steps. fold (Email.parse_request b message).
  destruct (answer w n (Email.parse_request b message)) as [response | e];
    [| discriminate].
  run_steps.
  destruct (gemini_text response) as [text | e]; [| discriminate].
  run_steps.
  destruct (or_else text (VStr EmptyString)); try discriminate.
  injection Hraw as ->. cbn [value_match]. run_steps. rewrite Hf. run_steps.
  rewrite Hp. run_steps.
  rewrite !(get_not_nullish parsed) by assumption. run_steps.
  rewrite Hto. cbn [negb]. unfold workspace. run_steps. rewrite Hg. run_steps.
  fold (Email.send_request message parsed). rewrite Hs. run_steps.
  reflexivity.
Qed.

(** The property for a reply that names a recipient only: the subject
    sent is "(no subject)", the body sent is the message, and the
    confirmation reads "Subject: undefined". *)
Lemma X18_witness :
  let parse := fun _ : string => Val (VObj [("to", VStr "a@b.c")]) in
  let b := constructor Examples.no_tokens_config Examples.date
             (Some Examples.workspace_only) in
  let w := Examples.world_of 3600 (Throws Examples.network_down)
             (Returns (Examples.gemini_response (VStr "{}")))
             (Throws Examples.network_down) (Returns (VStr "ok")) in
  fst (fst (run_at w 0 (_handleSendEmail parse "send an email to a@b.c" []) b))
  = Val (VStr ("Email sent to **a@b.c**!" ++ nl ++ "Subject: undefined"
               ++ nl ++ nl ++ "ok")).
Proof.
  intros parse b w.
  destruct (X18_email_sent_and_confirmed parse w 0 b "send an email to a@b.c"
              [] "{}" _ (VObj [("to", VStr "a@b.c")]) (VStr "ok")
              eq_refl eq_refl eq_refl eq_refl eq_refl eq_refl) as [H _].
  rewrite H. reflexivity.
Defined.

(** *** Composition *)

Lemma quiet_context_fetch wanted method args title contextData :
  quiet (context_fetch wanted method args title contextData).
Proof. unfold context_fetch. auto 8 with quiet. Qed.

Lemma quiet_gather_context message : quiet (gather_context message).
Proof.
  unfold gather_context. cbv zeta.
  apply quiet_bind; [apply quiet_workspace_ready |].
  intros ready. apply quiet_if; [| apply quiet_ret].
  apply quiet_bind; [apply quiet_context_fetch |]. intros d1.
  apply quiet_bind; [apply quiet_context_fetch |]. intros d2.
  apply quiet_context_fetch.
Qed.

Lemma run_at_bind_assoc {A B C : Type} w n (m : M A) (f : A -> M B)
    (g : B -> M C) b :
  run_at w n (bind m (fun a => bind (f a) g)) b
  = run_at w n (bind (bind m f) g) b.
Proof.
  rewrite !run_at_bind.
  destruct (run_at w n m b) as [[[a | e] b1] t1]; [| reflexivity].
  rewrite run_at_bind.
  destruct (run_at w (length t1 + n) (f a) b1) as [[[x | e] b2] t2];
    [| reflexivity].
  rewrite length_app.
  replace (length t1 + length t2 + n) with (length t2 + (length t1 + n))
    by lia.
  destruct (run_at w (length t2 + (length t1 + n)) (g x) b2) as [r t3].
  rewrite app_assoc. reflexivity.
Qed.



(** *** The prefetch *)

Lemma clean_app t1 t2 : clean t1 -> clean t2 -> clean (t1 ++ t2).
Proof. intros H1 H2. apply Forall_app. auto. Qed.

Lemma run_at_try_steps_cons w n step steps sections b :
  run_at w n (try_steps (step :: steps) sections) b =
  match run_at w n (step sections) b with
  | ((Val sections', b1), t1) =>
      let (r, t2) := run_at w (length t1 + n) (try_steps steps sections') b1 in
      (r, (t1 ++ t2)%list)
  | ((Exn _, b1), t1) => ((Val sections, b1), t1)
  end.
Proof.
  unfold run_at. cbn [try_steps]. rewrite interp_pbind.
  destruct (interp w n (step sections b)) as [[[s1 | e] b1] t1]; cbn.
  - reflexivity.
  - rewrite app_nil_r. reflexivity.
Qed.

(** A step that gathers nothing. *)
Lemma step_facts_skip w n b sections :
  step_facts sections b (run_at w n (ret sections) b).
Proof.
  rewrite run_at_ret. unfold step_facts. cbn [fst snd filter length].
  split; [reflexivity |]. split; [reflexivity |].
  split; [constructor |]. left. auto.
Qed.

(** The fetch of a step and the section it pushes. *)
Lemma step_facts_fetch w n b method args title sections :
  googleWorkspace (skills b) = true ->
  (forall r, is_fetch (Called (Invoke "googleWorkspace" method args) r) = true) ->
  step_facts sections b
    (run_at w n
       (bind (workspace method args)
             (fun x => ret (push sections (title ++ nl ++ to_string x)))) b).
Proof.
  intros Hg Hf. unfold workspace. run_steps. rewrite Hg. run_steps.
  pose proof (Hf (answer w n (Invoke "googleWorkspace" method args))) as Hf1.
  assert (is_search (Called (Invoke "googleWorkspace" method args)
                            (answer w n (Invoke "googleWorkspace" method args)))
          = false) as Hs by reflexivity.
  destruct (answer w n (Invoke "googleWorkspace" method args)) as [x | e];
    run_steps; unfold step_facts; cbn [fst snd filter]; rewrite Hf1, Hs;
    cbn [length].
  - split; [reflexivity |]. split; [reflexivity |].
    split; [repeat constructor |]. right. split; [| reflexivity].
    unfold push. intros H. symmetry in H. revert H. apply app_cons_not_nil.
  - split; [reflexivity |]. split; [reflexivity |].
    exists [], (Invoke "googleWorkspace" method args).
    split; [reflexivity |]. split; [constructor | lia].
Qed.

(** A step guarded by its pattern and by the readiness of the
    workspace. *)
Lemma step_facts_guarded w n b (wanted : bool) sections
    (body : M (list string)) :
  (forall k, googleWorkspace (skills b) = true ->
             step_facts sections b (run_at w k body b)) ->
  step_facts sections b
    (run_at w n
       (if wanted then
          bind workspace_ready (fun ready =>
            if ready then body else ret sections)
        else ret sections) b).
Proof.
  intros Hbody. destruct wanted; [| apply step_facts_skip].
  unfold workspace_ready. run_steps.
  destruct (googleWorkspace (skills b)) eqn:Hg; run_steps.
  2:{ unfold step_facts. cbn [fst snd filter length].
      split; [reflexivity |]. split; [reflexivity |].
      split; [constructor |]. left. auto. }
  destruct (answer w n (Invoke "googleWorkspace" "isReady" [])) as [r | e];
    run_steps.
  2:{ unfold step_facts. cbn [fst snd filter is_search is_fetch is_invoke
                               String.eqb Ascii.eqb Bool.eqb andb orb length].
      split; [reflexivity |]. split; [reflexivity |].
      exists [], (Invoke "googleWorkspace" "isReady" []).
      split; [reflexivity |]. split; [constructor | lia]. }
  destruct (truthy r).
  2:{ run_steps. unfold step_facts.
      cbn [fst snd filter is_search is_fetch is_invoke
           String.eqb Ascii.eqb Bool.eqb andb orb length].
      split; [reflexivity |]. split; [reflexivity |].
      split; [repeat constructor |]. left. auto. }
  pose proof (Hbody (S n) eq_refl) as Hb. unfold step_facts in Hb |- *.
  destruct (run_at w (S n) body b) as [[o b1] t1].
  cbn [fst snd] in Hb. destruct Hb as (Hb1 & Hs & Ho).
  destruct o as [s' | e]; cbn [fst snd app filter is_search is_fetch
                                is_invoke String.eqb Ascii.eqb Bool.eqb
                                andb orb].
  - split; [assumption |]. split; [assumption |].
    destruct Ho as [Hc Hcases].
    split; [constructor; [exact I | assumption] | assumption].
  - split; [assumption |]. split; [assumption |].
    destruct Ho as (pre & c & Ht & Hc & Hn).
    exists (Called (Invoke "googleWorkspace" "isReady" []) (Returns r) :: pre), c.
    rewrite Ht. split; [reflexivity |].
    split; [constructor; [exact I | assumption] |].
    rewrite <- Ht. assumption.
Qed.

Lemma emails_step_facts w n b lower sections :
  step_facts sections b (run_at w n (prefetch_emails lower sections) b).
Proof.
  unfold prefetch_emails. apply step_facts_guarded.
  intros k Hg. apply step_facts_fetch; [assumption | reflexivity].
Qed.

Lemma events_step_facts w n b lower sections :
  step_facts sections b (run_at w n (prefetch_events lower sections) b).
Proof.
  unfold prefetch_events. apply step_facts_guarded.
  intros k Hg. apply step_facts_fetch; [assumption | reflexivity].
Qed.

Lemma files_step_facts w n b message lower sections :
  step_facts sections b (run_at w n (prefetch_files message lower sections) b).
Proof.
  unfold prefetch_files. apply step_facts_guarded.
  intros k Hg. cbv zeta.
  destruct (1 <? String.length (prefetch_term message))%nat;
    [| apply step_facts_skip].
  apply step_facts_fetch; [assumption | reflexivity].
Qed.

(** The web search of the prefetch: it is made only when no section
    was gathered. *)
Lemma web_step_run w n b message lower sections :
  let run := run_at w n (prefetch_web message lower sections) b in
  snd (fst run) = b
  /\ count is_fetch (snd run) = 0
  /\ count is_search (snd run) <= 1
  /\ (sections <> [] -> snd run = [])
  /\ (clean (snd run)
      \/ exists pre c e,
           snd run = (pre ++ [Called c (Throws e)])%list /\ clean pre).
Proof.
  cbv zeta. unfold prefetch_web.
  destruct (Regex.test Patterns.prefetch_web lower); cbn [andb].
  2:{ rewrite run_at_ret. cbn. repeat split; try lia.
      left. constructor. }
  destruct sections as [| s l]; cbn [length Nat.eqb].
  2:{ rewrite run_at_ret. cbn. repeat split; try lia.
      left. constructor. }
  run_steps. destruct (braveSearch (skills b)); run_steps.
  2:{ cbn. repeat split; try lia; try congruence. left. constructor. }
  match goal with
  | |- context [answer w n ?c] => destruct (answer w n c) as [x | e]
  end; run_steps; cbn [fst snd]; (split; [reflexivity |]);
    (split; [reflexivity |]); (split; [cbn; lia |]);
    (split; [congruence |]).
  - left. repeat constructor.
  - right. eexists [], _, e. split; [reflexivity | constructor].
Qed.

(** X14 (the prefetch).  [prefetchData] never throws, never changes the
    instance and never reaches the powerful backend.  It makes at most
    three fetches from the workspace and at most one web search, and
    never both: the web is searched only when nothing was gathered from
    the workspace.  Only its last call can have thrown: a call that
    throws ends the prefetch, and what was gathered before it is
    kept. *)
Theorem X14_prefetch_is_exclusive :
  forall (w : world) (n : nat) (b : brain) (message : string),
    let run := run_at w n (prefetchData message) b in
    (exists data, fst (fst run) = Val data)
    /\ snd (fst run) = b
    /\ count is_powerful (snd run) = 0
    /\ count is_fetch (snd run) <= 3
    /\ count is_search (snd run) <= 1
    /\ (count is_search (snd run) = 0 \/ count is_fetch (snd run) = 0)
    /\ (clean (snd run)
        \/ exists pre c e,
             snd run = (pre ++ [Called c (Throws e)])%list /\ clean pre).
Proof.
  intros w n b message. cbv zeta.
  destruct (prefetchData_run message w n b) as (data & t & Hrun & Hq).
  rewrite Hrun. cbn [fst snd].
  split; [eauto |]. split; [reflexivity |].
  split; [apply count_none; assumption |].
  clear Hq. revert Hrun. unfold prefetchData. rewrite run_at_bind.
  set (lower := Str.toLowerCase message).
  rewrite run_at_try_steps_cons.
  pose proof (emails_step_facts w n b lower []) as H1.
  unfold step_facts in H1.
  destruct (run_at w n (prefetch_emails lower [] ) b) as [[o1 b1] t1].
  cbn [fst snd] in H1. destruct H1 as (-> & Hs1 & Ho1).
  fold (count is_search t1) in Hs1. fold (count is_fetch t1) in Ho1.
  destruct o1 as [s1 | e1].
  2:{ run_steps. intros H. injection H as _ <-. rewrite app_nil_r.
      destruct Ho1 as (pre & c & Ht & Hc & Hn).
      split; [lia |]. split; [lia |]. split; [left; assumption |].
      right. exists pre, c, e1. auto. }
  destruct Ho1 as [Hc1 Hf1].
  rewrite run_at_try_steps_cons.
  pose proof (events_step_facts w (length t1 + n) b lower s1) as H2.
  unfold step_facts in H2.
  destruct (run_at w (length t1 + n) (prefetch_events lower s1) b)
    as [[o2 b2] t2].
  cbn [fst snd] in H2. destruct H2 as (-> & Hs2 & Ho2).
  fold (count is_search t2) in Hs2. fold (count is_fetch t2) in Ho2.
  destruct o2 as [s2 | e2].
  2:{ run_steps. intros H. injection H as _ <-. rewrite app_nil_r.
      destruct Ho2 as (pre & c & Ht & Hc & Hn).
      rewrite !count_app.
      split; [destruct Hf1 as [[_ ?] | [_ ?]]; lia |].
      split; [lia |]. split; [left; lia |].
      right. exists (t1 ++ pre)%list, c, e2. rewrite Ht, app_assoc.
      split; [reflexivity | apply clean_app; assumption]. }
  destruct Ho2 as [Hc2 Hf2].
  rewrite run_at_try_steps_cons.
  pose proof (files_step_facts w (length t2 + (length t1 + n)) b message
                lower s2) as H3.
  unfold step_facts in H3.
  destruct (run_at w (length t2 + (length t1 + n))
              (prefetch_files message lower s2) b) as [[o3 b3] t3].
  cbn [fst snd] in H3. destruct H3 as (-> & Hs3 & Ho3).
  fold (count is_search t3) in Hs3. fold (count is_fetch t3) in Ho3.
  destruct o3 as [s3 | e3].
  2:{ run_steps. intros H. injection H as _ <-. rewrite app_nil_r.
      destruct Ho3 as (pre & c & Ht & Hc & Hn).
      rewrite !count_app.
      split; [destruct Hf1 as [[_ ?] | [_ ?]];
              destruct Hf2 as [[_ ?] | [_ ?]]; lia |].
      split; [lia |]. split; [left; lia |].
      right. exists (t1 ++ t2 ++ pre)%list, c, e3.
      rewrite Ht, <- !app_assoc.
      split; [reflexivity |]. repeat apply clean_app; assumption. }
  destruct Ho3 as [Hc3 Hf3].
  rewrite run_at_try_steps_cons.
  pose proof (web_step_run w (length t3 + (length t2 + (length t1 + n))) b
                message lower s3) as H4.
  cbv zeta in H4.
  destruct (run_at w (length t3 + (length t2 + (length t1 + n)))
              (prefetch_web message lower s3) b) as [[o4 b4] t4].
  cbn [fst snd] in H4. destruct H4 as (-> & Hf4 & Hs4 & He4 & Hc4).
  assert (count is_search (t1 ++ t2 ++ t3 ++ t4) = 0
          \/ count is_fetch (t1 ++ t2 ++ t3 ++ t4) = 0) as Hex.
  { rewrite !count_app.
    destruct Hf3 as [[-> F3] | [N3 F3]].
    - destruct Hf2 as [[-> F2] | [N2 F2]].
      + destruct Hf1 as [[-> F1] | [N1 F1]]; [right; lia |].
        rewrite (He4 N1). cbn. left. lia.
      + rewrite (He4 N2). cbn. left. lia.
    - rewrite (He4 N3). cbn. left. lia. }
  assert (clean (t1 ++ t2 ++ t3 ++ t4)
          \/ exists pre c e,
               (t1 ++ t2 ++ t3 ++ t4 = pre ++ [Called c (Throws e)])%list
               /\ clean pre) as Hcl.
  { destruct Hc4 as [Hc4 | (pre & c & e & Ht & Hc)].
    - left. repeat apply clean_app; assumption.
    - right. exists (t1 ++ t2 ++ t3 ++ pre)%list, c, e.
      rewrite Ht, <- !app_assoc.
      split; [reflexivity |]. repeat apply clean_app; assumption. }
  assert (count is_fetch (t1 ++ t2 ++ t3 ++ t4) <= 3
          /\ count is_search (t1 ++ t2 ++ t3 ++ t4) <= 1) as [Hn3 Hn1].
  { rewrite !count_app.
    destruct Hf1 as [[_ ?] | [_ ?]]; destruct Hf2 as [[_ ?] | [_ ?]];
      destruct Hf3 as [[_ ?] | [_ ?]]; lia. }
  destruct o4 as [s4 | e4].
  - cbn [try_steps]. rewrite run_at_ret. run_steps.
    intros H. injection H as _ <-. rewrite ?app_nil_r, <- ?app_assoc.
    auto.
  - run_steps. intros H. injection H as _ <-.
    rewrite ?app_nil_r, <- ?app_assoc. auto.
Qed.

(** *** The bridge *)

(** X13 (a failing bridge).  For an instance with a bridge, the prompt of
    [thinkWithClaude] asks the bridge for its tool descriptions after
    the prefetch and before anything is asked of the powerful backend.
    When that call throws, the powerful backend is given up for this
    message: no token is checked or refreshed and no request is sent;
    the fallback answers with the prefetched data, and
    [thinkWithClaude] returns. *)
Theorem X13_failing_bridge :
  forall (w : world) (n : nat) (b : brain) (message : string)
         (context : list turn) (data : string) (t1 : list event)
         (e : error),
    mcpBridge b = true ->
    run_at w n (prefetchData message) b = ((Val data, b), t1) ->
    answer w (length t1 + n) (Invoke "mcpBridge" "getToolDescriptions" [])
    = Throws e ->
    run_at w n (thinkWithClaude message context) b
    = (fst (run_at w (S (length t1 + n))
                   (_fallbackToGemini message context (VStr data)) b),
       (t1 ++ Called (Invoke "mcpBridge" "getToolDescriptions" []) (Throws e)
           :: snd (run_at w (S (length t1 + n))
                          (_fallbackToGemini message context (VStr data)) b))%list)
    /\ count is_powerful
             (snd (run_at w n (thinkWithClaude message context) b)) = 0
    /\ exists v,
         fst (fst (run_at w n (thinkWithClaude message context) b)) = Val v.
Proof.
  intros w n b message context data t1 e Hb Hp Ha.
  assert (run_at w (length t1 + n) (askOpenAI message context (VStr data)) b
          = ((Exn e, b),
             [Called (Invoke "mcpBridge" "getToolDescriptions" [])
                     (Throws e)])) as Hask.
  { unfold askOpenAI. run_steps. rewrite Hb. run_steps. rewrite Ha.
    run_steps. reflexivity. }
  assert (run_at w n (thinkWithClaude message context) b
          = (fst (run_at w (S (length t1 + n))
                         (_fallbackToGemini message context (VStr data)) b),
             (t1 ++ Called (Invoke "mcpBridge" "getToolDescriptions" [])
                           (Throws e)
                 :: snd (run_at w (S (length t1 + n))
                                (_fallbackToGemini message context
                                                   (VStr data)) b))%list))
    as Hrun.
  { destruct (thinkWithClaude_run w n b message context)
      as (data' & t1' & Hp' & _ & Hrun).
    rewrite Hp in Hp'. injection Hp' as <- <-.
    rewrite Hrun, Hask. cbn [succeeded length Nat.add].
    destruct (run_at w (S (length t1 + n))
                (_fallbackToGemini message context (VStr data)) b)
      as [r3 t3]. reflexivity. }
  split; [exact Hrun |]. rewrite Hrun. cbn [fst snd]. split.
  - destruct (prefetchData_run message w n b) as (d & t & Hp' & Hq).
    rewrite Hp in Hp'. injection Hp' as <- <-.
    destruct (quiet_fallbackToGemini message context (VStr data) w
                (S (length t1 + n)) b) as [_ Hf].
    rewrite count_app, (count_none _ _ Hq).
    change (Called (Invoke "mcpBridge" "getToolDescriptions" []) (Throws e)
            :: ?x)%list
      with ([Called (Invoke "mcpBridge" "getToolDescriptions" []) (Throws e)]
            ++ x)%list.
    rewrite count_app, (count_none _ _ Hf). reflexivity.
  - apply total_fallbackToGemini.
Qed.

(** The property in a world without network, for an instance with a
    bridge: the bridge fails, and the answer is the text of the failed
    plain chat. *)
Lemma X13_witness :
  let b := set_mcpBridge true
             (constructor Examples.both_tokens Examples.date None) in
  fst (fst (run_at Samples.offline 0 (thinkWithClaude "hello" []) b))
  = Val (VStr "Error: network down").
Proof.
  intros b.
  destruct (X13_failing_bridge Samples.offline 0 b "hello" [] EmptyString []
              Examples.network_down eq_refl eq_refl eq_refl) as [H _].
  rewrite H. reflexivity.
Defined.

(** ** Further properties: texts and patterns *)

(** *** [trim] *)

Lemma drop_space_fixed c l :
  Chr.is_space c = false -> Str.drop_space (c :: l) = c :: l.
Proof. intros H. cbn. rewrite H. reflexivity. Qed.

Lemma drop_space_idem l : Str.drop_space (Str.drop_space l) = Str.drop_space l.
Proof.
  induction l as [| c l IH]; [reflexivity |].
  cbn [Str.drop_space]. destruct (Chr.is_space c) eqn:E; [assumption |].
  apply drop_space_fixed. assumption.
Qed.

Lemma drop_space_snoc l c :
  Chr.is_space c = false ->
  Str.drop_space (l ++ [c]) = (Str.drop_space l ++ [c])%list.
Proof.
  intros H. induction l as [| x l IH]; cbn [app Str.drop_space].
  - rewrite H. reflexivity.
  - destruct (Chr.is_space x); [assumption | reflexivity].
Qed.

Lemma trim_chars_idem l : Str.trim_chars (Str.trim_chars l) = Str.trim_chars l.
Proof.
  unfold Str.trim_chars.
  destruct (Str.drop_space l) as [| c l1] eqn:E1; [reflexivity |].
  assert (Chr.is_space c = false) as Hc.
  { clear - E1. induction l as [| x l IH]; [discriminate |].
    cbn [Str.drop_space] in E1. destruct (Chr.is_space x) eqn:Ex.
    - apply IH. assumption.
    - injection E1 as <- _. assumption. }
  cbn [rev]. rewrite (drop_space_snoc _ _ Hc).
  rewrite rev_app_distr. cbn [rev app].
  rewrite (drop_space_fixed _ _ Hc).
  change (c :: rev (Str.drop_space (rev l1)))
    with (rev [c] ++ rev (Str.drop_space (rev l1)))%list.
  rewrite <- rev_app_distr, rev_involutive.
  rewrite <- (drop_space_snoc _ _ Hc), drop_space_idem.
  rewrite (drop_space_snoc _ _ Hc), rev_app_distr. reflexivity.
Qed.

Lemma trim_idem s : Str.trim (Str.trim s) = Str.trim s.
Proof.
  unfold Str.trim. rewrite chars_of_chars, trim_chars_idem. reflexivity.
Qed.

Lemma drop_space_keeps (P : ascii -> Prop) l :
  Forall P l -> Forall P (Str.drop_space l).
Proof.
  induction 1 as [| c l Hc Hl IH]; [constructor |].
  cbn [Str.drop_space]. destruct (Chr.is_space c); [assumption |].
  constructor; assumption.
Qed.

Lemma trim_chars_keeps (P : ascii -> Prop) l :
  Forall P l -> Forall P (Str.trim_chars l).
Proof.
  intros H. unfold Str.trim_chars.
  apply Forall_rev, drop_space_keeps, Forall_rev, drop_space_keeps.
  assumption.
Qed.

(** *** Replacing the characters of a class *)

(** The search finds the first character of the class. *)
Lemma search_class (items : list Regex.item) l :
  forall p pv,
    match Regex.search_from
            {| Regex.expr := Regex.Class false items; Regex.icase := false |}
            p pv l with
    | None => Forall (fun x => Regex.items_have false items x = false) l
    | Some f =>
        exists pre x post,
          l = (pre ++ x :: post)%list
          /\ Forall (fun y => Regex.items_have false items y = false) pre
          /\ Regex.items_have false items x = true
          /\ Regex.start f = p + length pre
          /\ Regex.stop f = S (Regex.start f)
          /\ Regex.rest (Regex.final f) = post
    end.
Proof.
  induction l as [| x xs IH]; intros p pv.
  - cbn. constructor.
  - cbn [Regex.search_from Regex.expr Regex.icase Regex.run Regex.one
         Regex.rest xorb].
    destruct (Regex.items_have false items x) eqn:Ex.
    + exists [], x, xs. cbn. repeat split; auto.
    + specialize (IH (S p) (Some x)).
      destruct (Regex.search_from _ (S p) (Some x) xs) as [f |].
      * destruct IH as (pre & y & post & -> & Hpre & Hy & Hs & Hst & Hr).
        exists (x :: pre), y, post. cbn [app length].
        repeat split; auto. lia.
      * constructor; assumption.
Qed.

Lemma filter_outside (inside : ascii -> bool) l :
  Forall (fun x => inside x = false) l ->
  filter (fun x => negb (inside x)) l = l.
Proof.
  induction 1 as [| x l Hx _ IH]; [reflexivity |].
  cbn [filter]. rewrite Hx. cbn [negb]. congruence.
Qed.

(** Replacing every match by nothing removes the characters of the
    class and keeps the others. *)
Lemma replace_class (items : list Regex.item) fuel :
  forall l p pv,
    length l < fuel ->
    Regex.replace_from fuel
      {| Regex.expr := Regex.Class false items; Regex.icase := false |}
      [] p pv l
    = filter (fun x => negb (Regex.items_have false items x)) l.
Proof.
  induction fuel as [| fuel IH]; intros l p pv Hlen; [lia |].
  cbn [Regex.replace_from].
  pose proof (search_class items l p pv) as Hs.
  destruct (Regex.search_from _ p pv l) as [f |].
  - destruct Hs as (pre & x & post & -> & Hpre & Hx & Hst & Hsp & Hr).
    rewrite Hsp, Hst.
    replace (S (p + length pre) =? p + length pre)%nat with false
      by (symmetry; apply Nat.eqb_neq; lia).
    replace (p + length pre - p) with (length pre) by lia.
    rewrite firstn_app, firstn_all, Nat.sub_diag. cbn [firstn app].
    rewrite app_nil_r, Hr, filter_app,
      (filter_outside (Regex.items_have false items) pre Hpre).
    cbn [filter]. rewrite Hx. cbn [negb]. f_equal.
    apply IH. rewrite length_app in Hlen. cbn [length] in Hlen. lia.
  - symmetry. apply filter_outside. assumption.
Qed.

Lemma replace_all_class (items : list Regex.item) s :
  Str.chars
    (Regex.replace_all
       {| Regex.expr := Regex.Class false items; Regex.icase := false |}
       EmptyString s)
  = filter (fun x => negb (Regex.items_have false items x)) (Str.chars s).
Proof.
  unfold Regex.replace_all. rewrite chars_of_chars.
  change (Str.chars EmptyString) with (@nil ascii).
  apply replace_class. rewrite length_chars. lia.
Qed.

(** *** The search term of the drive branch *)

(** The characters [?], [!], [.] and [,]. *)
Lemma punctuation_removed s :
  Forall (fun c => c <> "?"%char /\ c <> "!"%char /\ c <> "."%char
                   /\ c <> ","%char)
         (Str.chars (Regex.replace_all Patterns.punctuation EmptyString s)).
Proof.
  unfold Patterns.punctuation, Patterns.cs.
  rewrite replace_all_class. apply Forall_forall. intros c Hc.
  apply filter_In in Hc. destruct Hc as [_ Hc].
  apply negb_true_iff in Hc.
  cbn [Regex.items_have existsb Regex.item_has andb orb] in Hc.
  rewrite !orb_false_r in Hc.
  apply orb_false_elim in Hc. destruct Hc as [H1 Hc].
  apply orb_false_elim in Hc. destruct Hc as [H2 Hc].
  apply orb_false_elim in Hc. destruct Hc as [H3 H4].
  repeat split; intros ->; discriminate.
Qed.


(** *** The JSON region *)

(** The text up to its last closing brace, and the text after it. *)
Lemma greedy_to_last_brace fuel :
  forall st,
    length (Regex.rest st) < fuel ->
    Regex.iterate
      (Regex.run false (Regex.Class false [Regex.ISpace; Regex.INotSpace]))
      true (fun st1 => Regex.run false (Regex.Lit "}") st1 Some) fuel st
    = match last_brace (Regex.rest st) with
      | Some (mid, post) =>
          Some {| Regex.pos := S (Regex.pos st + length mid);
                  Regex.prev := Some "}"%char;
                  Regex.rest := post;
                  Regex.caps := Regex.caps st |}
      | None => None
      end.
Proof.
  induction fuel as [| fuel IH]; intros st Hlen; [lia |].
  cbn [Regex.iterate Regex.run]. unfold Regex.one at 1.
  destruct st as [p pv l cs]. cbn [Regex.rest Regex.pos Regex.caps] in *.
  destruct l as [| x xs]; cbn [last_brace].
  - unfold Regex.one. reflexivity.
  - assert (xorb false
              (Regex.items_have false [Regex.ISpace; Regex.INotSpace] x)
            = true) as ->.
    { cbn. destruct (Chr.is_space x); reflexivity. }
    unfold Regex.advance. cbn [Regex.pos Regex.rest Regex.caps Regex.prev].
    replace (S p =? p)%nat with false
      by (symmetry; apply Nat.eqb_neq; lia).
    pose proof (IH {| Regex.pos := S p; Regex.prev := Some x;
                      Regex.rest := xs; Regex.caps := cs |}) as IH'.
    cbn [Regex.run Regex.rest Regex.pos Regex.caps] in IH'.
    rewrite IH' by (cbn [length] in Hlen; lia).
    destruct (last_brace xs) as [[mid post] |].
    + cbn [length]. f_equal. f_equal. lia.
    + unfold Regex.one, Regex.lit_ok. cbn [Regex.rest].
      destruct (Chr.eqb "}" x) eqn:Ex; [| reflexivity].
      apply chr_eqb_eq in Ex. subst x.
      unfold Regex.advance.
      cbn [Regex.pos Regex.rest Regex.caps Regex.prev length].
      f_equal. f_equal. lia.
Qed.

Lemma last_brace_none l : last_brace l = None -> ~ In "}"%char l.
Proof.
  induction l as [| x xs IH]; cbn [last_brace]; [auto |].
  destruct (last_brace xs) as [[? ?] |]; [discriminate |].
  destruct (Chr.eqb "}" x) eqn:Ex; [discriminate |].
  intros _ [Hx | Hin].
  - subst x. assert (Chr.eqb "}" "}" = true) by reflexivity. congruence.
  - apply IH; auto.
Qed.

Lemma last_brace_some l mid post :
  last_brace l = Some (mid, post) ->
  l = (mid ++ "}"%char :: post)%list /\ ~ In "}"%char post.
Proof.
  revert mid post. induction l as [| x xs IH]; intros mid post;
    cbn [last_brace]; [discriminate |].
  destruct (last_brace xs) as [[mid' post'] |] eqn:E.
  - intros H. injection H as <- <-.
    destruct (IH mid' post' eq_refl) as [-> Hn]. auto.
  - destruct (Chr.eqb "}" x) eqn:Ex; [| discriminate].
    apply chr_eqb_eq in Ex. subst x. intros H. injection H as <- <-.
    split; [reflexivity |]. apply last_brace_none. assumption.
Qed.

(** A match of the pattern at the start of a text. *)
Lemma json_region_here p pv l :
  Regex.run false (Regex.expr Patterns.json_region)
    {| Regex.pos := p; Regex.prev := pv; Regex.rest := l; Regex.caps := [] |}
    Some
  = match l with
    | x :: xs =>
        if Chr.eqb "{" x then
          match last_brace xs with
          | Some (mid, post) =>
              Some {| Regex.pos := S (S p + length mid);
                      Regex.prev := Some "}"%char;
                      Regex.rest := post;
                      Regex.caps := [] |}
          | None => None
          end
        else None
    | [] => None
    end.
Proof.
  destruct l as [| x xs]; [reflexivity |].
  unfold Patterns.json_region, Patterns.cs.
  cbn [Regex.expr Regex.seqs]. cbn [Regex.run]. unfold Regex.one at 1.
  cbn [Regex.rest].
  change (Regex.lit_ok false "{" x) with (Chr.eqb "{" x).
  destruct (Chr.eqb "{" x); [| reflexivity].
  exact (greedy_to_last_brace (S (length xs))
           {| Regex.pos := S p; Regex.prev := Some x;
              Regex.rest := xs; Regex.caps := [] |} (le_n _)).
Qed.

Lemma json_region_found l :
  forall p pv f,
    Regex.search_from Patterns.json_region p pv l = Some f ->
    exists pre mid post,
      l = (pre ++ "{"%char :: mid ++ "}"%char :: post)%list
      /\ ~ In "{"%char pre /\ ~ In "}"%char post
      /\ Regex.start f = p + length pre
      /\ Regex.stop f = Regex.start f + S (S (length mid)).
Proof.
  induction l as [| x xs IH]; intros p pv f; cbn [Regex.search_from].
  - change (Regex.icase Patterns.json_region) with false.
    rewrite json_region_here. discriminate.
  - change (Regex.icase Patterns.json_region) with false.
    rewrite json_region_here.
    destruct (Chr.eqb "{" x) eqn:Ex.
    + apply chr_eqb_eq in Ex. subst x.
      destruct (last_brace xs) as [[mid post] |] eqn:El.
      * intros H. injection H as <-.
        destruct (last_brace_some _ _ _ El) as [-> Hn].
        exists [], mid, post. cbn [app length Regex.start Regex.stop
                                   Regex.final Regex.pos].
        repeat split; auto. lia.
      * intros H. apply IH in H.
        destruct H as (pre & mid & post & -> & _).
        apply last_brace_none in El. exfalso. apply El.
        apply in_or_app. right. right. apply in_or_app. right. left.
        reflexivity.
    + intros H. apply IH in H.
      destruct H as (pre & mid & post & -> & Hpre & Hpost & Hs & Hst).
      exists (x :: pre), mid, post. cbn [app length].
      split; [reflexivity |]. split.
      * intros [Hx | Hin]; [| auto].
        subst x. assert (Chr.eqb "{" "{" = true) by reflexivity. congruence.
      * split; [assumption |]. split; lia.
Qed.

Lemma firstn_through {A : Type} (l : list A) (c : A) (post : list A) :
  firstn (S (length l)) (l ++ c :: post) = (l ++ [c])%list.
Proof.
  induction l as [| x l IH]; [reflexivity |].
  cbn [length app]. rewrite firstn_cons. f_equal. exact IH.
Qed.

(** X19 (the JSON region runs from the first opening to the last closing
    brace).  When the pattern of [_handleSendEmail] and
    [_handleReminder] finds a region in the text of the fast backend,
    the text handed to [JSON.parse] starts at the first opening brace of
    the text and ends at its last closing brace: it is everything
    between the two, whatever lies between, a second object or text
    included. *)
Theorem X19_json_region_is_widest :
  forall (raw : string) (f : Regex.found),
    Regex.exec Patterns.json_region raw = Some f ->
    exists pre mid post,
      Str.chars raw = (pre ++ "{"%char :: mid ++ "}"%char :: post)%list
      /\ ~ In "{"%char pre
      /\ ~ In "}"%char post
      /\ Str.chars (Regex.matched raw f)
         = ("{"%char :: mid ++ ["}"%char])%list.
Proof.
  intros raw f H. unfold Regex.exec in H.
  apply json_region_found in H.
  destruct H as (pre & mid & post & E & Hpre & Hpost & Hs & Hst).
  exists pre, mid, post. repeat split; auto.
  unfold Regex.matched, Regex.substring_chars.
  rewrite chars_of_chars, E, Hst, Hs. cbn [Nat.add].
  replace (length pre + S (S (length mid)) - length pre)
    with (S (S (length mid))) by lia.
  rewrite skipn_app, skipn_all, Nat.sub_diag. cbn [skipn app].
  apply (firstn_through ("{"%char :: mid) "}"%char post).
Qed.

(** The property for a reply with two objects: both are in the
    region. *)
Lemma X19_witness :
  exists f pre mid post,
    Regex.exec Patterns.json_region "Sure: {a} or {b}." = Some f
    /\ Str.chars "Sure: {a} or {b}."
       = (pre ++ "{"%char :: mid ++ "}"%char :: post)%list
    /\ ~ In "{"%char pre
    /\ ~ In "}"%char post
    /\ Str.chars (Regex.matched "Sure: {a} or {b}." f)
       = ("{"%char :: mid ++ ["}"%char])%list.
Proof.
  destruct (Regex.exec Patterns.json_region "Sure: {a} or {b}.")
    as [f |] eqn:E; [| vm_compute in E; discriminate E].
  destruct (X19_json_region_is_widest "Sure: {a} or {b}." f E)
    as (pre & mid & post & H).
  exists f, pre, mid, post. split; [reflexivity | exact H].
Defined.

(** *** The text of a response *)


(** ** Further properties: the configuration *)

Import Settings.

Lemma env_or_set e name fallback s :
  e name = Some s -> s <> EmptyString -> env_or e name fallback = s.
Proof.
  intros He Hs. unfold env_or, Config.env_value, or_else. rewrite He.
  destruct s; [congruence | reflexivity].
Qed.

Lemma env_or_unset e name fallback :
  e name = None -> env_or e name fallback = fallback.
Proof.
  intros He. unfold env_or, Config.env_value, or_else. rewrite He.
  reflexivity.
Qed.

Lemma env_or_empty e name fallback :
  e name = Some EmptyString -> env_or e name fallback = fallback.
Proof.
  intros He. unfold env_or, Config.env_value, or_else. rewrite He.
  reflexivity.
Qed.

(** The pieces have no separator. *)
Lemma split_chars_pieces sep l :
  Forall (fun piece => ~ In sep piece) (split_chars sep l).
Proof.
  induction l as [| c l IH]; cbn [split_chars].
  - constructor; [auto | constructor].
  - destruct (Chr.eqb c sep) eqn:E.
    + constructor; [auto | assumption].
    + destruct (split_chars sep l) as [| piece pieces].
      * constructor; [| constructor].
        intros [H | []]. subst c.
        assert (Chr.eqb sep sep = true) by (apply chr_eqb_eq; reflexivity).
        congruence.
      * inversion IH as [| ? ? Hp Hps]; subst.
        constructor; [| assumption].
        intros [H | H]; [| auto]. subst c.
        assert (Chr.eqb sep sep = true) by (apply chr_eqb_eq; reflexivity).
        congruence.
Qed.

(** A piece without separator, alone or before a separator. *)
Lemma split_chars_piece sep piece :
  ~ In sep piece -> split_chars sep piece = [piece].
Proof.
  induction piece as [| c l IH]; intros H; [reflexivity |].
  cbn [split_chars].
  destruct (Chr.eqb c sep) eqn:E.
  - apply chr_eqb_eq in E. subst c. exfalso. apply H. left. reflexivity.
  - rewrite IH; [reflexivity |]. intros Hin. apply H. right. assumption.
Qed.

Lemma split_chars_cons sep piece rest :
  ~ In sep piece ->
  split_chars sep (piece ++ sep :: rest) = piece :: split_chars sep rest.
Proof.
  induction piece as [| c l IH]; intros H; cbn [app split_chars].
  - assert (Chr.eqb sep sep = true) as -> by (apply chr_eqb_eq; reflexivity).
    reflexivity.
  - destruct (Chr.eqb c sep) eqn:E.
    + apply chr_eqb_eq in E. subst c. exfalso. apply H. left. reflexivity.
    + rewrite IH; [reflexivity |]. intros Hin. apply H. right. assumption.
Qed.

Lemma chars_append (a b : string) :
  Str.chars (a ++ b) = (Str.chars a ++ Str.chars b)%list.
Proof.
  unfold Str.chars. induction a as [| c a IH]; cbn; congruence.
Qed.

(** Splitting the joined ids gives the ids back. *)
Lemma split_join (l : list string) :
  Forall user_id l -> l <> [] ->
  split "," (Str.join "," l) = l.
Proof.
  unfold split. induction 1 as [| u l [Hu Hc] Hl IH]; intros Hne;
    [congruence |].
  destruct l as [| v l].
  - cbn [Str.join]. rewrite split_chars_piece by assumption.
    cbn [map]. rewrite of_chars_chars. reflexivity.
  - change (Str.join "," (u :: v :: l))
      with (u ++ "," ++ Str.join "," (v :: l)).
    rewrite chars_append, chars_append.
    change (Str.chars ",") with [","%char]. cbn [app].
    rewrite split_chars_cons by assumption.
    cbn [map]. rewrite of_chars_chars. f_equal.
    apply IH. discriminate.
Qed.

Lemma filter_Boolean_ids l : Forall user_id l -> filter_Boolean l = l.
Proof.
  unfold filter_Boolean. induction 1 as [| u l [Hu _] _ IH]; [reflexivity |].
  cbn [filter]. destruct u; [congruence |]. cbn [Str.is_empty negb].
  congruence.
Qed.

(** X2 (the list of allowed users).  Whatever the environment, every
    entry of [allowedUsers] is a text that is not empty and holds no
    comma: empty pieces (a stray, doubled or final comma) are dropped.
    Without ALLOWED_USERS, or with an empty one, the list is empty.
    The list round-trips: when ALLOWED_USERS is the comma-joined text of
    ids that are not empty and hold no comma, [allowedUsers] is exactly
    that list of ids, in order. *)
Theorem X2_allowed_users :
  forall (e : Config.env),
    Forall user_id (allowedUsers e)
    /\ (e "ALLOWED_USERS" = None \/ e "ALLOWED_USERS" = Some EmptyString ->
        allowedUsers e = [])
    /\ (forall ids,
          Forall user_id ids ->
          e "ALLOWED_USERS" = Some (Str.join "," ids) ->
          allowedUsers e = ids).
Proof.
  intros e. split; [| split].
  - unfold allowedUsers, filter_Boolean, split.
    apply Forall_forall. intros u Hu. apply filter_In in Hu.
    destruct Hu as [Hin Hne]. apply in_map_iff in Hin.
    destruct Hin as (piece & <- & Hp). split.
    + intros E. rewrite E in Hne. discriminate.
    + rewrite chars_of_chars.
      pose proof (split_chars_pieces ","
                    (Str.chars (env_or e "ALLOWED_USERS" EmptyString))) as H.
      rewrite Forall_forall in H. apply H. assumption.
  - intros [H | H]; unfold allowedUsers;
      [rewrite (env_or_unset _ _ _ H) | rewrite (env_or_empty _ _ _ H)];
      reflexivity.
  - intros ids Hids He. unfold allowedUsers.
    destruct ids as [| u l].
    + cbn [Str.join] in He. rewrite (env_or_empty _ _ _ He). reflexivity.
    + assert (Str.join "," (u :: l) <> EmptyString) as Hne.
      { inversion Hids as [| ? ? [Hu _] _]; subst.
        destruct u; [congruence |].
        destruct l; cbn [Str.join]; discriminate. }
      rewrite (env_or_set _ _ _ _ He Hne).
      rewrite split_join by (assumption || discriminate).
      apply filter_Boolean_ids. assumption.
Qed.

(** The property for an environment that names two users with stray
    commas around them. *)
Lemma X2_witness :
  allowedUsers (Examples.env_of [("ALLOWED_USERS", "1001,1002")])
  = ["1001"; "1002"]
  /\ allowedUsers (Examples.env_of [("ALLOWED_USERS", ",1001,,1002,")])
     = ["1001"; "1002"].
Proof.
  split; [| reflexivity].
  destruct (X2_allowed_users
              (Examples.env_of [("ALLOWED_USERS", "1001,1002")]))
    as (_ & _ & H).
  apply (H ["1001"; "1002"]); [| reflexivity].
  repeat constructor; try discriminate;
    cbn; intros H0; repeat (destruct H0 as [H0 | H0]; [discriminate H0 |]);
    exact H0.
Defined.

(** X1 (the instance never has an empty model or a zero timeout).  For
    every environment, the instance built from the loaded configuration
    has a timeout for the powerful backend that is a number other than
    zero, and a model name that is not empty: CLAUDE_TIMEOUT is read as
    a decimal integer, and 60000 is used when it is not set, is empty,
    does not start with a number or is zero; OPENAI_CODEX_MODEL is
    replaced by "gpt-5.3-codex" when it is not set or empty.  The
    instance starts with an expiry of zero, without agent system and
    without bridge, and it is ready exactly when GEMINI_API_KEY is set
    and not empty. *)
Theorem X1_instance_defaults :
  forall (e : Config.env) (date : string) (skills_arg : option skillset),
    let b := constructor (Config.load e) date skills_arg in
    openaiTimeout b <> 0%Z
    /\ openaiTimeout b
       = match parseInt (env_or e "CLAUDE_TIMEOUT" "60000") with
         | Some t => if (t =? 0)%Z then 60000%Z else t
         | None => 60000%Z
         end
    /\ (e "CLAUDE_TIMEOUT" = None \/ e "CLAUDE_TIMEOUT" = Some EmptyString ->
        openaiTimeout b = 60000%Z)
    /\ openaiModel b = VStr (env_or e "OPENAI_CODEX_MODEL" "gpt-5.3-codex")
    /\ truthy (openaiModel b) = true
    /\ _tokenExpiresAt b = Some 0%Z
    /\ agentLoop b = false /\ planner b = false /\ orchestrator b = false
    /\ mcpBridge b = false
    /\ isReady b
       = match e "GEMINI_API_KEY" with
         | Some key => negb (Str.is_empty key)
         | None => false
         end.
Proof.
  intros e date skills_arg. cbv zeta.
  unfold constructor, Config.load.
  cbn [openaiTimeout openaiModel _tokenExpiresAt agentLoop planner
       orchestrator mcpBridge Config.claudeTimeout Config.openaiCodexModel
       Config.geminiApiKey].
  fold (env_or e "CLAUDE_TIMEOUT" "60000").
  split; [| split; [reflexivity | split]].
  - destruct (parseInt (env_or e "CLAUDE_TIMEOUT" "60000")) as [t |];
      [| discriminate].
    destruct (t =? 0)%Z eqn:E; [discriminate |].
    apply Z.eqb_neq. assumption.
  - intros [H | H];
      [rewrite (env_or_unset _ _ _ H) | rewrite (env_or_empty _ _ _ H)];
      reflexivity.
  - unfold isReady, env_or, Config.env_value, or_else.
    cbn [geminiApiKey].
    destruct (e "OPENAI_CODEX_MODEL") as [[| c m] |];
      destruct (e "GEMINI_API_KEY") as [[| c' k] |]; cbn;
      repeat split; reflexivity.
Qed.

(** ** Further properties: a prompt beyond the limit *)

Lemma append_assoc (a b c : string) : (a ++ b) ++ c = a ++ (b ++ c).
Proof. induction a as [| x a IH]; cbn; congruence. Qed.

Lemma substring0_prefix n (a b : string) :
  (n <= Z.of_nat (String.length a))%Z ->
  substring0 n (a ++ b) = substring0 n a.
Proof.
  intros H. unfold substring0. rewrite chars_append, firstn_app.
  replace (Z.to_nat n - length (Str.chars a)) with 0
    by (rewrite length_chars; lia).
  cbn [firstn]. rewrite app_nil_r. reflexivity.
Qed.

Lemma safePrompt_prefix (a b : string) :
  (100000 <= Z.of_nat (String.length a))%Z -> b <> EmptyString ->
  safePrompt (a ++ b) = substring0 100000 a ++ truncation_marker.
Proof.
  intros Ha Hb. rewrite safePrompt_cut, substring0_prefix by assumption.
  rewrite length_append.
  assert (1 <= String.length b) by (destruct b; [congruence | cbn; lia]).
  replace (100000 <? Z.of_nat (String.length a + String.length b))%Z
    with true by (symmetry; apply Z.ltb_lt; lia).
  reflexivity.
Qed.

(** Beyond the limit, what follows the first 100000 characters of a
    prompt does not matter. *)
Lemma callOpenAI_prefix (a b1 b2 : string) :
  (100000 <= Z.of_nat (String.length a))%Z ->
  b1 <> EmptyString -> b2 <> EmptyString ->
  _callOpenAI (a ++ b1) = _callOpenAI (a ++ b2).
Proof.
  intros Ha H1 H2. unfold _callOpenAI, refresh_and_retry.
  rewrite !safePrompt_prefix, !substring0_prefix by assumption.
  reflexivity.
Qed.



(** ** Further properties: the answers of [think] *)

Lemma answers_empty_only {A : Type} (answer_of : A -> option value)
    (m : M A) :
  answers answer_of m -> empty_only answer_of m.
Proof.
  intros H w n b a b1 t v Hrun Ha Hv.
  rewrite (H w n b a b1 t v Hrun Ha) in Hv. discriminate.
Qed.

Lemma answers_ret (v : value) :
  truthy v = true -> answers answer_of_value (ret v).
Proof.
  intros Hv w n b a b1 t v' Hrun Ha. rewrite run_at_ret in Hrun.
  injection Hrun as <- _ _. injection Ha as <-. assumption.
Qed.

Lemma answers_ret_some (v : value) :
  truthy v = true -> answers answer_of_block (ret (Some v)).
Proof.
  intros Hv w n b a b1 t v' Hrun Ha. rewrite run_at_ret in Hrun.
  injection Hrun as <- _ _. injection Ha as <-. assumption.
Qed.

Lemma answers_falls_through : answers answer_of_block falls_through.
Proof.
  intros w n b a b1 t v Hrun Ha. unfold falls_through in Hrun.
  rewrite run_at_ret in Hrun. injection Hrun as <- _ _. discriminate.
Qed.

Lemma answers_bind {A B : Type} (answer_of : B -> option value)
    (m : M A) (f : A -> M B) :
  (forall a, answers answer_of (f a)) -> answers answer_of (bind m f).
Proof.
  intros Hf w n b x b1 t v. rewrite run_at_bind.
  destruct (run_at w n m b) as [[[a | e] b0] t0]; [| discriminate].
  destruct (run_at w (length t0 + n) (f a) b0) as [[o2 b2] t2] eqn:Ef.
  intros H. injection H as -> <- <-. eapply Hf. exact Ef.
Qed.

Lemma answers_try_catch {A : Type} (answer_of : A -> option value)
    (m : M A) (h : error -> M A) :
  answers answer_of m -> (forall e, answers answer_of (h e)) ->
  answers answer_of (try_catch m h).
Proof.
  intros Hm Hh w n b x b1 t v. rewrite run_at_try_catch.
  destruct (run_at w n m b) as [[[a | e] b0] t0] eqn:Em.
  - intros H. injection H as <- <- <-. eapply Hm. exact Em.
  - destruct (run_at w (length t0 + n) (h e) b0) as [[o2 b2] t2] eqn:Eh.
    intros H. injection H as -> <- <-. eapply Hh. exact Eh.
Qed.

Lemma answers_if {A : Type} (answer_of : A -> option value) (c : bool)
    (m1 m2 : M A) :
  answers answer_of m1 -> answers answer_of m2 ->
  answers answer_of (if c then m1 else m2).
Proof. destruct c; auto. Qed.

Lemma answers_returns (m : M value) :
  answers answer_of_value m -> answers answer_of_block (returns m).
Proof.
  intros H. unfold returns. intros w n b x b1 t v. rewrite run_at_bind.
  destruct (run_at w n m b) as [[[a | e] b0] t0] eqn:Em; [| discriminate].
  rewrite run_at_ret. intros Hr. injection Hr as <- <- <-.
  intros Ha. injection Ha as <-. eapply H; [exact Em | reflexivity].
Qed.

Lemma answers_try_assigning {A : Type} (initial : A) (first : M A)
    (body : A -> M value) (handler : A -> error -> M value) :
  (forall a, answers answer_of_value (body a)) ->
  (forall a e, answers answer_of_value (handler a e)) ->
  answers answer_of_value (try_assigning initial first body handler).
Proof.
  intros Hb Hh w n b x b1 t v. rewrite run_at_try_assigning.
  destruct (run_at w n first b) as [[[a | e] b0] t0].
  - destruct (run_at w (length t0 + n) (try_catch (body a) (handler a)) b0)
      as [[o2 b2] t2] eqn:E.
    intros H. injection H as -> <- <-.
    eapply (answers_try_catch answer_of_value (body a) (handler a));
      [apply Hb | apply Hh | exact E].
  - destruct (run_at w (length t0 + n) (handler initial e) b0)
      as [[o2 b2] t2] eqn:E.
    intros H. injection H as -> <- <-. eapply Hh. exact E.
Qed.

Lemma empty_only_bind {A B : Type} (answer_of : B -> option value)
    (m : M A) (f : A -> M B) :
  (forall a, empty_only answer_of (f a)) -> empty_only answer_of (bind m f).
Proof.
  intros Hf w n b x b1 t v. rewrite run_at_bind.
  destruct (run_at w n m b) as [[[a | e] b0] t0]; [| discriminate].
  destruct (run_at w (length t0 + n) (f a) b0) as [[o2 b2] t2] eqn:Ef.
  intros H Ha Hv. injection H as -> <- <-.
  destruct (Hf a _ _ _ _ _ _ _ Ef Ha Hv) as (pre & c & -> & Hc).
  exists (t0 ++ pre)%list, c. rewrite app_assoc. auto.
Qed.

Lemma empty_only_try_catch {A : Type} (answer_of : A -> option value)
    (m : M A) (h : error -> M A) :
  empty_only answer_of m -> (forall e, empty_only answer_of (h e)) ->
  empty_only answer_of (try_catch m h).
Proof.
  intros Hm Hh w n b x b1 t v. rewrite run_at_try_catch.
  destruct (run_at w n m b) as [[[a | e] b0] t0] eqn:Em.
  - intros H. injection H as <- <- <-. eapply Hm. exact Em.
  - destruct (run_at w (length t0 + n) (h e) b0) as [[o2 b2] t2] eqn:Eh.
    intros H Ha Hv. injection H as -> <- <-.
    destruct (Hh e _ _ _ _ _ _ _ Eh Ha Hv) as (pre & c & -> & Hc).
    exists (t0 ++ pre)%list, c. rewrite app_assoc. auto.
Qed.

Lemma empty_only_if {A : Type} (answer_of : A -> option value) (c : bool)
    (m1 m2 : M A) :
  empty_only answer_of m1 -> empty_only answer_of m2 ->
  empty_only answer_of (if c then m1 else m2).
Proof. destruct c; auto. Qed.

Lemma empty_only_perform c :
  passes_through c = true -> empty_only answer_of_value (perform c).
Proof.
  intros Hc w n b a b1 t v. rewrite run_at_perform.
  destruct (answer w n c) as [x | e]; [| discriminate].
  intros H Ha _. injection H as <- _ <-. injection Ha as <-.
  exists [], c. auto.
Qed.

Lemma empty_only_returns (m : M value) :
  empty_only answer_of_value m -> empty_only answer_of_block (returns m).
Proof.
  intros H. unfold returns. intros w n b x b1 t v. rewrite run_at_bind.
  destruct (run_at w n m b) as [[[a | e] b0] t0] eqn:Em; [| discriminate].
  rewrite run_at_ret. intros Hr. injection Hr as <- <- <-.
  intros Ha Hv. injection Ha as <-. rewrite app_nil_r.
  eapply H; [exact Em | reflexivity | assumption].
Qed.

Lemma empty_only_or_next (blk : block) (rest : M value) :
  empty_only answer_of_block blk -> empty_only answer_of_value rest ->
  empty_only answer_of_value (blk ;;; rest).
Proof.
  intros Hb Hr w n b x b1 t v. rewrite run_at_or_next.
  destruct (run_at w n blk b) as [[[[y |] | e] b0] t0] eqn:Eb;
    [| | discriminate].
  - intros H Ha Hv. injection H as <- <- <-. injection Ha as <-.
    eapply Hb; [exact Eb | reflexivity | assumption].
  - destruct (run_at w (length t0 + n) rest b0) as [[o2 b2] t2] eqn:Er.
    intros H Ha Hv. injection H as -> <- <-.
    destruct (Hr _ _ _ _ _ _ _ Er Ha Hv) as (pre & c & -> & Hc).
    exists (t0 ++ pre)%list, c. rewrite app_assoc. auto.
Qed.

Lemma empty_only_when (c : bool) (body : block) :
  empty_only answer_of_block body -> empty_only answer_of_block (when c body).
Proof.
  intros H. unfold when. apply empty_only_if; [assumption |].
  apply answers_empty_only, answers_falls_through.
Qed.

Lemma or_else_truthy a b : truthy b = true -> truthy (or_else a b) = true.
Proof. intros H. unfold or_else. destruct (truthy a) eqn:E; assumption. Qed.

Lemma truthy_has_field result key :
  truthy (opt_get result key) = true -> truthy result = true.
Proof.
  unfold opt_get, get.
  destruct result as [| | x | x | s | items | fields]; cbn;
    try discriminate; try reflexivity.
  destruct (Str.eqb key "length"); [| discriminate].
  destruct s; [discriminate | reflexivity].
Qed.

Lemma image_ok_truthy result : image_ok result = true -> truthy result = true.
Proof.
  unfold image_ok, and_then.
  destruct (truthy (opt_get result "success")) eqn:E; [| congruence].
  intros _. eapply truthy_has_field. exact E.
Qed.

(** The answers of the backends count as true. *)
Lemma answers_thinkWithGemini message context :
  answers answer_of_value (thinkWithGemini message context).
Proof.
  unfold thinkWithGemini. apply answers_bind. intros b.
  apply answers_if; [apply answers_ret; reflexivity |].
  apply answers_try_catch; [| intros e; apply answers_ret; reflexivity].
  apply answers_bind. intros apiKey. apply answers_bind. intros u.
  apply answers_bind. intros response. apply answers_bind. intros text.
  apply answers_ret, or_else_truthy. reflexivity.
Qed.

Lemma answers_fallbackToGemini message context data :
  answers answer_of_value (_fallbackToGemini message context data).
Proof.
  unfold _fallbackToGemini. apply answers_if;
    [| apply answers_thinkWithGemini].
  apply answers_try_catch; [| intros e; apply answers_ret; reflexivity].
  apply answers_bind. intros b. apply answers_bind. intros response.
  apply answers_bind. intros text.
  apply answers_ret, or_else_truthy. reflexivity.
Qed.

Lemma answers_or_fallback (v : value) (m : M value) :
  answers answer_of_value m ->
  answers answer_of_value (if truthy v then ret v else m).
Proof.
  intros H. destruct (truthy v) eqn:E; [| assumption].
  apply answers_ret. assumption.
Qed.

Lemma answers_thinkWithClaude message context :
  answers answer_of_value (thinkWithClaude message context).
Proof.
  unfold thinkWithClaude. apply answers_try_assigning.
  - intros data. apply answers_bind. intros openaiResponse.
    apply answers_or_fallback, answers_fallbackToGemini.
  - intros data e. apply answers_fallbackToGemini.
Qed.

Lemma answers_classified message context :
  answers answer_of_value (classified message context).
Proof.
  unfold classified. apply answers_bind. intros route.
  apply answers_if;
    [apply answers_thinkWithClaude | apply answers_thinkWithGemini].
Qed.

Lemma answers_composeWithClaude message context composeType :
  answers answer_of_value (_composeWithClaude message context composeType).
Proof.
  unfold _composeWithClaude. cbv zeta.
  apply answers_try_catch; [| intros e; apply answers_fallbackToGemini].
  apply answers_bind. intros ready. apply answers_bind. intros contextData.
  apply answers_bind. intros claudeResponse.
  apply answers_if; [| apply answers_fallbackToGemini].
  apply answers_ret. reflexivity.
Qed.

Lemma answers_analyzeGoogleData message context dataType :
  answers answer_of_value (_analyzeGoogleData message context dataType).
Proof.
  unfold _analyzeGoogleData.
  apply answers_try_catch; [| intros e; apply answers_ret; reflexivity].
  apply answers_bind. intros data. apply answers_bind. intros unconfigured.
  apply answers_if; [apply answers_ret; reflexivity |].
  apply answers_bind. intros b. apply answers_bind. intros response.
  apply answers_bind. intros text.
  destruct (truthy text) eqn:E; apply answers_ret; [assumption | reflexivity].
Qed.

(** A block that asks an image or video skill. *)
Lemma answers_media_block (held : brain -> bool) c
    (done : value -> bool) (failure : value -> value) :
  (forall result, done result = true -> truthy result = true) ->
  (forall result, truthy (failure result) = true) ->
  answers answer_of_block
    (bind this (fun b =>
       if held b then
         bind (perform c) (fun result =>
           if done result then ret (Some result)
           else ret (Some (failure result)))
       else falls_through)).
Proof.
  intros Hd Hf. apply answers_bind. intros b.
  apply answers_if; [| apply answers_falls_through].
  apply answers_bind. intros result.
  destruct (done result) eqn:E; apply answers_ret_some; auto.
Qed.

Section Answers.

Variable JSON_parse : string -> outcome value.

Lemma answers_handleSendEmail message context :
  answers answer_of_value (_handleSendEmail JSON_parse message context).
Proof.
  unfold _handleSendEmail.
  apply answers_try_catch; [| intros e; apply answers_ret; reflexivity].
  apply answers_bind. intros b. apply answers_bind. intros parseResponse.
  apply answers_bind. intros text. cbv zeta.
  apply answers_bind. intros [[raw found] |];
    [| apply answers_ret; reflexivity].
  apply answers_bind. intros parsed. apply answers_bind. intros to.
  apply answers_bind. intros subject. apply answers_bind. intros body.
  apply answers_if; [apply answers_ret; reflexivity |].
  apply answers_bind. intros result. apply answers_ret. reflexivity.
Qed.

Lemma empty_only_handleReminder message :
  empty_only answer_of_value (_handleReminder JSON_parse message).
Proof.
  unfold _handleReminder.
  apply empty_only_try_catch;
    [| intros e; apply answers_empty_only, answers_ret; reflexivity].
  apply empty_only_bind. intros b. apply empty_only_bind.
  intros parseResponse. apply empty_only_bind. intros text. cbv zeta.
  apply empty_only_bind. intros [[raw found] |];
    [| apply answers_empty_only, answers_ret; reflexivity].
  apply empty_only_bind. intros parsed. apply empty_only_bind. intros time.
  apply empty_only_bind. intros reminderMsg.
  apply empty_only_if;
    [| apply answers_empty_only, answers_ret; reflexivity].
  apply empty_only_if;
    [| apply answers_empty_only, answers_ret; reflexivity].
  apply empty_only_perform. reflexivity.
Qed.

Lemma empty_only_think_intents message context :
  empty_only answer_of_value (think_intents JSON_parse message context).
Proof.
  unfold think_intents. cbv zeta.
  (* Image upscale *)
  apply empty_only_or_next.
  { apply empty_only_when, answers_empty_only. unfold upscale_intent.
    apply (answers_media_block (fun b => geminiImage (skills b)) _ image_ok
             (fun result => image_failure result "Upscale failed."));
      [apply image_ok_truthy |].
    intros result. apply or_else_truthy. reflexivity. }
  (* Ultra image *)
  apply empty_only_or_next.
  { apply empty_only_when, answers_empty_only. unfold ultra_image_intent.
    cbv zeta.
    apply (answers_media_block (fun b => geminiImage (skills b)) _ image_ok
             (fun result =>
                image_failure result "Ultra image generation failed."));
      [apply image_ok_truthy |].
    intros result. apply or_else_truthy. reflexivity. }
  (* Image generation *)
  apply empty_only_or_next.
  { apply empty_only_when, answers_empty_only. unfold image_intent.
    cbv zeta.
    apply (answers_media_block (fun b => geminiImage (skills b)) _ image_ok
             (fun result => image_failure result "Image generation failed."));
      [apply image_ok_truthy |].
    intros result. apply or_else_truthy. reflexivity. }
  (* Video generation *)
  apply empty_only_or_next.
  { apply empty_only_when, answers_empty_only. unfold video_intent.
    cbv zeta.
    apply (answers_media_block (fun b => geminiVideo (skills b)) _
             (fun result => truthy (opt_get result "success"))
             (fun result => or_else (opt_get result "message")
                                    (VStr "Video generation failed."))).
    - intros result. apply truthy_has_field.
    - intros result. apply or_else_truthy. reflexivity. }
  (* Weather *)
  apply empty_only_or_next.
  { apply empty_only_when. unfold weather_intent.
    apply empty_only_bind. intros b.
    apply empty_only_if;
      [| apply answers_empty_only, answers_falls_through].
    apply empty_only_returns. cbv zeta.
    apply empty_only_try_catch;
      [| intros e; apply answers_empty_only, answers_ret; reflexivity].
    apply empty_only_if; apply empty_only_perform; reflexivity. }
  (* Send email *)
  apply empty_only_or_next.
  { apply empty_only_when, answers_empty_only. unfold send_email_intent.
    apply answers_bind. intros ready.
    apply answers_if; [| apply answers_falls_through].
    apply answers_returns, answers_handleSendEmail. }
  (* Reminder *)
  apply empty_only_or_next.
  { apply empty_only_when. unfold reminder_intent.
    apply empty_only_bind. intros b.
    apply empty_only_if;
      [| apply answers_empty_only, answers_falls_through].
    apply empty_only_returns, empty_only_handleReminder. }
  (* The three compositions *)
  apply empty_only_or_next.
  { apply empty_only_when, answers_empty_only.
    apply answers_returns, answers_composeWithClaude. }
  apply empty_only_or_next.
  { apply empty_only_when, answers_empty_only.
    apply answers_returns, answers_composeWithClaude. }
  apply empty_only_or_next.
  { apply empty_only_when, answers_empty_only.
    apply answers_returns, answers_composeWithClaude. }
  (* The three readings of Google data *)
  apply empty_only_or_next.
  { apply empty_only_when, answers_empty_only. unfold read_intent.
    apply answers_bind. intros ready.
    apply answers_if; [| apply answers_falls_through].
    apply answers_returns, answers_analyzeGoogleData. }
  apply empty_only_or_next.
  { apply empty_only_when, answers_empty_only. unfold read_intent.
    apply answers_bind. intros ready.
    apply answers_if; [| apply answers_falls_through].
    apply answers_returns, answers_analyzeGoogleData. }
  apply empty_only_or_next.
  { apply empty_only_when, answers_empty_only. unfold read_intent.
    apply answers_bind. intros ready.
    apply answers_if; [| apply answers_falls_through].
    apply answers_returns, answers_analyzeGoogleData. }
  (* Web search *)
  apply empty_only_or_next.
  { apply empty_only_when, answers_empty_only. unfold web_search_intent.
    apply answers_bind. intros b.
    apply answers_if; [| apply answers_falls_through].
    apply answers_returns, answers_thinkWithClaude. }
  (* Multi-step *)
  apply empty_only_or_next.
  { unfold multi_step_block. apply empty_only_bind. intros b.
    apply empty_only_when. unfold multi_step_intent.
    apply empty_only_bind. intros b'. apply empty_only_bind. intros result.
    destruct (truthy result) eqn:E;
      [apply answers_empty_only, answers_ret_some; assumption |].
    apply empty_only_if;
      [| apply answers_empty_only, answers_falls_through].
    apply empty_only_returns, empty_only_perform. reflexivity. }
  apply answers_empty_only, answers_classified.
Qed.

Lemma empty_only_think message context skills_arg :
  empty_only answer_of_value (think JSON_parse message context skills_arg).
Proof.
  unfold think. apply empty_only_bind. intros u.
  apply empty_only_bind. intros b.
  apply empty_only_if;
    [apply answers_empty_only, answers_thinkWithClaude |].
  apply empty_only_if;
    [apply answers_empty_only, answers_thinkWithGemini |].
  apply empty_only_if.
  { apply empty_only_if;
      [apply empty_only_perform; reflexivity
      | apply answers_empty_only, answers_ret; reflexivity]. }
  apply empty_only_if.
  { apply answers_empty_only.
    apply answers_if; [| apply answers_ret; reflexivity].
    apply answers_bind. intros result.
    apply answers_ret, or_else_truthy. reflexivity. }
  apply empty_only_think_intents.
Qed.

End Answers.

(** X25 (no empty answer of its own).  When [think] returns a value that
    counts as false (an empty text, [undefined], [null], [false] or
    zero), that value is the result of the last call of the run, and the
    call is one whose result [think] hands on as it is: the agent loop,
    the weather skill or [scheduler.addReminder].  Every other answer,
    from either backend, from the image and video skills, from the
    planner, the orchestrator and the handlers of email, documents and
    Google data, is a value that counts as true: where a backend or a
    skill gives nothing, a fixed text takes its place. *)
Theorem X25_no_empty_answer :
  forall (JSON_parse : string -> outcome value) (w : world) (n : nat)
         (b : brain) (message : string) (context : list turn)
         (skills_arg : option skillset) (v : value) (b1 : brain)
         (t : list event),
    run_at w n (think JSON_parse message context skills_arg) b
    = ((Val v, b1), t) ->
    truthy v = false ->
    exists pre c,
      t = (pre ++ [Called c (Returns v)])%list /\ passes_through c = true.
Proof.
  intros JSON_parse w n b message context skills_arg v b1 t Hrun Hv.
  exact (empty_only_think JSON_parse message context skills_arg
           w n b v b1 t v Hrun eq_refl Hv).
Qed.

(** The property for a weather skill that returns an empty text: the
    answer of [think] is that text, and the call of the skill is the
    last effect. *)
Lemma X25_witness :
  let skills :=
    {| geminiImage := false; geminiVideo := false; weather := true;
       googleWorkspace := false; scheduler := false;
       scheduler_bot := VUndefined; braveSearch := false;
       skills_memoryContext := VUndefined;
       skills_learnedContext := VUndefined;
       skills_userId := VUndefined |} in
  let w := Examples.world_of 3600 (Throws Examples.network_down)
             (Throws Examples.network_down) (Throws Examples.network_down)
             (Returns (VStr EmptyString)) in
  exists pre c,
    snd (run_at w 0
           (think (fun _ => Exn (new_Error "SyntaxError"))
                  "weather in Paris" [] (Some skills))
           (constructor Examples.both_tokens Examples.date None))
    = (pre ++ [Called c (Returns (VStr EmptyString))])%list
    /\ passes_through c = true.
Proof.
  intros skills w.
  pose (parse := fun _ : string => @Exn value (new_Error "SyntaxError")).
  pose (b := constructor Examples.both_tokens Examples.date None).
  pose (R := run_at w 0 (think parse "weather in Paris" [] (Some skills)) b).
  assert (R = ((Val (VStr EmptyString), snd (fst R)), snd R)) as HR
    by (vm_compute; reflexivity).
  exact (X25_no_empty_answer parse w 0 b "weather in Paris" []
           (Some skills) _ _ _ HR eq_refl).
Defined.

(** *** The forcing prefixes *)

Lemma gemini_prefix_only message :
  Str.startsWith message "/gemini " = true ->
  Str.startsWith message "/claude " = false.
Proof.
  unfold Str.startsWith.
  destruct (Str.chars message) as [| c0 [| c1 l]];
    cbn [Str.chars list_ascii_of_string Str.prefix_chars];
    try discriminate.
  - rewrite andb_false_r. discriminate.
  - intros H. apply andb_prop in H. destruct H as [H0 H].
    apply andb_prop in H. destruct H as [H1 _].
    apply chr_eqb_eq in H1. subst c1. rewrite H0. reflexivity.
Qed.

Lemma quiet_trace_think_setup w n b skills_arg :
  Forall (fun e => is_powerful e = false)
         (snd (run_at w n (think_setup skills_arg) b)).
Proof.
  unfold think_setup. run_steps.
  assert (forall k b0,
            Forall (fun e => is_powerful e = false)
                   (snd (run_at w k initAgentLoop b0))) as Hinit.
  { intros k b0. unfold initAgentLoop. run_steps.
    destruct (agentLoop b0); run_steps; [constructor |].
    destruct (answer w k (Invoke "tools" "registerAllTools" []))
      as [registry | e]; run_steps; [| repeat constructor].
    destruct (answer w (S k) (Invoke "AgentLoop" "new" [registry]))
      as [a1 | e]; run_steps; [| repeat constructor].
    destruct (answer w (S (S k)) (Invoke "TaskPlanner" "new" [registry]))
      as [a2 | e]; run_steps; [| repeat constructor].
    destruct (answer w (S (S (S k))) (Invoke "Orchestrator" "new" [registry]))
      as [a3 | e]; run_steps; [| repeat constructor].
    destruct (get registry "size"); run_steps; repeat constructor. }
  destruct skills_arg as [s |]; run_steps.
  - destruct (agentLoop (set_skills s b)); run_steps; [constructor |].
    pose proof (Hinit n (set_skills s b)) as H.
    destruct (initAgentLoop_run w n (set_skills s b)) as (b1 & t & Hr & _).
    rewrite Hr in H |- *. run_steps. rewrite app_nil_r. exact H.
  - destruct (agentLoop b); run_steps; [constructor |].
    pose proof (Hinit n b) as H.
    destruct (initAgentLoop_run w n b) as (b1 & t & Hr & _).
    rewrite Hr in H |- *. run_steps. rewrite app_nil_r. exact H.
Qed.

(** X23 (the prefixes of the two backends).  A message that starts with
    "/claude " is handed to [thinkWithClaude], and one that starts with
    "/gemini " to [thinkWithGemini], without the prefix and whatever
    intent its text matches: after the set-up no pattern is tried, no
    skill is asked and nothing is classified.  In both cases [think]
    does not throw and its answer counts as true; with "/gemini " no
    request reaches the powerful backend or its token endpoint. *)
Theorem X23_backend_prefixes :
  forall (JSON_parse : string -> outcome value) (w : world) (n : nat)
         (b : brain) (message : string) (context : list turn)
         (skills_arg : option skillset),
    let run := run_at w n (think JSON_parse message context skills_arg) b in
    (Str.startsWith message "/claude " = true ->
     run = run_at w n
             (bind (think_setup skills_arg)
                   (fun _ => thinkWithClaude (Str.slice_from 8 message)
                                             context)) b
     /\ exists v, fst (fst run) = Val v /\ truthy v = true)
    /\ (Str.startsWith message "/gemini " = true ->
        run = run_at w n
                (bind (think_setup skills_arg)
                      (fun _ => thinkWithGemini (Str.slice_from 8 message)
                                                context)) b
        /\ (exists v, fst (fst run) = Val v /\ truthy v = true)
        /\ count is_powerful (snd run) = 0).
Proof.
  intros JSON_parse w n b message context skills_arg. cbv zeta.
  assert (forall (m : M value),
            total m -> answers answer_of_value m ->
            exists v,
              fst (fst (run_at w n (bind (think_setup skills_arg)
                                         (fun _ => m)) b)) = Val v
              /\ truthy v = true) as Hgood.
  { intros m Ht Ha. rewrite run_at_bind.
    destruct (think_setup_run w n b skills_arg) as (b1 & t1 & -> & _).
    destruct (Ht w (length t1 + n) b1) as [v Hv].
    destruct (run_at w (length t1 + n) m b1) as [[o b2] t2] eqn:E.
    cbn [fst] in Hv |- *. subst o. exists v. split; [reflexivity |].
    eapply Ha; [exact E | reflexivity]. }
  split.
  - intros H1.
    assert (run_at w n (think JSON_parse message context skills_arg) b
            = run_at w n
                (bind (think_setup skills_arg)
                      (fun _ => thinkWithClaude (Str.slice_from 8 message)
                                                context)) b) as E.
    { unfold think. rewrite H1. rewrite !run_at_bind.
      destruct (run_at w n (think_setup skills_arg) b)
        as [[[u | e] b1] t1]; [| reflexivity].
      rewrite run_at_bind, run_at_this. cbn [length Nat.add app].
      match goal with
      | |- context [run_at w (length t1 + n) ?m b1] =>
          destruct (run_at w (length t1 + n) m b1) as [r t2]
      end. reflexivity. }
    split; [exact E |]. rewrite E.
    apply Hgood; [apply total_thinkWithClaude | apply answers_thinkWithClaude].
  - intros H2. pose proof (gemini_prefix_only message H2) as H1.
    assert (run_at w n (think JSON_parse message context skills_arg) b
            = run_at w n
                (bind (think_setup skills_arg)
                      (fun _ => thinkWithGemini (Str.slice_from 8 message)
                                                context)) b) as E.
    { unfold think. rewrite H1, H2. rewrite !run_at_bind.
      destruct (run_at w n (think_setup skills_arg) b)
        as [[[u | e] b1] t1]; [| reflexivity].
      rewrite run_at_bind, run_at_this. cbn [length Nat.add app].
      match goal with
      | |- context [run_at w (length t1 + n) ?m b1] =>
          destruct (run_at w (length t1 + n) m b1) as [r t2]
      end. reflexivity. }
    split; [exact E |]. rewrite E.
    split; [apply Hgood;
            [apply total_thinkWithGemini | apply answers_thinkWithGemini] |].
    rewrite run_at_bind.
    pose proof (quiet_trace_think_setup w n b skills_arg) as Hs.
    destruct (run_at w n (think_setup skills_arg) b) as [[[u | e] b1] t1];
      cbn [snd] in Hs.
    + destruct (quiet_thinkWithGemini (Str.slice_from 8 message) context
                  w (length t1 + n) b1) as [_ Hq].
      destruct (run_at w (length t1 + n)
                  (thinkWithGemini (Str.slice_from 8 message) context) b1)
        as [r t2]. cbn [snd] in Hq |- *.
      rewrite count_app, (count_none _ _ Hs), (count_none _ _ Hq).
      reflexivity.
    + cbn [snd]. apply count_none. assumption.
Qed.

(** The property for a message that would otherwise be an image
    request: with the prefix the image skill is not asked, and the
    plain chat answers. *)
Lemma X23_witness :
  let w := Examples.world_of 3600 (Throws Examples.network_down)
             (Throws Examples.network_down)
             (Returns (Examples.gemini_response (VStr "a cat, in words")))
             (Returns (VObj [("size", VNum 3)])) in
  fst (fst (run_at w 0
              (think (fun _ => Exn (new_Error "SyntaxError"))
                     "/gemini generate an image of a cat" []
                     (Some Examples.image_only))
              (constructor Examples.both_tokens Examples.date None)))
  = Val (VStr "a cat, in words").
Proof.
  intros w.
  destruct (X23_backend_prefixes (fun _ => Exn (new_Error "SyntaxError")) w 0
              (constructor Examples.both_tokens Examples.date None)
              "/gemini generate an image of a cat" []
              (Some Examples.image_only)) as [_ H].
  destruct (H eq_refl) as [E _]. rewrite E. vm_compute. reflexivity.
Defined.
